(** * asv: environments and results

    A shallow embedding of [asv/environment.py] and [asv/results.py]:
    the requirement-matrix expansion, the environment name, the
    environment set-up state machine, and the result records with their
    file naming, storage and scanning.

    Conventions.
    - A Python [dict] is an association list with unique keys, kept in
      insertion order (module [PyDict]).
    - An exception is a value of [PyError]; a call that may raise
      returns [result A].  A generator is read as what it does when it
      is iterated to its end: the values it yields and, if an exception
      stops it, that exception ([generator A]).
    - Text and bytes are told apart as Python 3 does: what
      [base64.b64encode] returns is [bytes], what a JSON document holds
      is text.
    - Everything the code asks of its surroundings (the executables on
      the search path, the importable modules, the processes it starts,
      the files on disk) is explicit: a [Host] record, a process oracle
      and a [World] that is threaded through the methods. *)

From Stdlib Require Import ZArith String Ascii List Permutation Sorted Lia.
From stdpp Require Import base option list strings gmap sorting.
From Equations Require Import Equations.
Import ListNotations.

Local Open Scope string_scope.
Local Open Scope list_scope.

(** ** Exceptions *)

Inductive PyError : Type :=
| RuntimeError (msg : string)
| KeyError (key : string)
| ProcessError (argv : list string)   (* util.check_call / check_output *)
| DecodeError                         (* binascii.Error, zlib.error *)
| IOError (path : string)
| OSError (path : string)             (* os.makedirs *)
| TypeError (msg : string)            (* the JSON encoder *)
| VersionError (found : Z).           (* util.load_json, api_version *)

Inductive result (A : Type) : Type :=
| Ok (a : A)
| Raise (e : PyError).
Arguments Ok {A} a.
Arguments Raise {A} e.

Definition result_bind {A B} (r : result A) (k : A -> result B) : result B :=
  match r with
  | Ok a => k a
  | Raise e => Raise e
  end.

Fixpoint result_mapM {A B} (f : A -> result B) (l : list A) : result (list B) :=
  match l with
  | [] => Ok []
  | a :: l' =>
      result_bind (f a) (fun b =>
      result_bind (result_mapM f l') (fun bs => Ok (b :: bs)))
  end.

(** A generator iterated to its end: what it yielded, in order, and
    the exception that stopped it, if one did.  What was yielded before
    an exception has reached the consumer. *)
Definition generator (A : Type) : Type := list A * option PyError.

(** [for a in l: yield f(a)] *)
Fixpoint yield_each {A B} (f : A -> result B) (l : list A) : generator B :=
  match l with
  | [] => ([], None)
  | a :: l' =>
      match f a with
      | Raise e => ([], Some e)
      | Ok b => let g := yield_each f l' in (b :: g.1, g.2)
      end
  end.

(** ** Python dictionaries *)

Module PyDict.
Section Dict.
Context {V : Type}.

Definition dict : Type := list (string * V).

Definition keys (d : dict) : list string := map fst d.

Definition items (d : dict) : list (string * V) := d.

(** [d[k]], [None] standing for the [KeyError]. *)
Fixpoint get (k : string) (d : dict) : option V :=
  match d with
  | [] => None
  | (k', v) :: d' => if String.eqb k k' then Some v else get k d'
  end.

(** [k in d] *)
Definition mem (k : string) (d : dict) : bool :=
  match get k d with Some _ => true | None => false end.

(** [d[k] = v]: an existing key keeps its position, a new key goes
    last. *)
Fixpoint set (k : string) (v : V) (d : dict) : dict :=
  match d with
  | [] => [(k, v)]
  | (k', v') :: d' =>
      if String.eqb k k' then (k, v) :: d' else (k', v') :: set k v d'
  end.

(** [del d[k]] *)
Fixpoint del (k : string) (d : dict) : dict :=
  match d with
  | [] => []
  | (k', v') :: d' =>
      if String.eqb k k' then del k d' else (k', v') :: del k d'
  end.

(** The representation invariant: keys are unique. *)
Definition wf (d : dict) : Prop := NoDup (keys d).

(** Python's [==] on dictionaries: the same keys with the same
    values, whatever the insertion order. *)
Definition eq_dict (d1 d2 : dict) : Prop :=
  forall k, get k d1 = get k d2.
End Dict.
Arguments dict V : clear implicits.
End PyDict.

Abbreviation dict := PyDict.dict.

(** ** os.path (POSIX flavour) *)

Module OsPath.
Definition sep : string := "/".

Definition startswith (p s : string) : bool := String.prefix p s.

Definition endswith (s suffix : string) : bool :=
  String.prefix (String.rev suffix) (String.rev s).

(** [posixpath.join] for two components: an absolute second component
    replaces the first, an empty first component or one that already
    ends in the separator takes no extra separator. *)
Definition join (a b : string) : string :=
  if startswith sep b then b
  else if (String.eqb a "" || endswith a sep)%bool then a +:+ b
  else a +:+ sep +:+ b.

Definition join_all (a : string) (p : list string) : string :=
  fold_left join p a.

(** [s.split(os.path.sep)] *)
Fixpoint split_sep_aux (cur : string) (s : string) : list string :=
  match s with
  | EmptyString => [String.rev cur]
  | String c s' =>
      if Ascii.eqb c "/"%char then String.rev cur :: split_sep_aux "" s'
      else split_sep_aux (String c cur) s'
  end.

Definition split_sep (s : string) : list string := split_sep_aux "" s.

(** [l[-2:]] *)
Definition last_two {A} (l : list A) : list A :=
  skipn (length l - 2) l.

(** The last component of a path, and what comes before its
    separator. *)
Definition basename (p : string) : string :=
  List.last (split_sep p) "".

Definition dirname (p : string) : string :=
  String.concat sep (removelast (split_sep p)).
End OsPath.

(** ** asv/environment.py *)

Module environment.

(** What the code asks of the machine it runs on.  [which] is
    [util.which]; [virtualenv_source] is the source file of the
    [virtualenv] module when it can be imported, already made absolute,
    and [None] when the import fails; [abspath] is [os.path.abspath]
    (it depends on the current directory). *)
Record Host : Type := {
  which : string -> list string;
  virtualenv_source : option string;
  abspath : string -> string
}.

Record Environment : Type := {
  _executable : list string;
  _env_dir : string;
  _python : string;
  _requirements : dict (option string);
  _path : string;
  _virtualenv_path : string;
  _is_setup : bool;
  _requirements_installed : bool
}.

(** Order on the [(key, value)] tuples of a requirement dictionary, as
    [list.sort] sees it: keys first, values on equal keys ([None] below
    every string there).  In a dictionary keys are unique, so values are
    never compared. *)
Definition value_ltb (a b : option string) : bool :=
  match a, b with
  | None, Some _ => true
  | Some x, Some y => String.ltb x y
  | _, None => false
  end.

Definition item_ltb (a b : string * option string) : bool :=
  (String.ltb a.1 b.1 || (String.eqb a.1 b.1 && value_ltb a.2 b.2))%bool.

(** [reqs.sort()]: a stable insertion sort; an item goes in front of
    the first one that is not smaller than it. *)
Fixpoint sort_insert (x : string * option string)
    (l : list (string * option string)) : list (string * option string) :=
  match l with
  | [] => [x]
  | y :: l' => if item_ltb y x then y :: sort_insert x l' else x :: l
  end.

Definition sort_items (l : list (string * option string))
  : list (string * option string) :=
  fold_right sort_insert [] l.

(** One requirement as it appears in the name. *)
Definition render_requirement (kv : string * option string) : string :=
  match kv.2 with
  | Some val => String.concat "" [kv.1; val]
  | None => kv.1
  end.

(** [Environment.name], as a function of what it reads. *)
Definition environment_name (python : string)
    (requirements : dict (option string)) : string :=
  let name := ["py" +:+ python] in
  let reqs := sort_items (PyDict.items requirements) in
  String.concat "-" (name ++ map render_requirement reqs).

Definition name (e : Environment) : string :=
  environment_name (_python e) (_requirements e).

Definition requirements (e : Environment) : dict (option string) :=
  _requirements e.

Definition python (e : Environment) : string := _python e.

(** [Environment.__init__] *)
Definition Environment_init (host : Host) (env_dir python : string)
    (requirements : dict (option string)) : result Environment :=
  let executables := which host ("python" +:+ python) in
  if Nat.eqb (length executables) 0 then
    Raise (RuntimeError ("No executable found for version " +:+ python))
  else
    match virtualenv_source host with
    | None => Raise (RuntimeError "virtualenv must be installed to run asv")
    | Some src =>
        Ok {| _executable := executables;
              _env_dir := env_dir;
              _python := python;
              _requirements := requirements;
              _path := OsPath.join env_dir (environment_name python requirements);
              _virtualenv_path := src;
              _is_setup := false;
              _requirements_installed := false |}
    end.

(** The part of [conf] that [get_environments] reads. *)
Record Config : Type := {
  env_dir : string;
  pythons : list string;
  matrix : dict (list string);
  project : string
}.

(** [iter_matrix]: the first key is taken out of a copy of the matrix,
    the rest is expanded, and every partial result is extended by each
    version of that key, or by [None] when the key lists none.  The
    generator is read off as the list of what it yields, in order. *)
Equations? iter_matrix (matrix : dict (list string))
  : list (dict (option string)) by wf (length matrix) lt :=
  iter_matrix [] := [ [] ];
  iter_matrix ((key, entry) :: rest) :=
    flat_map
      (fun result =>
         if Nat.eqb (length entry) 0
         then [PyDict.set key None result]
         else map (fun value => PyDict.set key (Some value) result) entry)
      (iter_matrix (PyDict.del key rest)).
Proof.
  clear iter_matrix. induction rest as [|[k v] rest IH]; simpl.
  - lia.
  - destruct (String.eqb key k); simpl in *; lia.
Qed.

(** The (python, requirements) pairs in the order [get_environments]
    builds environments from them. *)
Definition configurations (conf : Config)
  : list (string * dict (option string)) :=
  flat_map (fun python => map (pair python) (iter_matrix (matrix conf)))
           (pythons conf).

(** [get_environments]: a generator; it yields one environment per
    configuration, up to the first constructor that fails. *)
Definition get_environments (host : Host) (conf : Config)
  : generator Environment :=
  yield_each (fun pc => Environment_init host (env_dir conf) pc.1 pc.2)
             (configurations conf).

(** The size the matrix stands for: one factor per key, an empty
    version list counting for one. *)
Definition matrix_size (m : dict (list string)) : nat :=
  fold_right Nat.mul 1 (map (fun kv => Nat.max 1 (length kv.2)) m).


(** ** The world around an environment *)

(** What leaves the process: the directories made and removed, and the
    commands started through [util.check_call] and [util.check_output]. *)
Inductive Call : Type :=
| Makedirs (path : string)
| Rmtree (path : string)
| CheckCall (executable : list string) (args : list string)
| CheckOutput (argv : list string) (error : bool).

(** The paths that exist, and the calls made so far, oldest first. *)
Record World : Type := {
  fs : gset string;
  trace : list Call
}.

(** What a started command does: whether it exits with success, what it
    prints, and what exists on disk afterwards.  It may depend on
    everything that happened before. *)
Record Outcome : Type := {
  success : bool;
  output : string;
  fs_after : gset string
}.

Definition Oracle : Type := World -> Call -> Outcome.

(** [q] is [p] or lies below it. *)
Definition below (p q : string) : bool :=
  (String.eqb q p || String.prefix (p +:+ OsPath.sep) q)%bool.

(** The state a method runs in: the object and the world. *)
Record St : Type := {
  self : Environment;
  world : World
}.

(** A method body: it reads and updates the state and returns or raises;
    what was done before an exception stays done. *)
Definition M (A : Type) : Type := St -> result A * St.

Definition ret {A} (a : A) : M A := fun s => (Ok a, s).

Definition raise {A} (e : PyError) : M A := fun s => (Raise e, s).

Definition bind {A B} (m : M A) (k : A -> M B) : M B :=
  fun s =>
    match m s with
    | (Ok a, s') => k a s'
    | (Raise e, s') => (Raise e, s')
    end.

Declare Scope py_scope.
Delimit Scope py_scope with py.
Notation "x <- m ;; k" := (bind m (fun x => k))
  (at level 100, m at next level, right associativity) : py_scope.
Notation "m ;;; k" := (bind m (fun _ => k))
  (at level 100, right associativity) : py_scope.

(** [try: body except: handler; raise] with a bare [except]: the handler
    runs on any exception and the exception is raised again, unless the
    handler raises one of its own. *)
Definition try_except_reraise {A} (body : M A) (handler : M unit) : M A :=
  fun s =>
    match body s with
    | (Ok a, s') => (Ok a, s')
    | (Raise e, s') =>
        match handler s' with
        | (Ok _, s'') => (Raise e, s'')
        | (Raise e', s'') => (Raise e', s'')
        end
    end.

Definition when (b : bool) (m : M unit) : M unit :=
  if b then m else ret tt.

Fixpoint for_each {A} (l : list A) (body : A -> M unit) : M unit :=
  match l with
  | [] => ret tt
  | a :: l' => bind (body a) (fun _ => for_each l' body)
  end.

Definition read {A} (f : Environment -> A) : M A :=
  fun s => (Ok (f (self s)), s).

Definition set_is_setup (b : bool) : M unit :=
  fun s =>
    let e := self s in
    (Ok tt,
     {| self := {| _executable := _executable e;
                   _env_dir := _env_dir e;
                   _python := _python e;
                   _requirements := _requirements e;
                   _path := _path e;
                   _virtualenv_path := _virtualenv_path e;
                   _is_setup := b;
                   _requirements_installed := _requirements_installed e |};
        world := world s |}).

Definition set_requirements_installed (b : bool) : M unit :=
  fun s =>
    let e := self s in
    (Ok tt,
     {| self := {| _executable := _executable e;
                   _env_dir := _env_dir e;
                   _python := _python e;
                   _requirements := _requirements e;
                   _path := _path e;
                   _virtualenv_path := _virtualenv_path e;
                   _is_setup := _is_setup e;
                   _requirements_installed := b |};
        world := world s |}).

(** [os.path.exists] *)
Definition path_exists (p : string) : M bool :=
  fun s => (Ok (bool_decide (p ∈ fs (world s))), s).

(** [os.makedirs]: the directory exists afterwards.  The empty path
    names no directory and a directory that is there cannot be made
    again: both are errors, and nothing is made. *)
Definition makedirs (p : string) : M unit :=
  fun s =>
    if (String.eqb p "" || bool_decide (p ∈ fs (world s)))%bool
    then (Raise (OSError p), s)
    else
      (Ok tt,
       {| self := self s;
          world := {| fs := {[ p ]} ∪ fs (world s);
                      trace := trace (world s) ++ [Makedirs p] |} |}).

(** [shutil.rmtree]: the directory and all below it are gone. *)
Definition rmtree (p : string) : M unit :=
  fun s =>
    (Ok tt,
     {| self := self s;
        world := {| fs := filter (fun q => below p q = false) (fs (world s));
                    trace := trace (world s) ++ [Rmtree p] |} |}).

Section Lifecycle.
Context (host : Host) (oracle : Oracle).

(** Starts a command: the oracle says how it ends; the call is
    recorded and the disk is as the command left it. *)
Definition start (c : Call) : M Outcome :=
  fun s =>
    let o := oracle (world s) c in
    (Ok o,
     {| self := self s;
        world := {| fs := fs_after o;
                    trace := trace (world s) ++ [c] |} |}).

(** Modelled from the spec: [util.check_call] is not part of the
    sources at hand; it runs the command to its end and a failure of
    the command is an error for the caller. *)
Definition check_call (executable : list string) (args : list string)
  : M unit :=
  (o <- start (CheckCall executable args) ;;
   if success o then ret tt
   else raise (ProcessError (executable ++ args)))%py.

(** Modelled from the spec: [util.check_output] is not part of the
    sources at hand; it returns what the command printed, and a
    failure of the command is an error unless [error] is false
    (uninstalling a package that is not there is not an error). *)
Definition check_output (argv : list string) (error : bool) : M string :=
  (o <- start (CheckOutput argv error) ;;
   if (success o || negb error)%bool then ret (output o)
   else raise (ProcessError argv))%py.

(** [Environment.setup].  The two [log] calls only write to the
    console and are left out. *)
Definition setup : M unit :=
  (is_setup <- read _is_setup ;;
   if is_setup then ret tt
   else
     env_dir <- read _env_dir ;;
     env_dir_exists <- path_exists env_dir ;;
     when (negb env_dir_exists) (makedirs env_dir) ;;;
     try_except_reraise
       (path <- read _path ;;
        exists_ <- path_exists path ;;
        executable <- read _executable ;;
        virtualenv_path <- read _virtualenv_path ;;
        when (negb exists_)
             (check_call executable
                [virtualenv_path; "--no-site-packages"; path]))
       (path <- read _path ;;
        exists_ <- path_exists path ;;
        when exists_ (rmtree path)) ;;;
     set_is_setup true)%py.

(** [Environment._run_executable] *)
Definition _run_executable (executable : string) (args : list string)
    (error : bool) : M string :=
  (path <- read _path ;;
   check_output (OsPath.join_all path ["bin"; executable] :: args) error)%py.

(** [Environment.install] *)
Definition install (package : string) (editable : bool) : M unit :=
  let args := ["install"] ++ (if editable then ["-e"] else []) ++ [package] in
  (_run_executable "pip" args true ;;; ret tt)%py.

(** [Environment.upgrade] *)
Definition upgrade (package : string) : M unit :=
  (_run_executable "pip" ["install"; "--upgrade"; package] true ;;; ret tt)%py.

(** [Environment.uninstall] *)
Definition uninstall (package : string) : M unit :=
  (_run_executable "pip" ["uninstall"; "-y"; package] false ;;; ret tt)%py.

(** [Environment.install_requirements] *)
Definition install_requirements : M unit :=
  (installed <- read _requirements_installed ;;
   if installed then ret tt
   else
     setup ;;;
     upgrade "setuptools" ;;;
     reqs <- read _requirements ;;
     for_each (PyDict.items reqs)
       (fun kv =>
          match kv.2 with
          | Some val => upgrade (kv.1 +:+ "==" +:+ val)
          | None => upgrade kv.1
          end) ;;;
     set_requirements_installed true)%py.

(** [Environment.run] *)
Definition run (args : list string) (error : bool) : M string :=
  (install_requirements ;;;
   _run_executable "python" args error)%py.

(** [Environment.install_project] *)
Definition install_project (conf : Config) : M unit :=
  (install_requirements ;;;
   uninstall (project conf) ;;;
   install (abspath host (project conf)) true)%py.
End Lifecycle.

(** How often the trace starts the command that creates an environment,
    and how often it starts any command at all. *)
Definition is_create (c : Call) : bool :=
  match c with CheckCall _ _ => true | _ => false end.

Definition creations (w : World) : nat :=
  length (List.filter is_create (trace w)).

End environment.

(** ** base64 and zlib *)

(** Byte strings are Rocq strings: one character is one byte. *)
Definition bytes : Type := string.

Module base64.
Definition alphabet : list ascii :=
  list_ascii_of_string
    "ABCDEFGHIJKLMNOPQRSTUVWXYZabcdefghijklmnopqrstuvwxyz0123456789+/".

Definition pad : ascii := "="%char.

(** The character of a six-bit value. *)
Definition char_of (n : N) : ascii :=
  nth (N.to_nat n) alphabet pad.

(** The six-bit value of a character of the alphabet. *)
Fixpoint index_of (c : ascii) (l : list ascii) (i : N) : option N :=
  match l with
  | [] => None
  | c' :: l' => if Ascii.eqb c c' then Some i else index_of c l' (N.succ i)
  end.

Definition value_of (c : ascii) : option N := index_of c alphabet 0%N.

(** [base64.b64encode]: three bytes give four characters; one or two
    bytes left over give two or three characters and padding. *)
Fixpoint b64encode (s : bytes) : string :=
  match s with
  | EmptyString => EmptyString
  | String a EmptyString =>
      let x := N_of_ascii a in
      String (char_of (x / 4))
     (String (char_of (x mod 4 * 16))
     (String pad (String pad EmptyString)))
  | String a (String b EmptyString) =>
      let x := N_of_ascii a in
      let y := N_of_ascii b in
      String (char_of (x / 4))
     (String (char_of (x mod 4 * 16 + y / 16))
     (String (char_of (y mod 16 * 4))
     (String pad EmptyString)))
  | String a (String b (String c rest)) =>
      let x := N_of_ascii a in
      let y := N_of_ascii b in
      let z := N_of_ascii c in
      String (char_of (x / 4))
     (String (char_of (x mod 4 * 16 + y / 16))
     (String (char_of (y mod 16 * 4 + z / 64))
     (String (char_of (z mod 64)) (b64encode rest))))
  end%N.

(** [base64.b64decode] on text made of whole groups of four
    characters of the alphabet with padding in the last group only;
    anything else is rejected here. *)
Fixpoint b64decode (s : string) : result bytes :=
  match s with
  | EmptyString => Ok EmptyString
  | String c1 (String c2 (String c3 (String c4 rest))) =>
      match value_of c1, value_of c2 with
      | Some v1, Some v2 =>
          let x := ascii_of_N (v1 * 4 + v2 / 16) in
          if (Ascii.eqb c3 pad && Ascii.eqb c4 pad)%bool then
            match rest with
            | EmptyString => Ok (String x EmptyString)
            | _ => Raise DecodeError
            end
          else
            match value_of c3 with
            | Some v3 =>
                let y := ascii_of_N (v2 mod 16 * 16 + v3 / 4) in
                if Ascii.eqb c4 pad then
                  match rest with
                  | EmptyString => Ok (String x (String y EmptyString))
                  | _ => Raise DecodeError
                  end
                else
                  match value_of c4 with
                  | Some v4 =>
                      let z := ascii_of_N (v3 mod 4 * 64 + v4) in
                      result_bind (b64decode rest) (fun tl =>
                        Ok (String x (String y (String z tl))))
                  | None => Raise DecodeError
                  end
            | None => Raise DecodeError
            end
      | _, _ => Raise DecodeError
      end
  | _ => Raise DecodeError
  end%N.
End base64.

(** The [zlib] module, as far as the code uses it: a compressor and its
    decompressor.  Which bytes [compress] chooses is left open. *)
Class Zlib : Type := {
  compress : bytes -> bytes;
  decompress : bytes -> result bytes
}.

(** What the format promises: [decompress] reads back what [compress]
    wrote. *)
Class ZlibLossless (z : Zlib) : Prop :=
  decompress_compress : forall x, decompress (compress x) = Ok x.

(** One such zlib, the compressor of level zero: the data is cut into
    stored blocks (RFC 1951, section 3.2.4) inside a zlib stream
    (RFC 1950) with its Adler-32 check; the decompressor reads such
    streams. *)
Module zlib_stored.

Definition block_max : nat := N.to_nat 65535.

Definition u16le (n : N) : list ascii :=
  [ascii_of_N (n mod 256); ascii_of_N (n / 256)].

Definition u32be (n : N) : list ascii :=
  [ascii_of_N (n / 16777216); ascii_of_N (n / 65536 mod 256);
   ascii_of_N (n / 256 mod 256); ascii_of_N (n mod 256)].

Definition adler32 (data : list ascii) : N :=
  let step (ab : N * N) (c : ascii) :=
    let a := ((ab.1 + N_of_ascii c) mod 65521)%N in
    (a, ((ab.2 + a) mod 65521)%N) in
  let ab := fold_left step data (1%N, 0%N) in
  (ab.2 * 65536 + ab.1)%N.

(** One stored block: the final-block bit, the length, its complement,
    the bytes. *)
Definition block (final : bool) (data : list ascii) : list ascii :=
  let len := N.of_nat (length data) in
  ascii_of_N (if final then 1 else 0)
    :: u16le len ++ u16le (65535 - len) ++ data.

(** The data as stored blocks of at most 65535 bytes, the last one
    marked final. *)
Equations? blocks (data : list ascii) : list ascii by wf (length data) lt :=
  blocks data with le_lt_dec (length data) block_max => {
    | left _ => block true data;
    | right _ => block false (firstn block_max data)
                   ++ blocks (skipn block_max data) }.
Proof.
  rewrite length_skipn. assert (0 < block_max) by (unfold block_max; lia). lia.
Qed.

Definition deflate (data : list ascii) : list ascii :=
  [ascii_of_N 120; ascii_of_N 1] ++ blocks data ++ u32be (adler32 data).

(** Reads stored blocks up to the final one; gives the data and what
    follows the final block.  Every block takes at least five bytes,
    so the length of the input is fuel enough. *)
Fixpoint inflate_blocks (fuel : nat) (s : list ascii)
  : result (list ascii * list ascii) :=
  match fuel with
  | O => Raise DecodeError
  | S fuel' =>
      match s with
      | h :: l0 :: l1 :: n0 :: n1 :: rest =>
          let len := (N_of_ascii l0 + 256 * N_of_ascii l1)%N in
          let nlen := (N_of_ascii n0 + 256 * N_of_ascii n1)%N in
          if negb (len + nlen =? 65535)%N then Raise DecodeError
          else if (length rest <? N.to_nat len)%nat then Raise DecodeError
          else
            let data := firstn (N.to_nat len) rest in
            let rest' := skipn (N.to_nat len) rest in
            if (N_of_ascii h =? 1)%N then Ok (data, rest')
            else if (N_of_ascii h =? 0)%N then
              result_bind (inflate_blocks fuel' rest') (fun dr =>
                Ok (data ++ dr.1, dr.2))
            else Raise DecodeError
      | _ => Raise DecodeError
      end
  end.

Definition inflate (s : list ascii) : result (list ascii) :=
  match s with
  | cmf :: flg :: body =>
      let c := N_of_ascii cmf in
      let f := N_of_ascii flg in
      if ((c mod 16 =? 8) && ((c * 256 + f) mod 31 =? 0)
          && (f / 32 mod 2 =? 0))%N%bool
      then
        result_bind (inflate_blocks (length body) body) (fun dr =>
          if bool_decide (dr.2 = u32be (adler32 dr.1)) then Ok dr.1
          else Raise DecodeError)
      else Raise DecodeError
  | _ => Raise DecodeError
  end.

Definition compress (x : bytes) : bytes :=
  string_of_list_ascii (deflate (list_ascii_of_string x)).

Definition decompress (y : bytes) : result bytes :=
  result_bind (inflate (list_ascii_of_string y)) (fun data =>
    Ok (string_of_list_ascii data)).

End zlib_stored.

#[export] Instance zlib_level0 : Zlib :=
  {| compress := zlib_stored.compress;
     decompress := zlib_stored.decompress |}.

(** ** asv/results.py *)

Module results.
Import environment.

(** A benchmark time: an integer or a float, kept as it is. *)
Inductive number : Type :=
| Int (z : Z)
| Float (bits : Z).

(** The document of a result file. *)
Record Document : Type := {
  doc_results : dict number;
  doc_params : dict string;
  doc_requirements : dict (option string);
  doc_commit_hash : string;
  doc_date : Z;
  doc_python : string;
  doc_profiles : option (dict string)
}.

(** What a JSON file holds: a result document stamped with its
    version, or something else ([machine.json], [benchmarks.json]). *)
Inductive File : Type :=
| ResultFile (version : Z) (d : Document)
| OtherFile (version : Z).

(** The files on disk by path, in the order a directory walk meets
    them. *)
Definition Disk : Type := dict File.

(** A stored profile.  [base64.b64encode] returns [bytes]; what a JSON
    document holds is text.  The characters are those of the base64
    alphabet either way. *)
Inductive encoded : Type :=
| Bytes (data : bytes)
| Text (data : string).

Definition characters (v : encoded) : string :=
  match v with
  | Bytes data => data
  | Text data => data
  end.

Record Results : Type := {
  _params : dict string;
  _env : Environment;
  _commit_hash : string;
  _date : Z;
  _results : dict number;
  _profiles : dict encoded;
  _python : string;
  _filename : string
}.

Definition api_version : Z := 1.

(** [Results.__init__] *)
Definition Results_init (params : dict string) (env : Environment)
    (commit_hash : string) (date : Z) : result Results :=
  match PyDict.get "machine" params with
  | None => Raise (KeyError "machine")
  | Some machine =>
      Ok {| _params := params;
            _env := env;
            _commit_hash := commit_hash;
            _date := date;
            _results := [];
            _profiles := [];
            _python := environment.python env;
            _filename :=
              OsPath.join machine
                (substring 0 8 commit_hash +:+ "-" +:+ environment.name env
                 +:+ ".json") |}
  end.

Definition commit_hash (r : Results) : string := _commit_hash r.
Definition date (r : Results) : Z := _date r.
Definition params (r : Results) : dict string := _params r.
Definition results (r : Results) : dict number := _results r.
Definition env (r : Results) : Environment := _env r.

Definition with_results (r : Results) (d : dict number) : Results :=
  {| _params := _params r; _env := _env r; _commit_hash := _commit_hash r;
     _date := _date r; _results := d; _profiles := _profiles r;
     _python := _python r; _filename := _filename r |}.

Definition with_profiles (r : Results) (d : dict encoded) : Results :=
  {| _params := _params r; _env := _env r; _commit_hash := _commit_hash r;
     _date := _date r; _results := _results r; _profiles := d;
     _python := _python r; _filename := _filename r |}.

Definition with_filename (r : Results) (f : string) : Results :=
  {| _params := _params r; _env := _env r; _commit_hash := _commit_hash r;
     _date := _date r; _results := _results r; _profiles := _profiles r;
     _python := _python r; _filename := f |}.

(** [Results.add_time] *)
Definition add_time (r : Results) (benchmark_name : string) (time : number)
  : Results :=
  with_results r (PyDict.set benchmark_name time (_results r)).

Section Profiles.
Context `{Zlib}.

(** [Results.add_profile] *)
Definition add_profile (r : Results) (benchmark_name : string)
    (profile : bytes) : Results :=
  with_profiles r
    (PyDict.set benchmark_name (Bytes (base64.b64encode (compress profile)))
                (_profiles r)).

(** [Results.get_profile]; [base64.b64decode] takes bytes and text
    alike. *)
Definition get_profile (r : Results) (benchmark_name : string)
  : result bytes :=
  match PyDict.get benchmark_name (_profiles r) with
  | None => Raise (KeyError benchmark_name)
  | Some profile_data =>
      result_bind (base64.b64decode (characters profile_data)) decompress
  end.
End Profiles.

(** [Results.has_profile] *)
Definition has_profile (r : Results) (benchmark_name : string) : bool :=
  PyDict.mem benchmark_name (_profiles r).

(** The dictionary [save] hands to the writer: the fields of the
    record as they are in memory. *)
Record Data : Type := {
  data_results : dict number;
  data_params : dict string;
  data_requirements : dict (option string);
  data_commit_hash : string;
  data_date : Z;
  data_python : string;
  data_profiles : dict encoded
}.

(** The JSON encoder on the profiles: text goes through, a value of
    type [bytes] is refused. *)
Definition json_profiles (profiles : dict encoded) : result (dict string) :=
  result_mapM
    (fun kv : string * encoded =>
       match kv.2 with
       | Text data => Ok (kv.1, data)
       | Bytes _ => Raise (TypeError "bytes is not JSON serializable")
       end)
    profiles.

Definition json_document (data : Data) : result Document :=
  result_bind (json_profiles (data_profiles data)) (fun profiles =>
    Ok {| doc_results := data_results data;
          doc_params := data_params data;
          doc_requirements := data_requirements data;
          doc_commit_hash := data_commit_hash data;
          doc_date := data_date data;
          doc_python := data_python data;
          doc_profiles := Some profiles |}).

(** Modelled from the spec: [util.write_json] is not part of the
    sources at hand; it encodes the data as JSON and writes the
    document, stamped with the version it is given, at the path, making
    the directories on the way.  The write is atomic: when the encoder
    refuses the data the tree is as it was.  The result is how the call
    ends and the disk after it. *)
Definition write_json (disk : Disk) (path : string) (data : Data)
    (version : Z) : result unit * Disk :=
  match json_document data with
  | Ok d => (Ok tt, PyDict.set path (ResultFile version d) disk)
  | Raise e => (Raise e, disk)
  end.

(** What [util.load_json] hands back: the mapping of a result
    document, or one without its keys. *)
Inductive Json : Type :=
| JDocument (d : Document)
| JOther.

(** Modelled from the spec: [util.load_json] is not part of the
    sources at hand; it reads the document at the path and checks its
    version: an older one goes through the migration hook, which may
    fail, and a newer one is refused. *)
Definition load_json (migrate : Z -> Document -> option Document)
    (disk : Disk) (path : string) (version : Z) : result Json :=
  match PyDict.get path disk with
  | None => Raise (IOError path)
  | Some (OtherFile v) =>
      if (v =? version)%Z then Ok JOther else Raise (VersionError v)
  | Some (ResultFile v d) =>
      if (v =? version)%Z then Ok (JDocument d)
      else if (v <? version)%Z then
        match migrate v d with
        | Some d' => Ok (JDocument d')
        | None => Raise (VersionError v)
        end
      else Raise (VersionError v)
  end.

(** [Results.save]: how the call ends, and the disk after it. *)
Definition save (r : Results) (result_dir : string) (disk : Disk)
  : result unit * Disk :=
  let path := OsPath.join result_dir (_filename r) in
  write_json disk path
    {| data_results := _results r;
       data_params := _params r;
       data_requirements := environment.requirements (_env r);
       data_commit_hash := _commit_hash r;
       data_date := _date r;
       data_python := _python r;
       data_profiles := _profiles r |}
    api_version.

(** The profiles of a document as [load] finds them: text. *)
Definition text_profiles (p : dict string) : dict encoded :=
  map (fun kv : string * string => (kv.1, Text kv.2)) p.

(** The path [save] writes to. *)
Definition saved_path (r : Results) (result_dir : string) : string :=
  OsPath.join result_dir (_filename r).

Section Store.
Context (host : Host) (migrate : Z -> Document -> option Document).

(** [Results.load] *)
Definition load (disk : Disk) (path : string) : result Results :=
  result_bind (load_json migrate disk path api_version) (fun j =>
  match j with
  | JOther => Raise (KeyError "params")
  | JDocument d =>
      result_bind
        (Environment_init host "" (doc_python d) (doc_requirements d))
        (fun e =>
      result_bind
        (Results_init (doc_params d) e (doc_commit_hash d) (doc_date d))
        (fun obj =>
      let obj := with_results obj (doc_results d) in
      let obj :=
        match doc_profiles d with
        | Some p => with_profiles obj (text_profiles p)
        | None => obj
        end in
      match OsPath.last_two (OsPath.split_sep path) with
      | [] => Raise (RuntimeError "join() needs a path")
      | a :: p => Ok (with_filename obj (OsPath.join_all a p))
      end))
  end).

Definition skip_files : list string := ["machine.json"; "benchmarks.json"].

(** [os.walk] as [iter_results] uses it: every file below [top], as
    the directory it is in and its name, in the order of the walk.
    The empty path names no directory. *)
Definition walk (disk : Disk) (top : string) : list (string * string) :=
  if String.eqb top "" then []
  else
    let prefix := OsPath.join top "" in
    map (fun p => (OsPath.dirname p, OsPath.basename p))
        (List.filter (OsPath.startswith prefix) (PyDict.keys disk)).

(** [iter_results], run to the end. *)
Definition iter_results (disk : Disk) (results : string)
  : result (list Results) :=
  result_mapM
    (fun rf : string * string =>
       load disk (OsPath.join rf.1 rf.2))
    (List.filter
       (fun rf : string * string =>
          (negb (bool_decide (rf.2 ∈ skip_files))
           && OsPath.endswith rf.2 ".json")%bool)
       (walk disk results)).

(** [iter_results_for_machine] *)
Definition iter_results_for_machine (disk : Disk)
    (results machine_name : string) : result (list Results) :=
  iter_results disk (OsPath.join results machine_name).

(** [iter_existing_hashes] *)
Definition iter_existing_hashes (disk : Disk) (results : string)
  : result (list (string * Z)) :=
  result_bind (iter_results disk results) (fun rs =>
    Ok (map (fun r => (commit_hash r, date r)) rs)).

(** [get_existing_hashes]: the pairs through a set and back into a
    list; the set decides the order of the list. *)
Definition get_existing_hashes (disk : Disk) (results : string)
  : result (list (string * Z)) :=
  result_bind (iter_existing_hashes disk results) (fun pairs =>
    let hashes := elements (list_to_set pairs : gset (string * Z)) in
    Ok hashes).

(** The loop of [find_latest_result_hash]: the state is
    [(latest_date, latest_hash)]. *)
Definition latest_step (st : Z * string) (cd : string * Z) : Z * string :=
  if (cd.2 >? st.1)%Z then (cd.2, cd.1) else st.

Definition latest_loop (pairs : list (string * Z)) : Z * string :=
  fold_left latest_step pairs (0%Z, "").

(** [find_latest_result_hash] *)
Definition find_latest_result_hash (disk : Disk) (machine root : string)
  : result string :=
  let root := OsPath.join root machine in
  result_bind (iter_existing_hashes disk root) (fun pairs =>
    Ok (latest_loop pairs).2).
End Store.

(** [os.remove]: the file must be there. *)
Definition remove (disk : Disk) (path : string) : result Disk :=
  match PyDict.get path disk with
  | None => Raise (IOError path)
  | Some _ => Ok (PyDict.del path disk)
  end.

(** [Results.rm]: the disk after the call. *)
Definition rm (r : Results) (result_dir : string) (disk : Disk)
  : result Disk :=
  let path := OsPath.join result_dir (_filename r) in
  remove disk path.

End results.

(** * Definitions for the statements *)

Import environment.
Import results.

(** The order of [list.sort] on items, as a three-way comparison. *)
Definition value_compare (a b : option string) : comparison :=
  match a, b with
  | None, None => Eq
  | None, Some _ => Lt
  | Some _, None => Gt
  | Some x, Some y => String.compare x y
  end.

Definition item_compare (a b : string * option string) : comparison :=
  match String.compare a.1 b.1 with
  | Eq => value_compare a.2 b.2
  | c => c
  end.

Definition item_le (a b : string * option string) : Prop :=
  item_ltb b a = false.

(** One requirement as the name shows it: the package name with the
    version, if there is one, right after it. *)
Definition requirement_text (kv : string * option string) : string :=
  match kv.2 with
  | Some version => kv.1 +:+ version
  | None => kv.1
  end.

(** The command [setup] starts to create the environment. *)
Definition create_call (e : Environment) : Call :=
  CheckCall (_executable e) [_virtualenv_path e; "--no-site-packages"; _path e].

(** [setup] can make sure of the root directory: it is there, or it
    has a name under which to make it. *)
Definition root_available (e : Environment) (w : World) : Prop :=
  _env_dir e ∈ fs w \/ _env_dir e <> "".

(** The world once [setup] has made sure of the root directory. *)
Definition ensure_env_dir (e : Environment) (w : World) : World :=
  if bool_decide (_env_dir e ∈ fs w) then w
  else {| fs := {[ _env_dir e ]} ∪ fs w;
          trace := trace w ++ [Makedirs (_env_dir e)] |}.

(** How often a call of [setup] starts the creating command: once,
    unless the object is set up already or its directory exists. *)
Definition creations_of_setup (e : Environment) (w : World) : nat :=
  if (_is_setup e || bool_decide (_path e ∈ fs (ensure_env_dir e w)))%bool
  then 0 else 1.

(** The two commands of [install_project]. *)
Definition uninstall_call (e : Environment) (conf : Config) : Call :=
  CheckOutput
    [OsPath.join_all (_path e) ["bin"; "pip"]; "uninstall"; "-y"; project conf]
    false.

Definition install_call (host : Host) (e : Environment) (conf : Config)
  : Call :=
  CheckOutput
    [OsPath.join_all (_path e) ["bin"; "pip"]; "install"; "-e";
     abspath host (project conf)]
    true.

(** The path of a record, spelled out. *)
Definition canonical_path (machine commit_hash identity : string) : string :=
  machine +:+ "/" +:+ substring 0 8 commit_hash +:+ "-" +:+ identity
  +:+ ".json".

(** The environment [load] builds from a document. *)
Definition placeholder (exe : list string) (src : string) (d : Document)
  : Environment :=
  {| _executable := exe;
     _env_dir := "";
     environment._python := doc_python d;
     _requirements := doc_requirements d;
     _path :=
       OsPath.join "" (environment_name (doc_python d) (doc_requirements d));
     _virtualenv_path := src;
     _is_setup := false;
     _requirements_installed := false |}.


(** A record the JSON encoder takes: none of its profiles is of type
    [bytes]. *)
Definition is_text (v : encoded) : bool :=
  match v with
  | Text _ => true
  | Bytes _ => false
  end.


(** A name without the path separator in it. *)
Definition sep_free (s : string) : bool :=
  forallb (fun c => negb (Ascii.eqb c "/"%char)) (list_ascii_of_string s).

(** The command [upgrade] starts for a package, and what
    [install_requirements] asks it for one requirement. *)
Definition upgrade_call (e : Environment) (package : string) : Call :=
  CheckOutput
    [OsPath.join_all (_path e) ["bin"; "pip"]; "install"; "--upgrade"; package]
    true.

Definition requirement_spec (kv : string * option string) : string :=
  match kv.2 with
  | Some val => kv.1 +:+ "==" +:+ val
  | None => kv.1
  end.

(** The command [run] starts. *)
Definition python_call (e : Environment) (args : list string) (error : bool)
  : Call :=
  CheckOutput (OsPath.join_all (_path e) ["bin"; "python"] :: args) error.

(** How an object may differ after a method: what identifies the
    environment is as before, and a flag that was set is still set. *)
Definition evolves (e e' : Environment) : Prop :=
  _executable e' = _executable e
  /\ _env_dir e' = _env_dir e
  /\ environment._python e' = environment._python e
  /\ _requirements e' = _requirements e
  /\ _path e' = _path e
  /\ _virtualenv_path e' = _virtualenv_path e
  /\ (_is_setup e = true -> _is_setup e' = true)
  /\ (_requirements_installed e = true -> _requirements_installed e' = true).

(** A method body under which the object only evolves. *)
Definition keeps {A} (m : M A) : Prop :=
  forall s, evolves (self s) (self (m s).2).

(** The requirements are never marked installed on an object that is
    not set up. *)
Definition flags_consistent (e : Environment) : Prop :=
  _requirements_installed e = true -> _is_setup e = true.

(** The paths [iter_results] hands to [Results.load], in order. *)
Definition result_paths (disk : Disk) (top : string) : list string :=
  map (fun rf : string * string => OsPath.join rf.1 rf.2)
      (List.filter
         (fun rf : string * string =>
            (negb (bool_decide (rf.2 ∈ skip_files))
             && OsPath.endswith rf.2 ".json")%bool)
         (walk disk top)).

(** * Scenarios *)

(** The matrix of two numpy versions and an unpinned cython, under two
    interpreters. *)
Definition conf_numpy_cython : Config :=
  {| env_dir := "env"; pythons := ["2.7"; "3.4"];
     matrix := [("numpy", ["1.7"; "1.8"]); ("cython", [])];
     project := "project" |}.

(** A host on which every interpreter is found, and one on which none
    is. *)
Definition host_with_python : Host :=
  {| which := fun exe => ["/usr/bin/" +:+ exe];
     virtualenv_source := Some "/usr/lib/python/virtualenv.py";
     abspath := fun p => "/home/asv/" +:+ p |}.

Definition host_without_python : Host :=
  {| which := fun exe => [];
     virtualenv_source := Some "/usr/lib/python/virtualenv.py";
     abspath := fun p => "/home/asv/" +:+ p |}.

(** A host that has Python 2.7 only. *)
Definition host_with_python27 : Host :=
  {| which := fun exe =>
       if String.eqb exe "python2.7" then ["/usr/bin/python2.7"] else [];
     virtualenv_source := Some "/usr/lib/python/virtualenv.py";
     abspath := fun p => "/home/asv/" +:+ p |}.

(** The environment of Python 3.6 with requests 2.9, as
    [Environment.__init__] builds it on the first host, and a state in
    which nothing exists on disk yet. *)
Definition env_py36 : Environment :=
  {| _executable := ["/usr/bin/python3.6"];
     _env_dir := "env";
     environment._python := "3.6";
     _requirements := [("requests", Some "2.9")];
     _path := "env/py3.6-requests2.9";
     _virtualenv_path := "/usr/lib/python/virtualenv.py";
     _is_setup := false;
     _requirements_installed := false |}.

Definition fresh_state : St :=
  {| self := env_py36; world := {| fs := ∅; trace := [] |} |}.

Definition conf_project : Config :=
  {| env_dir := "env"; pythons := ["3.6"];
     matrix := [("requests", ["2.9"])]; project := "project" |}.

(** A creating command that fails and leaves half an environment
    behind. *)
Definition failing_oracle : Oracle :=
  fun w c =>
    match c with
    | CheckCall _ [_; _; path] =>
        {| success := false; output := "";
           fs_after := {[ path; path +:+ "/bin" ]} ∪ fs w |}
    | _ => {| success := true; output := ""; fs_after := fs w |}
    end.

(** A world in which the environment is created but pip fails. *)
Definition pip_failing_oracle : Oracle :=
  fun w c =>
    match c with
    | CheckCall _ [_; _; path] =>
        {| success := true; output := ""; fs_after := {[ path ]} ∪ fs w |}
    | _ => {| success := false; output := ""; fs_after := fs w |}
    end.

(** A world in which the project is not installed yet: the command
    that must not fail, [pip uninstall], is the one that fails. *)
Definition nothing_to_uninstall_oracle : Oracle :=
  fun w c =>
    match c with
    | CheckOutput _ false => {| success := false; output := ""; fs_after := fs w |}
    | _ => {| success := true; output := ""; fs_after := fs w |}
    end.

(** A world in which every command succeeds and nothing else happens. *)
Definition obliging_oracle : Oracle :=
  fun w c => {| success := true; output := ""; fs_after := fs w |}.

Definition state_after_first_install : St :=
  (install_project host_with_python obliging_oracle conf_project fresh_state).2.

Definition state_after_second_install : St :=
  (install_project host_with_python obliging_oracle conf_project
     state_after_first_install).2.

(** Results trees to run the scan on. *)
Definition no_migration : Z -> Document -> option Document :=
  fun _ _ => None.

Definition document_of (commit_hash : string) (date : Z) : Document :=
  {| doc_results := [("time_sort", Int 12)];
     doc_params := [("machine", "bench1")];
     doc_requirements := [("requests", Some "2.9")];
     doc_commit_hash := commit_hash;
     doc_date := date;
     doc_python := "3.6";
     doc_profiles := Some [] |}.

Definition disk_three_records : Disk :=
  [ ("results/bench1/machine.json", OtherFile 1);
    ("results/bench1/aaaa1111-py3.6-requests2.9.json",
     ResultFile 1 (document_of "aaaa1111" 100));
    ("results/bench1/bbbb2222-py3.6-requests2.9.json",
     ResultFile 1 (document_of "bbbb2222" 300));
    ("results/bench1/cccc3333-py3.6-requests2.9.json",
     ResultFile 1 (document_of "cccc3333" 200));
    ("results/bench2/dddd4444-py3.6-requests2.9.json",
     ResultFile 1 (document_of "dddd4444" 900)) ].

Definition disk_epoch_record : Disk :=
  [ ("results/bench1/aaaa1111-py3.6-requests2.9.json",
     ResultFile 1 (document_of "aaaa1111" 0)) ].

(** Two commits of one machine that carry the same, greatest date. *)
Definition disk_tied_records : Disk :=
  [ ("results/bench1/aaaa1111-py3.6-requests2.9.json",
     ResultFile 1 (document_of "aaaa1111" 100));
    ("results/bench1/bbbb2222-py3.6-requests2.9.json",
     ResultFile 1 (document_of "bbbb2222" 300));
    ("results/bench1/cccc3333-py3.6-requests2.9.json",
     ResultFile 1 (document_of "cccc3333" 300)) ].

(** A result file that carries a profile, and the record [load] makes
    of it. *)
Definition profile_text : string :=
  Eval vm_compute in base64.b64encode (zlib_stored.compress "profile").

Definition document_with_profile : Document :=
  {| doc_results := [("time_sort", Int 12)];
     doc_params := [("machine", "bench1")];
     doc_requirements := [("requests", Some "2.9")];
     doc_commit_hash := "abcdef1234567890";
     doc_date := 1000;
     doc_python := "3.6";
     doc_profiles := Some [("time_sort", profile_text)] |}.

Definition disk_profile_record : Disk :=
  [ ("results/bench1/abcdef12-py3.6-requests2.9.json",
     ResultFile 1 document_with_profile) ].

Definition record_loaded : Results :=
  {| _params := [("machine", "bench1")];
     _env := placeholder ["/usr/bin/python3.6"]
               "/usr/lib/python/virtualenv.py" document_with_profile;
     _commit_hash := "abcdef1234567890";
     _date := 1000;
     _results := [("time_sort", Int 12)];
     _profiles := [("time_sort", Text profile_text)];
     results._python := "3.6";
     _filename := "bench1/abcdef12-py3.6-requests2.9.json" |}.

(** A record to save and load: as [Results.__init__] builds it, then
    with a time and a profile. *)
Definition record_bench1_new : Results :=
  {| _params := [("machine", "bench1")];
     _env := env_py36;
     _commit_hash := "abcdef1234567890";
     _date := 1000;
     _results := [];
     _profiles := [];
     results._python := "3.6";
     _filename := "bench1/abcdef12-py3.6-requests2.9.json" |}.

Definition record_bench1 : Results :=
  add_profile (add_time record_bench1_new "time_sort" (Int 12))
    "time_sort" "profile".

(** * Properties *)

(** ** Dictionaries *)

Section DictFacts.
Context {V : Type}.
Implicit Types (d : dict V) (k : string) (v : V).

Lemma get_set_eq d k v : PyDict.get k (PyDict.set k v d) = Some v.
Proof.
  induction d as [|[k' v'] d IH]; simpl.
  - by rewrite String.eqb_refl.
  - destruct (String.eqb k k') eqn:E; simpl; rewrite ?String.eqb_refl, ?E; done.
Qed.

Lemma get_set_ne d k k' v :
  k <> k' -> PyDict.get k (PyDict.set k' v d) = PyDict.get k d.
Proof.
  intros Hne. induction d as [|[k0 v0] d IH]; simpl.
  - destruct (String.eqb_spec k k'); done.
  - destruct (String.eqb_spec k' k0) as [->|]; simpl.
    + destruct (String.eqb_spec k k0); done.
    + destruct (String.eqb_spec k k0); done.
Qed.

Lemma del_absent d k : k ∉ PyDict.keys d -> PyDict.del k d = d.
Proof.
  induction d as [|[k' v'] d IH]; simpl; [done|].
  rewrite not_elem_of_cons. intros [Hne Hnin].
  destruct (String.eqb_spec k k'); [done|]. by rewrite IH.
Qed.

Lemma get_Some_elem_of d k v : PyDict.get k d = Some v -> (k, v) ∈ d.
Proof.
  induction d as [|[k' v'] d IH]; simpl; [done|].
  destruct (String.eqb_spec k k') as [->|].
  - intros [= ->]. left.
  - intros. right. auto.
Qed.

Lemma elem_of_get d k v : PyDict.wf d -> (k, v) ∈ d -> PyDict.get k d = Some v.
Proof.
  unfold PyDict.wf.
  induction d as [|[k' v'] d IH]; simpl; [by rewrite elem_of_nil|].
  rewrite NoDup_cons, elem_of_cons. intros [Hnin Hnd] [[= -> ->]|Hin].
  - by rewrite String.eqb_refl.
  - destruct (String.eqb_spec k k') as [->|]; [|by auto].
    exfalso. apply Hnin. change k' with (fst (k', v)).
    by apply list_elem_of_fmap_2.
Qed.

(** Two dictionaries that are equal as mappings hold the same items,
    in some order. *)
Lemma eq_dict_Permutation d1 d2 :
  PyDict.wf d1 -> PyDict.wf d2 -> PyDict.eq_dict d1 d2 -> d1 ≡ₚ d2.
Proof.
  intros Hwf1 Hwf2 Heq. apply NoDup_Permutation.
  - eapply NoDup_fmap_1. exact Hwf1.
  - eapply NoDup_fmap_1. exact Hwf2.
  - intros [k v]. split; intros Hin.
    + apply get_Some_elem_of. rewrite <- Heq. by apply elem_of_get.
    + apply get_Some_elem_of. rewrite Heq. by apply elem_of_get.
Qed.
End DictFacts.

(** ** The matrix expansion *)

Lemma length_flat_map_const {A B} (f : A -> list B) (l : list A) (c : nat) :
  (forall a, length (f a) = c) -> length (flat_map f l) = length l * c.
Proof.
  intros Hf. induction l as [|a l IH]; simpl; [done|].
  rewrite length_app, Hf, IH. lia.
Qed.

(** On a dictionary the first key occurs once, so dropping it leaves
    the rest of the list. *)
Lemma iter_matrix_cons key entry (rest : dict (list string)) :
  PyDict.wf ((key, entry) :: rest) ->
  iter_matrix ((key, entry) :: rest) =
  flat_map
    (fun result =>
       if Nat.eqb (length entry) 0
       then [PyDict.set key None result]
       else map (fun value => PyDict.set key (Some value) result) entry)
    (iter_matrix rest).
Proof.
  unfold PyDict.wf. simpl. rewrite NoDup_cons. intros [Hnin _].
  simp iter_matrix. by rewrite del_absent.
Qed.

Lemma iter_matrix_length (m : dict (list string)) :
  PyDict.wf m -> length (iter_matrix m) = matrix_size m.
Proof.
  induction m as [|[key entry] rest IH]; intros Hwf.
  - reflexivity.
  - rewrite iter_matrix_cons by done.
    rewrite (length_flat_map_const _ _ (Nat.max 1 (length entry))).
    + rewrite IH; [unfold matrix_size; simpl; lia|].
      unfold PyDict.wf in *. simpl in Hwf. by apply NoDup_cons in Hwf as [_ ?].
    + intros result. destruct entry; simpl; [done|].
      rewrite length_map. lia.
Qed.

Lemma iter_matrix_empty_entry (m : dict (list string)) key reqs :
  PyDict.wf m ->
  PyDict.get key m = Some [] ->
  reqs ∈ iter_matrix m ->
  PyDict.get key reqs = Some None.
Proof.
  revert reqs. induction m as [|[k entry] rest IH]; intros reqs Hwf Hget Hin.
  - done.
  - rewrite iter_matrix_cons in Hin by done.
    apply list_elem_of_In, in_flat_map in Hin as (result & Hres & Hin).
    apply list_elem_of_In in Hres, Hin.
    assert (Hwf' : PyDict.wf rest).
    { unfold PyDict.wf in *. simpl in Hwf. by apply NoDup_cons in Hwf as [_ ?]. }
    simpl in Hget. destruct (String.eqb_spec key k) as [->|Hne].
    + injection Hget as ->. simpl in Hin. apply list_elem_of_singleton in Hin as ->.
      apply get_set_eq.
    + assert (PyDict.get key result = Some None) as Hr by eauto.
      destruct (Nat.eqb (length entry) 0).
      * apply list_elem_of_singleton in Hin as ->. by rewrite get_set_ne.
      * apply list_elem_of_fmap in Hin as (value & -> & _). by rewrite get_set_ne.
Qed.

Lemma Environment_init_Ok host dir py reqs e :
  Environment_init host dir py reqs = Ok e ->
  _env_dir e = dir /\ environment._python e = py /\ _requirements e = reqs
  /\ _executable e = which host ("python" +:+ py) /\ _executable e <> []
  /\ virtualenv_source host = Some (_virtualenv_path e)
  /\ _path e = OsPath.join dir (environment_name py reqs)
  /\ _is_setup e = false /\ _requirements_installed e = false.
Proof.
  unfold Environment_init.
  destruct (which host ("python" +:+ py)) as [|x xs] eqn:Hw; simpl; [done|].
  destruct (virtualenv_source host); [|done].
  intros [= <-]. simpl. done.
Qed.

(** What a generator yields maps back to what it was run on, as far as
    it got. *)
Lemma yield_each_yielded {A B} (f : A -> result B) (g : B -> A) l :
  (forall a b, f a = Ok b -> g b = a) ->
  exists rest, l = map g (yield_each f l).1 ++ rest
               /\ ((yield_each f l).2 = None -> rest = []).
Proof.
  intros Hfg. induction l as [|a l (rest & IH & Hrest)]; simpl.
  - by exists [].
  - destruct (f a) as [b|e] eqn:Hfa; simpl.
    + exists rest. rewrite (Hfg a b Hfa). split; [by f_equal|done].
    + by exists (a :: l).
Qed.

Lemma yield_each_exhausted {A B} (f : A -> result B) (g : B -> A) l bs :
  (forall a b, f a = Ok b -> g b = a) ->
  yield_each f l = (bs, None) -> map g bs = l.
Proof.
  intros Hfg Hrun.
  destruct (yield_each_yielded f g l Hfg) as (rest & Hl & Hrest).
  rewrite Hrun in Hl, Hrest. simpl in *.
  rewrite (Hrest eq_refl), app_nil_r in Hl. by symmetry.
Qed.

Lemma yield_each_total {A B} (f : A -> result B) (l : list A) :
  Forall (fun a => exists b, f a = Ok b) l ->
  exists bs, yield_each f l = (bs, None) /\ length bs = length l.
Proof.
  induction 1 as [|a l [b Hb] _ (bs & Hbs & Hlen)]; simpl.
  - by exists [].
  - rewrite Hb, Hbs. simpl. exists (b :: bs). simpl. by rewrite Hlen.
Qed.

Lemma yield_each_app {A B} (f : A -> result B) (l1 l2 : list A) :
  yield_each f (l1 ++ l2)
  = match (yield_each f l1).2 with
    | None => ((yield_each f l1).1 ++ (yield_each f l2).1,
               (yield_each f l2).2)
    | Some e => yield_each f l1
    end.
Proof.
  induction l1 as [|a l1 IH]; simpl.
  - by destruct (yield_each f l2).
  - destruct (f a) as [b|e]; simpl; [|done].
    rewrite IH. by destruct (yield_each f l1) as [bs [e|]].
Qed.

Lemma Environment_init_total host dir py reqs :
  which host ("python" +:+ py) <> [] ->
  virtualenv_source host <> None ->
  exists e, Environment_init host dir py reqs = Ok e.
Proof.
  intros Hexe Hsrc. unfold Environment_init.
  destruct (which host _); [done|]. simpl.
  destruct (virtualenv_source host); [|done]. by eexists.
Qed.

(** C1.  On a matrix (a dictionary from package names to version
    lists, empty lists allowed) the expansion yields as many
    configurations as there are interpreters times the product, over
    the keys, of [max 1 (number of versions)]; a key without versions
    is in every configuration, bound to [None]; the environments
    [get_environments] builds are these configurations, one each; and
    on a host that has every interpreter (and virtualenv) it builds
    them all. *)
Theorem matrix_expansion_count (conf : Config) :
  PyDict.wf (matrix conf) ->
  length (configurations conf)
    = length (pythons conf) * matrix_size (matrix conf)
  /\ (forall key python reqs,
        PyDict.get key (matrix conf) = Some [] ->
        (python, reqs) ∈ configurations conf ->
        PyDict.get key reqs = Some None)
  /\ (forall host envs,
        get_environments host conf = (envs, None) ->
        map (fun e => (environment.python e, environment.requirements e)) envs
          = configurations conf)
  /\ (forall host,
        Forall (fun python => which host ("python" +:+ python) <> [])
               (pythons conf) ->
        virtualenv_source host <> None ->
        exists envs,
          get_environments host conf = (envs, None)
          /\ length envs
             = length (pythons conf) * matrix_size (matrix conf)).
Proof.
  intros Hwf.
  assert (Hlen : length (configurations conf)
                 = length (pythons conf) * matrix_size (matrix conf)).
  { unfold configurations. apply length_flat_map_const. intros python.
    by rewrite length_map, iter_matrix_length. }
  split; [exact Hlen|]. split; [|split].
  - intros key python reqs Hget Hin. unfold configurations in Hin.
    apply list_elem_of_In, in_flat_map in Hin as (py & _ & Hin).
    apply list_elem_of_In, list_elem_of_fmap in Hin
      as (reqs' & [= -> ->] & Hin).
    eapply iter_matrix_empty_entry; eauto.
  - intros host envs. unfold get_environments. apply yield_each_exhausted.
    intros [py reqs] e He. simpl in He.
    apply Environment_init_Ok in He as (_ & <- & <- & _). done.
  - intros host Hexe Hsrc. rewrite <- Hlen. unfold get_environments.
    apply yield_each_total. apply Forall_forall. intros [py reqs] Hin.
    unfold configurations in Hin.
    apply list_elem_of_In, in_flat_map in Hin as (py' & Hpy & Hin).
    apply list_elem_of_In, list_elem_of_fmap in Hin as (reqs' & [= -> ->] & _).
    simpl. apply Environment_init_total; [|done].
    rewrite Forall_forall in Hexe. by apply Hexe, list_elem_of_In.
Qed.

Lemma matrix_expansion_count_witness :
  PyDict.wf (matrix conf_numpy_cython)
  /\ length (configurations conf_numpy_cython) = 4
  /\ exists envs,
       get_environments host_with_python conf_numpy_cython = (envs, None)
       /\ length envs = 4.
Proof.
  assert (Hwf : PyDict.wf (matrix conf_numpy_cython)).
  { unfold PyDict.wf. simpl. compute_done. }
  split; [exact Hwf|].
  split; [exact (proj1 (matrix_expansion_count conf_numpy_cython Hwf))|].
  refine (proj2 (proj2 (proj2 (matrix_expansion_count conf_numpy_cython Hwf)))
            host_with_python _ _).
  - repeat constructor; discriminate.
  - discriminate.
Defined.

(** ** The environment name *)

Lemma ascii_compare_lt_trans a b c :
  Ascii.compare a b = Lt -> Ascii.compare b c = Lt -> Ascii.compare a c = Lt.
Proof.
  unfold Ascii.compare. rewrite !N.compare_lt_iff. lia.
Qed.

Lemma string_compare_refl s : String.compare s s = Eq.
Proof.
  induction s as [|a s IH]; simpl; [done|].
  unfold Ascii.compare. by rewrite N.compare_refl.
Qed.

Lemma string_compare_lt_trans s1 s2 s3 :
  String.compare s1 s2 = Lt -> String.compare s2 s3 = Lt ->
  String.compare s1 s3 = Lt.
Proof.
  revert s2 s3. induction s1 as [|a s1 IH]; intros [|b s2] [|c s3]; simpl; try done.
  destruct (Ascii.compare a b) eqn:Hab; try done;
    destruct (Ascii.compare b c) eqn:Hbc; try done.
  - apply Ascii.compare_eq_iff in Hab as ->. rewrite Hbc. eauto.
  - apply Ascii.compare_eq_iff in Hab as ->. by rewrite Hbc.
  - apply Ascii.compare_eq_iff in Hbc as <-. by rewrite Hab.
  - by rewrite (ascii_compare_lt_trans a b c).
Qed.

Lemma value_compare_antisym a b :
  value_compare a b = CompOpp (value_compare b a).
Proof. destruct a, b; simpl; try done. apply String.compare_antisym. Qed.

Lemma value_compare_eq a b : value_compare a b = Eq -> a = b.
Proof.
  destruct a, b; simpl; try done.
  intros ?%String.compare_eq_iff. by subst.
Qed.

Lemma value_compare_lt_trans a b c :
  value_compare a b = Lt -> value_compare b c = Lt -> value_compare a c = Lt.
Proof. destruct a, b, c; simpl; try done. apply string_compare_lt_trans. Qed.

Lemma item_compare_antisym a b :
  item_compare a b = CompOpp (item_compare b a).
Proof.
  unfold item_compare. rewrite (String.compare_antisym b.1 a.1).
  destruct (String.compare a.1 b.1); simpl; try done.
  apply value_compare_antisym.
Qed.

Lemma item_compare_eq a b : item_compare a b = Eq -> a = b.
Proof.
  unfold item_compare. destruct a as [k1 v1], b as [k2 v2]. simpl.
  destruct (String.compare k1 k2) eqn:Hk; try done.
  apply String.compare_eq_iff in Hk as ->.
  by intros ->%value_compare_eq.
Qed.

Lemma item_compare_lt_trans a b c :
  item_compare a b = Lt -> item_compare b c = Lt -> item_compare a c = Lt.
Proof.
  unfold item_compare. destruct a as [k1 v1], b as [k2 v2], c as [k3 v3]. simpl.
  destruct (String.compare k1 k2) eqn:H12; try done;
    destruct (String.compare k2 k3) eqn:H23; try done.
  - apply String.compare_eq_iff in H12 as ->. rewrite H23.
    apply value_compare_lt_trans.
  - apply String.compare_eq_iff in H12 as ->. by rewrite H23.
  - apply String.compare_eq_iff in H23 as <-. by rewrite H12.
  - by rewrite (string_compare_lt_trans k1 k2 k3).
Qed.

Lemma item_ltb_compare a b : item_ltb a b = true <-> item_compare a b = Lt.
Proof.
  unfold item_ltb, item_compare, String.ltb.
  destruct a as [k1 v1], b as [k2 v2]. simpl.
  destruct (String.compare k1 k2) eqn:Hk; simpl.
  - apply String.compare_eq_iff in Hk as ->. rewrite String.eqb_refl. simpl.
    destruct v1, v2; simpl; try done. unfold String.ltb.
    by destruct (String.compare _ _).
  - done.
  - destruct (String.eqb_spec k1 k2) as [->|]; simpl; [|done].
    by rewrite string_compare_refl in Hk.
Qed.

Lemma item_le_compare a b : item_le a b <-> item_compare a b <> Gt.
Proof.
  unfold item_le. rewrite <- not_true_iff_false, item_ltb_compare.
  rewrite (item_compare_antisym a b).
  destruct (item_compare b a); simpl; split; done.
Qed.

#[local] Instance item_le_trans : Transitive item_le.
Proof.
  intros a b c. rewrite !item_le_compare. intros Hab Hbc.
  destruct (item_compare a b) eqn:E1; [| |done].
  - by apply item_compare_eq in E1 as ->.
  - destruct (item_compare b c) eqn:E2; [| |done].
    + apply item_compare_eq in E2 as <-. by rewrite E1.
    + by rewrite (item_compare_lt_trans a b c).
Qed.

#[local] Instance item_le_antisymm : AntiSymm (=) item_le.
Proof.
  intros a b. rewrite !item_le_compare, (item_compare_antisym b a).
  destruct (item_compare a b) eqn:E; simpl; try done.
  intros _ _. by apply item_compare_eq.
Qed.

Lemma item_le_total a b : item_le a b \/ item_le b a.
Proof.
  rewrite !item_le_compare, (item_compare_antisym b a).
  destruct (item_compare a b); simpl; auto.
Qed.

Lemma sort_insert_Permutation x l : sort_insert x l ≡ₚ x :: l.
Proof.
  induction l as [|y l IH]; simpl; [done|].
  destruct (item_ltb y x); [|done].
  rewrite IH. apply Permutation_swap.
Qed.

Lemma sort_items_Permutation l : sort_items l ≡ₚ l.
Proof.
  induction l as [|x l IH]; simpl; [done|].
  by rewrite sort_insert_Permutation, IH.
Qed.

Lemma sort_insert_sorted x l :
  StronglySorted item_le l -> StronglySorted item_le (sort_insert x l).
Proof.
  induction 1 as [|y l Hl IH Hall]; simpl.
  - by repeat constructor.
  - destruct (item_ltb y x) eqn:Hyx.
    + constructor; [done|].
      rewrite sort_insert_Permutation. constructor; [|done].
      destruct (item_le_total y x) as [?|Hxy]; [done|].
      unfold item_le in Hxy. congruence.
    + constructor; [by constructor|].
      constructor; [done|].
      eapply Forall_impl; [exact Hall|].
      intros z Hyz. by trans y.
Qed.

Lemma sort_items_sorted l : StronglySorted item_le (sort_items l).
Proof.
  induction l as [|x l IH]; simpl; [constructor|].
  by apply sort_insert_sorted.
Qed.

(** Sorting forgets the order the items came in. *)
Lemma sort_items_Permutation_eq l1 l2 :
  l1 ≡ₚ l2 -> sort_items l1 = sort_items l2.
Proof.
  intros Hp. apply (StronglySorted_unique item_le).
  - apply sort_items_sorted.
  - apply sort_items_sorted.
  - by rewrite !sort_items_Permutation.
Qed.

Lemma item_le_key a b : item_le a b -> String.leb a.1 b.1 = true.
Proof.
  rewrite item_le_compare. unfold item_compare, String.leb.
  by destruct (String.compare a.1 b.1).
Qed.

Lemma sort_items_sorted_by_key l :
  StronglySorted (fun a b => String.leb a.1 b.1 = true) (sort_items l).
Proof.
  induction (sort_items_sorted l) as [|x l' _ IH Hall]; constructor; [done|].
  eapply Forall_impl; [exact Hall|]. intros y. apply item_le_key.
Qed.

Lemma sorted_by_key_strict (l : list (string * option string)) :
  NoDup (map fst l) ->
  StronglySorted (fun a b => String.leb a.1 b.1 = true) l ->
  StronglySorted (fun a b => String.ltb a.1 b.1 = true) l.
Proof.
  intros Hnd Hsorted. induction Hsorted as [|a l _ IH Hall]; [constructor|].
  simpl in Hnd. apply NoDup_cons in Hnd as [Hnin Hnd].
  constructor; [by apply IH|].
  rewrite Forall_forall in Hall. apply Forall_forall. intros b Hb.
  specialize (Hall b Hb). unfold String.leb in Hall. unfold String.ltb.
  destruct (String.compare a.1 b.1) eqn:Hcmp; [|done|done].
  apply String.compare_eq_iff in Hcmp. destruct Hnin.
  rewrite Hcmp. apply list_elem_of_fmap. by exists b.
Qed.

Lemma render_requirement_text kv : render_requirement kv = requirement_text kv.
Proof. unfold render_requirement, requirement_text. by destruct kv.2. Qed.

(** C4.  The name is a function of the interpreter version and the
    requirement mapping alone, and it sorts the items by package name
    before rendering them: two requirement dictionaries with the same
    keys and values give the same name under every interpreter,
    whatever order their items were inserted in; and the name is
    [py<version>] followed, each after a hyphen, by the items of the
    dictionary, all of them and no others, in strictly increasing
    order of package name, each written as the name with the version
    right after it. *)
Theorem name_insertion_order_independent
    (python : string) (reqs1 reqs2 : dict (option string)) :
  PyDict.wf reqs1 -> PyDict.wf reqs2 ->
  PyDict.eq_dict reqs1 reqs2 ->
  environment_name python reqs1 = environment_name python reqs2
  /\ exists sorted,
       sorted ≡ₚ PyDict.items reqs1
       /\ StronglySorted (fun a b => String.ltb a.1 b.1 = true) sorted
       /\ environment_name python reqs1
          = String.concat "-"
              (("py" +:+ python) :: map requirement_text sorted).
Proof.
  intros Hwf1 Hwf2 Heq. split.
  - unfold environment_name, PyDict.items.
    by rewrite (sort_items_Permutation_eq reqs1 reqs2)
      by by apply eq_dict_Permutation.
  - exists (sort_items (PyDict.items reqs1)).
    split; [apply sort_items_Permutation|]. split.
    + apply sorted_by_key_strict; [|apply sort_items_sorted_by_key].
      unfold PyDict.wf, PyDict.keys in Hwf1.
      by rewrite (sort_items_Permutation (PyDict.items reqs1)).
    + unfold environment_name. simpl.
      by rewrite (map_ext _ _ render_requirement_text).
Qed.

Lemma name_insertion_order_independent_witness :
  environment_name "3.9" [("A", Some "1"); ("B", Some "2")]
  = environment_name "3.9" [("B", Some "2"); ("A", Some "1")]
  /\ environment_name "3.9" [("B", Some "2"); ("A", Some "1")]
     = "py3.9-A1-B2".
Proof.
  split; [|reflexivity].
  refine (proj1 (name_insertion_order_independent "3.9"
                   [("A", Some "1"); ("B", Some "2")]
                   [("B", Some "2"); ("A", Some "1")] _ _ _)).
  - unfold PyDict.wf. simpl. compute_done.
  - unfold PyDict.wf. simpl. compute_done.
  - intros k. simpl.
    destruct (String.eqb_spec k "A") as [->|]; [reflexivity|].
    destruct (String.eqb_spec k "B"); reflexivity.
Defined.

Example name_numpy_cython :
  environment_name "3.4" [("numpy", Some "1.7"); ("cython", None)]
  = "py3.4-cython-numpy1.7".
Proof. reflexivity. Qed.

Example iter_matrix_numpy_cython :
  iter_matrix [("numpy", ["1.7"; "1.8"]); ("cython", [])] =
  [ [("cython", None); ("numpy", Some "1.7")];
    [("cython", None); ("numpy", Some "1.8")] ].
Proof. reflexivity. Qed.

(** ** The set-up state machine *)

Section LifecycleFacts.
Context (host : Host) (oracle : Oracle).

Lemma ensure_env_dir_creations e w :
  List.filter is_create (trace (ensure_env_dir e w))
  = List.filter is_create (trace w).
Proof.
  unfold ensure_env_dir. case_bool_decide; [done|]. simpl.
  by rewrite List.filter_app, app_nil_r.
Qed.

Lemma rmtree_removes p (X : gset string) :
  p ∉ filter (fun q => below p q = false) X.
Proof.
  rewrite elem_of_filter. intros [Hb _]. unfold below in Hb.
  by rewrite String.eqb_refl in Hb.
Qed.

Lemma makedirs_fresh p s :
  p <> "" -> p ∉ fs (world s) ->
  makedirs p s
  = (Ok tt,
     {| self := self s;
        world := {| fs := {[ p ]} ∪ fs (world s);
                    trace := trace (world s) ++ [Makedirs p] |} |}).
Proof.
  intros Hne Hfs. unfold makedirs.
  apply String.eqb_neq in Hne. rewrite Hne.
  by rewrite bool_decide_eq_false_2.
Qed.

(** Without a root directory and without a name to make one under,
    [setup] stops at [os.makedirs]. *)
Lemma setup_no_root s :
  _is_setup (self s) = false ->
  _env_dir (self s) = "" ->
  "" ∉ fs (world s) ->
  setup oracle s = (Raise (OSError ""), s).
Proof.
  intros Hflag Hdir Hfs. destruct s as [e w]. simpl in *.
  unfold setup, bind, read, path_exists, when, makedirs. simpl.
  rewrite Hflag. simpl. rewrite Hdir.
  rewrite bool_decide_eq_false_2 by done. simpl. done.
Qed.

Lemma setup_cases s :
  _is_setup (self s) = false ->
  root_available (self s) (world s)
  \/ setup oracle s = (Raise (OSError ""), s).
Proof.
  intros Hflag. unfold root_available.
  destruct (decide (_env_dir (self s) ∈ fs (world s))) as [|Hfs];
    [by left; left|].
  destruct (String.eqb_spec (_env_dir (self s)) "") as [Hdir|];
    [|by left; right].
  right. rewrite Hdir in Hfs. by apply setup_no_root.
Qed.

Lemma setup_root_available s s' :
  setup oracle s = (Ok tt, s') ->
  _is_setup (self s) = false ->
  root_available (self s) (world s).
Proof.
  intros Hsetup Hflag. unfold root_available.
  destruct (decide (_env_dir (self s) ∈ fs (world s))) as [|Hfs]; [by left|].
  destruct (String.eqb_spec (_env_dir (self s)) "") as [Hdir|]; [|by right].
  rewrite Hdir in Hfs. by rewrite setup_no_root in Hsetup.
Qed.

(** What one call of [setup] does when the flag is not yet set. *)
Lemma setup_unfold s :
  _is_setup (self s) = false ->
  root_available (self s) (world s) ->
  let e := self s in
  let w1 := ensure_env_dir e (world s) in
  setup oracle s =
  if bool_decide (_path e ∈ fs w1) then
    set_is_setup true {| self := e; world := w1 |}
  else
    let o := oracle w1 (create_call e) in
    let w2 := {| fs := fs_after o; trace := trace w1 ++ [create_call e] |} in
    if success o then set_is_setup true {| self := e; world := w2 |}
    else
      (Raise (ProcessError (_executable e ++
                [_virtualenv_path e; "--no-site-packages"; _path e])),
       {| self := e;
          world :=
            if bool_decide (_path e ∈ fs w2) then
              {| fs := filter (fun q => below (_path e) q = false) (fs w2);
                 trace := trace w2 ++ [Rmtree (_path e)] |}
            else w2 |}).
Proof.
  intros Hflag Hroot. destruct s as [e w]. unfold root_available in Hroot.
  simpl in *.
  unfold setup, bind, read, path_exists, when, try_except_reraise, ensure_env_dir.
  simpl. rewrite Hflag.
  destruct (decide (_env_dir e ∈ fs w)) as [Hfs|Hfs];
    [rewrite !(bool_decide_eq_true_2 (_env_dir e ∈ fs w)) by done
    |rewrite !(bool_decide_eq_false_2 (_env_dir e ∈ fs w)) by done;
     cbn [negb self]; rewrite (makedirs_fresh (_env_dir e) {| self := e; world := w |})
       by (simpl; tauto)];
    simpl;
  repeat (case_bool_decide; simpl; try done);
    unfold check_call, bind, start, create_call; simpl;
    destruct (success (oracle _ _)) eqn:Hs; simpl; try done;
    repeat (case_bool_decide; simpl; try done).
Qed.

Lemma setup_Ok s s' :
  setup oracle s = (Ok tt, s') ->
  _is_setup (self s') = true
  /\ _requirements_installed (self s') = _requirements_installed (self s)
  /\ _requirements (self s') = _requirements (self s)
  /\ _path (self s') = _path (self s)
  /\ creations (world s')
     = creations (world s) + creations_of_setup (self s) (world s).
Proof.
  unfold creations_of_setup.
  destruct (_is_setup (self s)) eqn:Hflag.
  - unfold setup, bind, read. simpl. rewrite Hflag. intros [= <-].
    repeat split; auto.
  - intros Hsetup.
    pose proof (setup_root_available s s' Hsetup Hflag) as Hroot.
    revert Hsetup. rewrite setup_unfold by done. cbv zeta.
    pose proof (ensure_env_dir_creations (self s) (world s)) as Hc.
    case_bool_decide.
    + intros [= <-]. simpl. unfold creations. rewrite Hc.
      repeat split; lia.
    + destruct (success _); [|done]. intros [= <-]. simpl.
      unfold creations. simpl. rewrite List.filter_app, length_app, Hc.
      simpl. repeat split; lia.
Qed.

(** Installing packages leaves the object as it is. *)
Lemma run_executable_self exe args error s :
  self (_run_executable oracle exe args error s).2 = self s.
Proof.
  unfold _run_executable, bind, read, check_output, bind, start. simpl.
  by destruct (success _ || negb error)%bool.
Qed.

Lemma upgrade_self package s : self (upgrade oracle package s).2 = self s.
Proof.
  unfold upgrade, bind.
  pose proof (run_executable_self "pip" ["install"; "--upgrade"; package] true s).
  by destruct (_run_executable _ _ _ _ s) as [[?|?] ?].
Qed.

Lemma for_each_self {A} (l : list A) (body : A -> M unit) s :
  (forall a s0, self (body a s0).2 = self s0) ->
  self (for_each l body s).2 = self s.
Proof.
  intros Hbody. revert s. induction l as [|a l IH]; intros s; simpl; [done|].
  unfold bind. pose proof (Hbody a s).
  destruct (body a s) as [[?|?] s1]; simpl in *; [|done].
  by rewrite IH.
Qed.

Lemma install_requirements_Ok s s' :
  install_requirements oracle s = (Ok tt, s') ->
  _requirements_installed (self s') = true /\ _path (self s') = _path (self s).
Proof.
  unfold install_requirements, bind at 1, read at 1. simpl.
  destruct (_requirements_installed (self s)) eqn:Hflag.
  - by intros [= <-].
  - unfold bind at 1.
    destruct (setup oracle s) as [[[]|?] s1] eqn:Hsetup; [|done].
    apply setup_Ok in Hsetup as (_ & _ & _ & Hpath & _).
    unfold bind at 1. pose proof (upgrade_self "setuptools" s1) as Hu.
    destruct (upgrade oracle "setuptools" s1) as [[[]|?] s2]; [|done].
    unfold bind at 1, read at 1. simpl.
    unfold bind at 1.
    match goal with |- context [for_each ?l ?b s2] =>
      pose proof (for_each_self l b s2) as Hf;
      destruct (for_each l b s2) as [[[]|?] s3]; [|done]
    end.
    intros [= <-]. simpl in *. split; [done|].
    rewrite Hf, Hu; [done|].
    intros [k [v|]] s0; simpl; apply upgrade_self.
Qed.

Lemma install_project_Ok conf s s' :
  install_project host oracle conf s = (Ok tt, s') ->
  _requirements_installed (self s') = true.
Proof.
  unfold install_project, bind at 1.
  destruct (install_requirements oracle s) as [[[]|?] s1] eqn:Hreq; [|done].
  apply install_requirements_Ok in Hreq as [Hflag _].
  unfold bind at 1, uninstall, bind at 1.
  pose proof (run_executable_self "pip" ["uninstall"; "-y"; project conf] false s1) as H1.
  destruct (_run_executable oracle "pip" _ false s1) as [[?|?] s2]; [|done].
  simpl in *. unfold install, bind.
  match goal with |- context [_run_executable oracle "pip" ?a true s2] =>
    pose proof (run_executable_self "pip" a true s2) as H2;
    destruct (_run_executable oracle "pip" a true s2) as [[?|?] s3]; [|done]
  end.
  intros [= <-]. simpl in *. by rewrite H2, H1.
Qed.
End LifecycleFacts.

(** C6.  When [setup] gets as far as starting the command that creates
    the environment (the root directory is there or can be made, the
    environment's directory is not there) and that command fails,
    [setup] raises the command's error, the environment's directory does not exist
    afterwards (whatever the command left behind), the object is
    unchanged, so still not set up, and the command was started once. *)
Theorem setup_failure_cleans_up (oracle : Oracle) (s : St) :
  _is_setup (self s) = false ->
  root_available (self s) (world s) ->
  _path (self s) ∉ fs (ensure_env_dir (self s) (world s)) ->
  success (oracle (ensure_env_dir (self s) (world s)) (create_call (self s)))
    = false ->
  exists s',
    setup oracle s
      = (Raise (ProcessError
                  (_executable (self s) ++
                   [_virtualenv_path (self s); "--no-site-packages";
                    _path (self s)])), s')
    /\ (_path (self s) ∉ fs (world s'))
    /\ self s' = self s
    /\ List.filter is_create (trace (world s'))
       = List.filter is_create (trace (world s)) ++ [create_call (self s)].
Proof.
  intros Hflag Hroot Hpath Hfail. rewrite setup_unfold by done. cbv zeta.
  rewrite bool_decide_eq_false_2 by done. rewrite Hfail.
  eexists. split; [reflexivity|]. simpl.
  pose proof (ensure_env_dir_creations (self s) (world s)) as Hc.
  case_bool_decide as Hleft; simpl.
  - split; [apply rmtree_removes|]. split; [done|].
    by rewrite !List.filter_app, Hc, app_nil_r.
  - split; [done|]. split; [done|].
    by rewrite List.filter_app, Hc.
Qed.

Example env_py36_constructed :
  Environment_init host_with_python "env" "3.6" [("requests", Some "2.9")]
  = Ok env_py36.
Proof. reflexivity. Qed.

Lemma setup_failure_cleans_up_witness :
  exists s',
    setup failing_oracle fresh_state
      = (Raise (ProcessError
                  ["/usr/bin/python3.6"; "/usr/lib/python/virtualenv.py";
                   "--no-site-packages"; "env/py3.6-requests2.9"]), s')
    /\ ("env/py3.6-requests2.9" ∉ fs (world s'))
    /\ self s' = env_py36
    /\ List.filter is_create (trace (world s')) = [create_call env_py36].
Proof.
  refine (setup_failure_cleans_up failing_oracle fresh_state _ _ _ _).
  - reflexivity.
  - right. discriminate.
  - vm_compute. intros H. apply (bool_decide_pack _) in H. vm_compute in H. exact H.
  - reflexivity.
Defined.

(** C2, as the code has it.  [setup] and [install_requirements] are
    idempotent: once a call has returned, a further call returns at
    once and changes neither the object nor the world; the first call
    of [setup] starts the creating command once when the object was not
    set up and its directory did not exist, and not at all otherwise,
    so two calls in a row start it once.  A repeated
    [install_project] neither sets up nor upgrades the requirements
    again, but it does uninstall and install the project again: these
    two commands, and nothing else, are started. *)
Theorem setup_and_install_requirements_idempotent
    (host : Host) (oracle : Oracle) :
  (forall s s',
      setup oracle s = (Ok tt, s') ->
      setup oracle s' = (Ok tt, s')
      /\ creations (world s')
         = creations (world s) + creations_of_setup (self s) (world s))
  /\ (forall s s',
        install_requirements oracle s = (Ok tt, s') ->
        install_requirements oracle s' = (Ok tt, s'))
  /\ (forall conf s s',
        install_project host oracle conf s = (Ok tt, s') ->
        exists r s'',
          install_project host oracle conf s' = (r, s'')
          /\ self s'' = self s'
          /\ trace (world s'')
             = trace (world s')
               ++ [uninstall_call (self s') conf;
                   install_call host (self s') conf]).
Proof.
  split; [|split].
  - intros s s' Hsetup.
    apply setup_Ok in Hsetup as (Hflag & _ & _ & _ & Hc).
    split; [|done]. unfold setup, bind, read. simpl. by rewrite Hflag.
  - intros s s' Hreq. apply install_requirements_Ok in Hreq as [Hflag _].
    unfold install_requirements, bind, read. simpl. by rewrite Hflag.
  - intros conf s s' Hproj. apply install_project_Ok in Hproj as Hflag.
    unfold install_project, install_requirements, uninstall, install,
      _run_executable, check_output, start, bind, read.
    simpl. rewrite Hflag. simpl. rewrite orb_true_r. simpl.
    match goal with
    | |- context [if ?b then _ else _] => destruct b; simpl
    end; eexists _, _; (split; [reflexivity|]); simpl;
      by rewrite <- app_assoc.
Qed.

(** C2 as stated fails for [install_project]: the first call returns,
    and the second call is not a no-op, it starts pip twice more. *)
Lemma install_project_not_idempotent :
  install_project host_with_python obliging_oracle conf_project fresh_state
    = (Ok tt, state_after_first_install)
  /\ install_project host_with_python obliging_oracle conf_project
       state_after_first_install
     = (Ok tt, state_after_second_install)
  /\ state_after_second_install <> state_after_first_install
  /\ trace (world state_after_second_install)
     = trace (world state_after_first_install)
       ++ [CheckOutput ["env/py3.6-requests2.9/bin/pip"; "uninstall"; "-y";
                        "project"] false;
           CheckOutput ["env/py3.6-requests2.9/bin/pip"; "install"; "-e";
                        "/home/asv/project"] true].
Proof.
  assert (Htrace :
    trace (world state_after_second_install)
     = trace (world state_after_first_install)
       ++ [CheckOutput ["env/py3.6-requests2.9/bin/pip"; "uninstall"; "-y";
                        "project"] false;
           CheckOutput ["env/py3.6-requests2.9/bin/pip"; "install"; "-e";
                        "/home/asv/project"] true]).
  { vm_compute. reflexivity. }
  split; [vm_compute; reflexivity|].
  split; [vm_compute; reflexivity|].
  split; [|exact Htrace].
  intros Heq. rewrite Heq in Htrace.
  apply (f_equal (@length Call)) in Htrace. rewrite length_app in Htrace.
  simpl in Htrace. lia.
Qed.

(** ** Result records *)

Lemma startswith_sep_cons c s :
  OsPath.startswith OsPath.sep (String c s) = Ascii.eqb c "/"%char.
Proof.
  unfold OsPath.startswith, OsPath.sep. cbn [String.prefix].
  destruct (ascii_dec "/" c) as [<-|Hne].
  - by destruct s.
  - symmetry. apply Ascii.eqb_neq. congruence.
Qed.

Lemma startswith_sep_file commit_hash rest :
  OsPath.startswith OsPath.sep commit_hash = false ->
  OsPath.startswith OsPath.sep (substring 0 8 commit_hash +:+ "-" +:+ rest)
  = false.
Proof.
  destruct commit_hash as [|c h]; [done|].
  rewrite startswith_sep_cons. intros Hc.
  cbn [substring].
  change (String c (substring 0 7 h) +:+ "-" +:+ rest)
    with (String c (substring 0 7 h +:+ "-" +:+ rest)).
  by rewrite startswith_sep_cons.
Qed.

(** C9, as the code has it.  A record built from parameters whose
    machine name is not empty and does not end in the separator, and a
    commit hash that does not begin with the separator, has the path
    [<machine>/<first 8 characters of the hash>-<environment name>.json];
    the parameters must name a machine for the record to be built. *)
Theorem filename_canonical (params : dict string) (e : Environment)
    (commit_hash machine : string) (date : Z) :
  PyDict.get "machine" params = Some machine ->
  machine <> "" ->
  OsPath.endswith machine OsPath.sep = false ->
  OsPath.startswith OsPath.sep commit_hash = false ->
  exists r,
    Results_init params e commit_hash date = Ok r
    /\ _filename r = canonical_path machine commit_hash (environment.name e).
Proof.
  intros Hm Hne Hend Hstart. unfold Results_init. rewrite Hm.
  eexists. split; [reflexivity|]. simpl.
  unfold OsPath.join, canonical_path.
  rewrite startswith_sep_file by done. rewrite Hend.
  destruct (String.eqb_spec machine ""); done.
Qed.

Lemma filename_canonical_witness :
  exists r,
    Results_init [("machine", "bench1")] env_py36 "abcdef1234567890" 1000
      = Ok r
    /\ _filename r = "bench1/abcdef12-py3.6-requests2.9.json".
Proof.
  refine (filename_canonical [("machine", "bench1")] env_py36
            "abcdef1234567890" "bench1" 1000 _ _ _ _);
    [reflexivity | discriminate | reflexivity | reflexivity].
Defined.

(** C9 as stated fails on an empty machine name: [os.path.join] puts
    no separator after an empty first component. *)
Lemma filename_empty_machine :
  exists r,
    Results_init [("machine", "")] env_py36 "abcdef1234567890" 1000 = Ok r
    /\ _filename r = "abcdef12-py3.6-requests2.9.json"
    /\ _filename r
       <> canonical_path "" "abcdef1234567890" (environment.name env_py36).
Proof.
  eexists. split; [reflexivity|]. split; [reflexivity|]. discriminate.
Qed.

(** ** The latest result of a machine *)

(** The loop from any starting state: the date it ends with is at
    least the starting date and at least every date in the list, and
    the state is either untouched or a pair of the list with a date
    above the starting date. *)
Lemma latest_fold_spec pairs d0 h0 :
  let st := fold_left latest_step pairs (d0, h0) in
  (d0 <= st.1)%Z
  /\ Forall (fun cd : string * Z => (cd.2 <= st.1)%Z) pairs
  /\ (st = (d0, h0) \/ ((st.2, st.1) ∈ pairs /\ (d0 < st.1)%Z)).
Proof.
  revert d0 h0. induction pairs as [|[h d] pairs IH]; intros d0 h0; simpl.
  - split; [lia|]. split; [constructor|]. by left.
  - change (latest_step (d0, h0) (h, d))
      with (if (d >? d0)%Z then (d, h) else (d0, h0)).
    destruct (Z.gtb_spec d d0) as [Hgt|Hle].
    + destruct (IH d h) as (Hge & Hall & Hsel). split; [lia|].
      split; [by constructor|]. right.
      destruct Hsel as [->|[Hin Hlt]]; simpl.
      * split; [left|lia].
      * split; [by right|lia].
    + destruct (IH d0 h0) as (Hge & Hall & Hsel). split; [done|].
      split; [constructor; [simpl; lia|done]|].
      destruct Hsel as [Heq|[Hin Hlt]]; [by left|].
      right. split; [by right|done].
Qed.

Lemma latest_loop_nonpositive pairs :
  Forall (fun cd : string * Z => (cd.2 <= 0)%Z) pairs ->
  latest_loop pairs = (0%Z, "").
Proof.
  intros Hall. unfold latest_loop.
  destruct (latest_fold_spec pairs 0 "") as (_ & _ & [Heq|[Hin Hlt]]); [done|].
  rewrite Forall_forall in Hall. apply Hall in Hin. simpl in Hin. lia.
Qed.

Lemma latest_loop_positive pairs :
  Exists (fun cd : string * Z => (0 < cd.2)%Z) pairs ->
  let st := latest_loop pairs in
  (st.2, st.1) ∈ pairs /\ (0 < st.1)%Z
  /\ Forall (fun cd : string * Z => (cd.2 <= st.1)%Z) pairs.
Proof.
  intros Hex. unfold latest_loop. cbv zeta.
  destruct (latest_fold_spec pairs 0 "") as (_ & Hall & [Heq|[Hin Hlt]]).
  - apply Exists_exists in Hex as (cd & Hin & Hpos).
    rewrite Forall_forall in Hall. apply Hall in Hin.
    rewrite Heq in Hin. simpl in Hin. lia.
  - done.
Qed.

Section LatestFacts.
Context (host : Host) (migrate : Z -> Document -> option Document).

(** C10.  When the scan of the machine's directory yields its
    records, the hash [find_latest_result_hash] returns is either the
    initial empty string or that of a record whose date is strictly
    positive; so if every record has a date of zero or less, it returns
    the empty string although records exist. *)
Theorem latest_hash_needs_positive_date
    (disk : Disk) (machine root : string) (pairs : list (string * Z)) :
  iter_existing_hashes host migrate disk (OsPath.join root machine) = Ok pairs ->
  (exists h d,
      find_latest_result_hash host migrate disk machine root = Ok h
      /\ latest_loop pairs = (d, h)
      /\ ((d, h) = (0%Z, "") \/ ((h, d) ∈ pairs /\ (0 < d)%Z)))
  /\ (Forall (fun cd : string * Z => (cd.2 <= 0)%Z) pairs ->
      find_latest_result_hash host migrate disk machine root = Ok "").
Proof.
  intros Hscan. unfold find_latest_result_hash. rewrite Hscan. simpl. split.
  - destruct (latest_loop pairs) as [d h] eqn:Hl. exists h, d.
    split; [done|]. split; [done|].
    unfold latest_loop in Hl.
    destruct (latest_fold_spec pairs 0 "") as (_ & _ & Hsel).
    rewrite Hl in Hsel. simpl in Hsel. done.
  - intros Hall. by rewrite latest_loop_nonpositive.
Qed.

(** C7, as the code has it.  When the scan of the machine's directory
    yields its records: without records, or with no date above zero,
    the result is the empty string; if some record has a positive
    date, the result is the hash of a record whose date is the greatest
    of all; and on the records [(h1, 100); (h2, 300); (h3, 200)] it is
    [h2]. *)
Theorem latest_hash_is_of_maximum_date
    (disk : Disk) (machine root : string) (pairs : list (string * Z)) :
  iter_existing_hashes host migrate disk (OsPath.join root machine) = Ok pairs ->
  (pairs = [] ->
   find_latest_result_hash host migrate disk machine root = Ok "")
  /\ (Forall (fun cd : string * Z => (cd.2 <= 0)%Z) pairs ->
      find_latest_result_hash host migrate disk machine root = Ok "")
  /\ (Exists (fun cd : string * Z => (0 < cd.2)%Z) pairs ->
      exists h d,
        find_latest_result_hash host migrate disk machine root = Ok h
        /\ (h, d) ∈ pairs
        /\ Forall (fun cd : string * Z => (cd.2 <= d)%Z) pairs)
  /\ (forall h1 h2 h3,
        pairs = [(h1, 100%Z); (h2, 300%Z); (h3, 200%Z)] ->
        find_latest_result_hash host migrate disk machine root = Ok h2).
Proof.
  intros Hscan. unfold find_latest_result_hash. rewrite Hscan. simpl.
  split; [|split; [|split]].
  - by intros ->.
  - intros Hall. by rewrite latest_loop_nonpositive.
  - intros Hex. apply latest_loop_positive in Hex as (Hin & _ & Hall).
    by exists (latest_loop pairs).2, (latest_loop pairs).1.
  - by intros h1 h2 h3 ->.
Qed.
End LatestFacts.

Lemma latest_hash_is_of_maximum_date_witness :
  find_latest_result_hash host_with_python no_migration disk_three_records
    "bench1" "results" = Ok "bbbb2222".
Proof.
  refine (proj2 (proj2 (proj2
    (latest_hash_is_of_maximum_date host_with_python no_migration
       disk_three_records "bench1" "results"
       [("aaaa1111", 100%Z); ("bbbb2222", 300%Z); ("cccc3333", 200%Z)] _)))
    "aaaa1111" "bbbb2222" "cccc3333" _).
  - vm_compute. reflexivity.
  - reflexivity.
Defined.

(** C7 as stated fails when no date is positive: the only record of
    the machine has the greatest date, and its hash is not returned. *)
Lemma latest_hash_misses_epoch_record :
  iter_existing_hashes host_with_python no_migration disk_epoch_record
    (OsPath.join "results" "bench1") = Ok [("aaaa1111", 0%Z)]
  /\ find_latest_result_hash host_with_python no_migration disk_epoch_record
       "bench1" "results" = Ok ""
  /\ find_latest_result_hash host_with_python no_migration disk_epoch_record
       "bench1" "results" <> Ok "aaaa1111".
Proof.
  split; [vm_compute; reflexivity|].
  split; [vm_compute; reflexivity|].
  vm_compute. discriminate.
Qed.

Lemma latest_hash_needs_positive_date_witness :
  find_latest_result_hash host_with_python no_migration disk_epoch_record
    "bench1" "results" = Ok "".
Proof.
  refine (proj2
    (latest_hash_needs_positive_date host_with_python no_migration
       disk_epoch_record "bench1" "results" [("aaaa1111", 0%Z)] _) _).
  - vm_compute. reflexivity.
  - repeat constructor. simpl. lia.
Defined.

(** ** Loading and saving *)

Lemma split_sep_aux_nonempty cur s : OsPath.split_sep_aux cur s <> [].
Proof.
  revert cur. induction s as [|c s IH]; intros cur; simpl; [done|].
  destruct (Ascii.eqb c "/"); [done|]. apply IH.
Qed.

Lemma last_two_nonempty {A} (l : list A) : l <> [] -> OsPath.last_two l <> [].
Proof.
  unfold OsPath.last_two. intros Hl Hnil.
  apply (f_equal (@length A)) in Hnil. rewrite length_skipn in Hnil.
  destruct l; [done|]. simpl in Hnil. lia.
Qed.

Section StoreFacts.
Context (host : Host) (migrate : Z -> Document -> option Document).

Lemma load_current disk path d :
  PyDict.get path disk = Some (ResultFile api_version d) ->
  load host migrate disk path =
  result_bind
    (Environment_init host "" (doc_python d) (doc_requirements d))
    (fun e =>
       result_bind
         (Results_init (doc_params d) e (doc_commit_hash d) (doc_date d))
         (fun obj =>
            let obj := with_results obj (doc_results d) in
            let obj :=
              match doc_profiles d with
              | Some p => with_profiles obj (text_profiles p)
              | None => obj
              end in
            match OsPath.last_two (OsPath.split_sep path) with
            | [] => Raise (RuntimeError "join() needs a path")
            | a :: p => Ok (with_filename obj (OsPath.join_all a p))
            end)).
Proof.
  intros Hget. unfold load, load_json. rewrite Hget.
  by rewrite Z.eqb_refl.
Qed.

(** C5, as the code has it.  For a result document of the current
    version whose parameters name a machine, what [load] does is
    decided by the host: without an executable for the stored
    interpreter version, or without the [virtualenv] module, it raises;
    otherwise the record's environment is built from the stored
    version and requirements with an empty root directory, and is not
    set up.  [load] has no access to the world of processes and
    directories, so nothing is provisioned. *)
Theorem load_environment_depends_on_host
    (disk : Disk) (path : string) (d : Document) (machine : string) :
  PyDict.get path disk = Some (ResultFile api_version d) ->
  PyDict.get "machine" (doc_params d) = Some machine ->
  match which host ("python" +:+ doc_python d), virtualenv_source host with
  | [], _ =>
      load host migrate disk path
      = Raise (RuntimeError
                 ("No executable found for version " +:+ doc_python d))
  | _ :: _, None =>
      load host migrate disk path
      = Raise (RuntimeError "virtualenv must be installed to run asv")
  | exe, Some src =>
      exists r,
        load host migrate disk path = Ok r
        /\ results.env r = placeholder exe src d
  end.
Proof.
  intros Hget Hm. rewrite (load_current _ _ _ Hget).
  unfold Environment_init, Results_init, placeholder. rewrite Hm.
  destruct (which host _) as [|x exe]; simpl; [done|].
  destruct (virtualenv_source host) as [src|]; simpl; [|done].
  pose proof (last_two_nonempty _ (split_sep_aux_nonempty "" path)) as Hne.
  unfold OsPath.split_sep.
  destruct (OsPath.last_two _) as [|a p]; [done|].
  eexists. split; [reflexivity|]. by destruct (doc_profiles d).
Qed.
End StoreFacts.

Lemma load_environment_depends_on_host_witness :
  exists r,
    load host_with_python no_migration disk_epoch_record
      "results/bench1/aaaa1111-py3.6-requests2.9.json" = Ok r
    /\ results.env r
       = placeholder ["/usr/bin/python3.6"] "/usr/lib/python/virtualenv.py"
           (document_of "aaaa1111" 0).
Proof.
  refine (load_environment_depends_on_host host_with_python no_migration
            disk_epoch_record
            "results/bench1/aaaa1111-py3.6-requests2.9.json"
            (document_of "aaaa1111" 0) "bench1" _ _);
    reflexivity.
Defined.

(** C5 as stated fails: the same well-formed document loads on a host
    that has the stored interpreter and fails to load on one that has
    not. *)
Lemma load_fails_without_interpreter :
  (exists r,
      load host_with_python no_migration disk_epoch_record
        "results/bench1/aaaa1111-py3.6-requests2.9.json" = Ok r)
  /\ load host_without_python no_migration disk_epoch_record
       "results/bench1/aaaa1111-py3.6-requests2.9.json"
     = Raise (RuntimeError "No executable found for version 3.6").
Proof.
  split; [eexists; vm_compute; reflexivity|]. vm_compute. reflexivity.
Qed.

Section RoundTrip.
Context `{Zlib} (host : Host) (migrate : Z -> Document -> option Document).



Lemma json_profiles_text (p : dict string) :
  json_profiles (text_profiles p) = Ok p.
Proof.
  unfold json_profiles, text_profiles.
  induction p as [|[k v] p IH]; simpl; [done|]. by rewrite IH.
Qed.

Lemma json_profiles_Ok (profiles : dict encoded) (p : dict string) :
  json_profiles profiles = Ok p -> profiles = text_profiles p.
Proof.
  unfold json_profiles, text_profiles. revert p.
  induction profiles as [|[k [data|data]] profiles IH]; intros p; simpl.
  - by intros [= <-].
  - done.
  - destruct (result_mapM _ profiles) as [p'|]; simpl; [|done].
    intros [= <-]. simpl. by rewrite <- (IH p').
Qed.



(** What [save] does, by what the encoder makes of the profiles. *)
Lemma save_Ok r result_dir disk p :
  json_profiles (_profiles r) = Ok p ->
  save r result_dir disk
  = (Ok tt,
     PyDict.set (saved_path r result_dir)
       (ResultFile api_version
          {| doc_results := _results r;
             doc_params := _params r;
             doc_requirements := environment.requirements (_env r);
             doc_commit_hash := _commit_hash r;
             doc_date := _date r;
             doc_python := results._python r;
             doc_profiles := Some p |})
       disk).
Proof.
  intros Hp. unfold save, write_json, json_document, saved_path. simpl.
  by rewrite Hp.
Qed.

Lemma save_Raise r result_dir disk e :
  json_profiles (_profiles r) = Raise e ->
  save r result_dir disk = (Raise e, disk).
Proof.
  intros Hp. unfold save, write_json, json_document. simpl. by rewrite Hp.
Qed.

Lemma save_returns r result_dir disk :
  (save r result_dir disk).1 = Ok tt ->
  exists p, json_profiles (_profiles r) = Ok p.
Proof.
  destruct (json_profiles (_profiles r)) as [p|e] eqn:Hp; [by eexists|].
  by rewrite (save_Raise _ _ _ _ Hp).
Qed.

Lemma get_saved r result_dir disk :
  (save r result_dir disk).1 = Ok tt ->
  exists p,
    _profiles r = text_profiles p
    /\ PyDict.get (saved_path r result_dir) (save r result_dir disk).2
       = Some (ResultFile api_version
                 {| doc_results := _results r;
                    doc_params := _params r;
                    doc_requirements := environment.requirements (_env r);
                    doc_commit_hash := _commit_hash r;
                    doc_date := _date r;
                    doc_python := results._python r;
                    doc_profiles := Some p |}).
Proof.
  intros [p Hp]%save_returns. exists p.
  split; [by apply json_profiles_Ok|].
  rewrite (save_Ok _ _ _ _ Hp). simpl. apply get_set_eq.
Qed.

End RoundTrip.

(** ** Profiles *)

Lemma string_ind3 (P : string -> Prop) :
  P "" ->
  (forall a, P (String a "")) ->
  (forall a b, P (String a (String b ""))) ->
  (forall a b c s, P s -> P (String a (String b (String c s)))) ->
  forall s, P s.
Proof.
  intros H0 H1 H2 H3. fix IH 1.
  intros [|a [|b [|c s]]]; [exact H0 | apply H1 | apply H2 | apply H3, IH].
Qed.

Lemma sextets_checked :
  forallb
    (fun n =>
       match base64.value_of (base64.char_of n) with
       | Some m => N.eqb m n
       | None => false
       end && negb (Ascii.eqb (base64.char_of n) base64.pad))%bool
    (map N.of_nat (seq 0 64)) = true.
Proof. vm_compute. reflexivity. Qed.

(** A six-bit value is read back from its character, which is never
    the padding character. *)
Lemma sextet_value n :
  (n < 64)%N ->
  base64.value_of (base64.char_of n) = Some n
  /\ Ascii.eqb (base64.char_of n) base64.pad = false.
Proof.
  intros Hn. pose proof sextets_checked as Hall.
  rewrite forallb_forall in Hall. specialize (Hall n).
  destruct (base64.value_of (base64.char_of n)) as [m|].
  - destruct (Ascii.eqb (base64.char_of n) base64.pad).
    + rewrite andb_false_r in Hall. discriminate Hall.
      apply in_map_iff. exists (N.to_nat n). split; [lia|].
      apply in_seq. lia.
    + split; [|done]. f_equal. apply N.eqb_eq.
      rewrite andb_true_r in Hall. apply Hall.
      apply in_map_iff. exists (N.to_nat n). split; [lia|].
      apply in_seq. lia.
  - discriminate Hall.
    apply in_map_iff. exists (N.to_nat n). split; [lia|].
    apply in_seq. lia.
Qed.

(** Division and remainder by constants, for [lia]. *)
Local Ltac Zify.zify_post_hook ::= Z.to_euclidean_division_equations.

Lemma b64decode_b64encode (s : bytes) :
  base64.b64decode (base64.b64encode s) = Ok s.
Proof.
  induction s as [|a|a b|a b c s IH] using string_ind3.
  - reflexivity.
  - cbn [base64.b64encode base64.b64decode].
    pose proof (N_ascii_bounded a) as Ha.
    destruct (sextet_value (N_of_ascii a / 4)) as [-> _]; [lia|].
    destruct (sextet_value (N_of_ascii a mod 4 * 16)) as [-> _]; [lia|].
    rewrite Ascii.eqb_refl. cbn [andb].
    replace (N_of_ascii a / 4 * 4 + N_of_ascii a mod 4 * 16 / 16)%N
      with (N_of_ascii a) by lia.
    by rewrite ascii_N_embedding.
  - cbn [base64.b64encode base64.b64decode].
    pose proof (N_ascii_bounded a) as Ha. pose proof (N_ascii_bounded b) as Hb.
    destruct (sextet_value (N_of_ascii a / 4)) as [-> _]; [lia|].
    destruct (sextet_value (N_of_ascii a mod 4 * 16 + N_of_ascii b / 16))
      as [-> _]; [lia|].
    destruct (sextet_value (N_of_ascii b mod 16 * 4)) as [-> ->]; [lia|].
    rewrite Ascii.eqb_refl. cbn [andb].
    replace (N_of_ascii a / 4 * 4
             + (N_of_ascii a mod 4 * 16 + N_of_ascii b / 16) / 16)%N
      with (N_of_ascii a) by lia.
    replace ((N_of_ascii a mod 4 * 16 + N_of_ascii b / 16) mod 16 * 16
             + N_of_ascii b mod 16 * 4 / 4)%N
      with (N_of_ascii b) by lia.
    by rewrite !ascii_N_embedding.
  - cbn [base64.b64encode base64.b64decode].
    pose proof (N_ascii_bounded a) as Ha. pose proof (N_ascii_bounded b) as Hb.
    pose proof (N_ascii_bounded c) as Hc.
    destruct (sextet_value (N_of_ascii a / 4)) as [-> _]; [lia|].
    destruct (sextet_value (N_of_ascii a mod 4 * 16 + N_of_ascii b / 16))
      as [-> _]; [lia|].
    destruct (sextet_value (N_of_ascii b mod 16 * 4 + N_of_ascii c / 64))
      as [-> ->]; [lia|].
    destruct (sextet_value (N_of_ascii c mod 64)) as [-> ->]; [lia|].
    cbn [andb]. rewrite IH. cbn [result_bind].
    replace (N_of_ascii a / 4 * 4
             + (N_of_ascii a mod 4 * 16 + N_of_ascii b / 16) / 16)%N
      with (N_of_ascii a) by lia.
    replace ((N_of_ascii a mod 4 * 16 + N_of_ascii b / 16) mod 16 * 16
             + (N_of_ascii b mod 16 * 4 + N_of_ascii c / 64) / 4)%N
      with (N_of_ascii b) by lia.
    replace ((N_of_ascii b mod 16 * 4 + N_of_ascii c / 64) mod 4 * 64
             + N_of_ascii c mod 64)%N
      with (N_of_ascii c) by lia.
    by rewrite !ascii_N_embedding.
Qed.

Section ProfileFacts.
Context `{ZlibLossless}.

(** C8.  After [add_profile] has stored a payload under a benchmark
    name, [get_profile] for that name on the same record returns the
    payload, for every payload, the empty one included: the base64
    text decodes to the compressed bytes and these decompress to the
    payload, zlib being lossless. *)
Theorem get_profile_add_profile
    (r : Results) (benchmark_name : string) (profile : bytes) :
  get_profile (add_profile r benchmark_name profile) benchmark_name
  = Ok profile
  /\ get_profile (add_profile r benchmark_name "") benchmark_name = Ok ""
  /\ has_profile (add_profile r benchmark_name profile) benchmark_name = true.
Proof.
  unfold get_profile, has_profile, PyDict.mem, add_profile. simpl.
  rewrite !get_set_eq. cbn [characters].
  rewrite !b64decode_b64encode. simpl.
  by rewrite !decompress_compress.
Qed.
End ProfileFacts.

(** ** The stored-block zlib *)

Lemma block_max_pos : 0 < zlib_stored.block_max.
Proof. unfold zlib_stored.block_max. lia. Qed.

Lemma u16le_read n :
  (n <= 65535)%N ->
  (N_of_ascii (ascii_of_N (n mod 256))
   + 256 * N_of_ascii (ascii_of_N (n / 256)))%N = n.
Proof.
  intros Hn. rewrite !N_ascii_embedding by lia. lia.
Qed.

Lemma inflate_block final data tail fuel :
  length data <= zlib_stored.block_max ->
  zlib_stored.inflate_blocks (S fuel) (zlib_stored.block final data ++ tail)
  = if final then Ok (data, tail)
    else result_bind (zlib_stored.inflate_blocks fuel tail) (fun dr =>
           Ok (data ++ dr.1, dr.2)).
Proof.
  intros Hlen. unfold zlib_stored.block_max in Hlen.
  assert (Hn : (N.of_nat (length data) <= 65535)%N) by lia.
  unfold zlib_stored.block, zlib_stored.u16le. cbn [app zlib_stored.inflate_blocks].
  rewrite (u16le_read _ Hn), (u16le_read (65535 - _)) by lia.
  replace (N.of_nat (length data) + (65535 - N.of_nat (length data)) =? 65535)%N
    with true by (symmetry; apply N.eqb_eq; lia).
  cbn [negb]. rewrite Nat2N.id, length_app.
  replace (length data + length tail <? length data)%nat with false
    by (symmetry; apply Nat.ltb_ge; lia).
  rewrite firstn_app, skipn_app, Nat.sub_diag, firstn_all, skipn_all. simpl.
  rewrite app_nil_r.
  destruct final; rewrite N_ascii_embedding by lia; reflexivity.
Qed.

Lemma inflate_blocks_blocks data :
  forall tail fuel,
    length data < fuel ->
    zlib_stored.inflate_blocks fuel (zlib_stored.blocks data ++ tail) = Ok (data, tail).
Proof.
  funelim (zlib_stored.blocks data); intros tail fuel Hfuel.
  - destruct fuel as [|fuel]; [lia|]. by rewrite inflate_block.
  - destruct fuel as [|fuel]; [lia|].
    pose proof block_max_pos as Hpos.
    rewrite <- app_assoc, inflate_block by (rewrite length_firstn; lia).
    match goal with IH : forall tail fuel, _ -> zlib_stored.inflate_blocks _ _ = _ |- _ =>
      rewrite IH by (rewrite length_skipn; lia)
    end.
    simpl. by rewrite firstn_skipn.
Qed.

Lemma length_block final data : length (zlib_stored.block final data) = 5 + length data.
Proof. unfold zlib_stored.block, zlib_stored.u16le. simpl. reflexivity. Qed.

Lemma length_blocks data : length data < length (zlib_stored.blocks data).
Proof.
  funelim (zlib_stored.blocks data).
  - rewrite length_block. lia.
  - rewrite length_app, length_block, length_firstn.
    rewrite length_skipn in *. lia.
Qed.

Lemma inflate_deflate data :
  zlib_stored.inflate (zlib_stored.deflate data) = Ok data.
Proof.
  unfold zlib_stored.deflate, zlib_stored.inflate. cbn [app].
  rewrite !N_ascii_embedding by lia.
  replace ((120 mod 16 =? 8) && ((120 * 256 + 1) mod 31 =? 0)
           && (1 / 32 mod 2 =? 0))%N%bool with true by (vm_compute; reflexivity).
  rewrite inflate_blocks_blocks
    by (pose proof (length_blocks data); rewrite length_app; simpl; lia).
  simpl. by rewrite bool_decide_eq_true_2.
Qed.

Lemma stored_decompress_compress x :
  zlib_stored.decompress (zlib_stored.compress x) = Ok x.
Proof.
  unfold zlib_stored.decompress, zlib_stored.compress.
  rewrite list_ascii_of_string_of_list_ascii, inflate_deflate. simpl.
  by rewrite string_of_list_ascii_of_string.
Qed.

#[export] Instance zlib_level0_lossless : ZlibLossless zlib_level0.
Proof. exact stored_decompress_compress. Qed.

Example compress_empty :
  list_ascii_of_string (zlib_stored.compress "")
  = map ascii_of_N [120; 1; 1; 0; 0; 255; 255; 0; 0; 0; 1]%N.
Proof. vm_compute. reflexivity. Qed.

Example profile_text_abc :
  base64.b64encode "abc" = "YWJj" /\ base64.b64encode "ab" = "YWI="
  /\ base64.b64encode "a" = "YQ==".
Proof. by vm_compute. Qed.

Example record_bench1_path :
  saved_path record_bench1 "results"
  = "results/bench1/abcdef12-py3.6-requests2.9.json".
Proof. reflexivity. Qed.

Example record_bench1_new_built :
  Results_init [("machine", "bench1")] env_py36 "abcdef1234567890" 1000
  = Ok record_bench1_new.
Proof. reflexivity. Qed.





Lemma get_profile_add_profile_witness :
  get_profile (add_profile record_bench1 "time_sum" "") "time_sum" = Ok ""
  /\ get_profile record_bench1 "time_sort" = Ok "profile".
Proof.
  split.
  - exact (proj1 (get_profile_add_profile (z := zlib_level0)
                    record_bench1 "time_sum" "")).
  - vm_compute. reflexivity.
Defined.


(** * Further properties *)

(** ** More on the matrix expansion *)

Lemma set_absent {V} (d : dict V) k v :
  k ∉ PyDict.keys d -> PyDict.set k v d = d ++ [(k, v)].
Proof.
  induction d as [|[k' v'] d IH]; simpl; [done|].
  rewrite not_elem_of_cons. intros [Hne Hnin].
  destruct (String.eqb_spec k k'); [done|]. by rewrite IH.
Qed.

Lemma get_absent {V} (d : dict V) k :
  k ∉ PyDict.keys d -> PyDict.get k d = None.
Proof.
  induction d as [|[k' v'] d IH]; simpl; [done|].
  rewrite not_elem_of_cons. intros [Hne Hnin].
  destruct (String.eqb_spec k k'); [done|]. auto.
Qed.

Lemma wf_tail {V} k (v : V) (d : dict V) :
  PyDict.wf ((k, v) :: d) -> (k ∉ PyDict.keys d) /\ PyDict.wf d.
Proof. unfold PyDict.wf. simpl. by rewrite NoDup_cons. Qed.

(** What the expansion of a matrix with one more key in front yields. *)
Lemma elem_of_iter_matrix_cons key entry (rest : dict (list string)) reqs :
  PyDict.wf ((key, entry) :: rest) ->
  reqs ∈ iter_matrix ((key, entry) :: rest) <->
  exists result value,
    result ∈ iter_matrix rest
    /\ reqs = PyDict.set key value result
    /\ match entry with
       | [] => value = None
       | _ => exists v, v ∈ entry /\ value = Some v
       end.
Proof.
  intros Hwf. rewrite iter_matrix_cons by done.
  rewrite list_elem_of_In, in_flat_map. split.
  - intros (result & Hres & Hin). apply list_elem_of_In in Hres, Hin.
    exists result. destruct entry as [|v0 entry]; simpl in Hin.
    + apply list_elem_of_singleton in Hin as ->. by exists None.
    + change (reqs ∈ map (fun value => PyDict.set key (Some value) result)
                        (v0 :: entry)) in Hin.
      apply list_elem_of_fmap in Hin as (v & -> & Hv). exists (Some v). eauto.
  - intros (result & value & Hres & -> & Hval). exists result.
    split; [by apply list_elem_of_In|]. apply list_elem_of_In.
    destruct entry as [|v0 entry].
    + subst value. simpl. left.
    + destruct Hval as (v & Hv & ->).
      change (PyDict.set key (Some v) result
              ∈ map (fun value => PyDict.set key (Some value) result)
                    (v0 :: entry)).
      apply list_elem_of_fmap. eauto.
Qed.

Lemma iter_matrix_keys (m : dict (list string)) reqs :
  PyDict.wf m -> reqs ∈ iter_matrix m ->
  PyDict.keys reqs = rev (PyDict.keys m).
Proof.
  revert reqs. induction m as [|[key entry] rest IH]; intros reqs Hwf Hin.
  - simp iter_matrix in Hin. by apply list_elem_of_singleton in Hin as ->.
  - apply elem_of_iter_matrix_cons in Hin as (result & value & Hres & -> & _);
      [|done].
    apply wf_tail in Hwf as [Hnin Hwf].
    specialize (IH result Hwf Hres).
    rewrite set_absent
      by (rewrite IH, list_elem_of_In, <- in_rev, <- list_elem_of_In; done).
    unfold PyDict.keys in *. rewrite map_app, IH. done.
Qed.

(** X1.  Every configuration the expansion yields is a dictionary over
    exactly the keys of the matrix (they come out in reverse order),
    and binds each key to one of the versions the matrix lists for it,
    or to [None] when it lists none. *)
Theorem iter_matrix_sound (m : dict (list string)) (reqs : dict (option string)) :
  PyDict.wf m ->
  reqs ∈ iter_matrix m ->
  PyDict.wf reqs
  /\ PyDict.keys reqs = rev (PyDict.keys m)
  /\ forall key,
       match PyDict.get key m with
       | None => PyDict.get key reqs = None
       | Some [] => PyDict.get key reqs = Some None
       | Some entry =>
           exists v, v ∈ entry /\ PyDict.get key reqs = Some (Some v)
       end.
Proof.
  intros Hwf Hin. pose proof (iter_matrix_keys m reqs Hwf Hin) as Hkeys.
  split; [|split; [done|]].
  { unfold PyDict.wf. by rewrite Hkeys, <- Permutation_rev. }
  clear Hkeys. revert reqs Hwf Hin.
  induction m as [|[k entry] rest IH]; intros reqs Hwf Hin key.
  - simp iter_matrix in Hin. by apply list_elem_of_singleton in Hin as ->.
  - apply elem_of_iter_matrix_cons in Hin as (result & value & Hres & -> & Hval);
      [|done].
    apply wf_tail in Hwf as [Hnin Hwf]. simpl.
    destruct (String.eqb_spec key k) as [->|Hne].
    + rewrite get_set_eq. destruct entry as [|v0 entry]; [by subst|].
      destruct Hval as (v & Hv & ->). eauto.
    + rewrite get_set_ne by done. by apply IH.
Qed.

Lemma iter_matrix_sound_witness :
  PyDict.keys [("cython", None); ("numpy", Some "1.8")]
  = rev (PyDict.keys (matrix conf_numpy_cython)).
Proof.
  refine (proj1 (proj2 (iter_matrix_sound (matrix conf_numpy_cython)
                          [("cython", None); ("numpy", Some "1.8")] _ _))).
  - unfold PyDict.wf. simpl. compute_done.
  - vm_compute. right. left.
Defined.

(** X2.  The expansion leaves no combination out: for every way of
    choosing, for each key, one of its listed versions ([None] where
    none is listed), a configuration with these bindings is yielded. *)
Theorem iter_matrix_complete (m : dict (list string))
    (choice : string -> option string) :
  PyDict.wf m ->
  (forall key entry,
      (key, entry) ∈ m ->
      match entry with
      | [] => choice key = None
      | _ => exists v, v ∈ entry /\ choice key = Some v
      end) ->
  exists reqs,
    reqs ∈ iter_matrix m
    /\ forall key, key ∈ PyDict.keys m -> PyDict.get key reqs = Some (choice key).
Proof.
  induction m as [|[k entry] rest IH]; intros Hwf Hchoice.
  - exists []. split; [by simp iter_matrix; left|]. intros key Hkey.
    by apply elem_of_nil in Hkey.
  - pose proof (wf_tail _ _ _ Hwf) as [Hnin Hwf'].
    destruct IH as (result & Hres & Hget); [done| |].
    { intros key e He. apply Hchoice. by right. }
    exists (PyDict.set k (choice k) result). split.
    + apply elem_of_iter_matrix_cons; [done|].
      exists result, (choice k). split; [done|]. split; [done|].
      specialize (Hchoice k entry). destruct entry; apply Hchoice; left.
    + intros key Hkey. simpl in Hkey. apply elem_of_cons in Hkey as [->|Hkey].
      * apply get_set_eq.
      * rewrite get_set_ne; [by apply Hget|]. intros ->. done.
Qed.

Lemma iter_matrix_complete_witness :
  exists reqs,
    reqs ∈ iter_matrix (matrix conf_numpy_cython)
    /\ forall key,
         key ∈ PyDict.keys (matrix conf_numpy_cython) ->
         PyDict.get key reqs
         = Some (if String.eqb key "numpy" then Some "1.8" else None).
Proof.
  refine (iter_matrix_complete (matrix conf_numpy_cython)
            (fun key => if String.eqb key "numpy" then Some "1.8" else None)
            _ _).
  - unfold PyDict.wf. simpl. compute_done.
  - intros key entry Hin. simpl in Hin.
    apply elem_of_cons in Hin as [[= -> ->]|Hin].
    + exists "1.8". split; [right; left|reflexivity].
    + apply list_elem_of_singleton in Hin as [= -> ->]. reflexivity.
Defined.

Lemma NoDup_flat_map {A B} (f : A -> list B) (l : list A) :
  NoDup l ->
  (forall x, x ∈ l -> NoDup (f x)) ->
  (forall x1 x2 y, x1 ∈ l -> x2 ∈ l -> y ∈ f x1 -> y ∈ f x2 -> x1 = x2) ->
  NoDup (flat_map f l).
Proof.
  induction 1 as [|x l Hx Hl IH]; intros Hf Hdisj; simpl; [constructor|].
  apply NoDup_app. split; [apply Hf; left|]. split.
  - intros y Hy Hy'. apply list_elem_of_In, in_flat_map in Hy' as (x' & Hx' & Hy').
    apply list_elem_of_In in Hx', Hy'.
    assert (x = x') as -> by (eapply Hdisj; eauto; [left|by right]). done.
  - apply IH.
    + intros x' Hx'. apply Hf. by right.
    + intros x1 x2 y H1 H2. apply Hdisj; by right.
Qed.

(** X3.  When no version is listed twice under a key, no configuration
    is yielded twice. *)
Theorem iter_matrix_NoDup (m : dict (list string)) :
  PyDict.wf m ->
  (forall key entry, (key, entry) ∈ m -> NoDup entry) ->
  NoDup (iter_matrix m).
Proof.
  induction m as [|[k entry] rest IH]; intros Hwf Hentries.
  - simp iter_matrix. apply NoDup_singleton.
  - rewrite iter_matrix_cons by done.
    pose proof (wf_tail _ _ _ Hwf) as [Hnin Hwf'].
    assert (Hset : forall result value,
               result ∈ iter_matrix rest ->
               PyDict.set k value result = result ++ [(k, value)]).
    { intros result value Hres. apply set_absent.
      rewrite (iter_matrix_keys rest result) by done.
      by rewrite list_elem_of_In, <- in_rev, <- list_elem_of_In. }
    assert (Hshape : forall result reqs,
               result ∈ iter_matrix rest ->
               reqs ∈ (if Nat.eqb (length entry) 0
                       then [PyDict.set k None result]
                       else map (fun value => PyDict.set k (Some value) result)
                                entry) ->
               exists value, reqs = result ++ [(k, value)]).
    { intros result reqs Hres Hin. destruct (Nat.eqb (length entry) 0).
      - apply list_elem_of_singleton in Hin as ->. eauto.
      - apply list_elem_of_fmap in Hin as (v & -> & _). eauto. }
    apply NoDup_flat_map.
    + apply IH; [done|]. intros key e He. apply (Hentries key). by right.
    + intros result Hres. destruct (Nat.eqb (length entry) 0).
      * apply NoDup_singleton.
      * apply NoDup_fmap_2_strong; [|apply (Hentries k); left].
        intros v1 v2 _ _. rewrite !Hset by done.
        intros Heq. apply app_inj_tail in Heq as [_ Heq]. congruence.
    + intros r1 r2 reqs H1 H2 Hin1 Hin2.
      destruct (Hshape r1 reqs H1 Hin1) as (v1 & ->).
      destruct (Hshape r2 _ H2 Hin2) as (v2 & Heq).
      by apply app_inj_tail in Heq as [-> _].
Qed.

Lemma iter_matrix_NoDup_witness :
  NoDup (iter_matrix (matrix conf_numpy_cython)).
Proof.
  refine (iter_matrix_NoDup (matrix conf_numpy_cython) _ _).
  - unfold PyDict.wf. simpl. compute_done.
  - intros key entry Hin. simpl in Hin.
    apply elem_of_cons in Hin as [[= -> ->]|Hin].
    + compute_done.
    + apply list_elem_of_singleton in Hin as [= -> ->]. constructor.
Defined.

Lemma iter_matrix_nonempty (m : dict (list string)) : iter_matrix m <> [].
Proof.
  funelim (iter_matrix m); simp iter_matrix; [done|].
  destruct (iter_matrix (PyDict.del key rest)) as [|result results]; [done|].
  simpl. destruct entry; simpl; done.
Qed.

(** X4.  [get_environments] stops at the first interpreter version
    that has no executable on the host: the versions before it being
    found (and virtualenv importable), it yields the environments of
    all their configurations, in order, and then raises the
    [RuntimeError] of the missing version, whatever the matrix; no
    environment of a later version is yielded. *)
Theorem get_environments_missing_interpreter
    (host : Host) (conf : Config) (found : list string) (python : string)
    (rest : list string) :
  pythons conf = found ++ python :: rest ->
  Forall (fun py => which host ("python" +:+ py) <> []) found ->
  virtualenv_source host <> None ->
  which host ("python" +:+ python) = [] ->
  exists envs,
    get_environments host conf
    = (envs,
       Some (RuntimeError ("No executable found for version " +:+ python)))
    /\ map (fun e => (environment.python e, environment.requirements e)) envs
       = flat_map (fun py => map (pair py) (iter_matrix (matrix conf))) found
    /\ Forall (fun e => _env_dir e = env_dir conf /\ _is_setup e = false) envs.
Proof.
  intros Hpy Hfound Hsrc Hmissing.
  set (f := fun pc : string * dict (option string) =>
              Environment_init host (env_dir conf) pc.1 pc.2).
  set (l1 := flat_map (fun py => map (pair py) (iter_matrix (matrix conf)))
               found).
  destruct (yield_each_total f l1) as (envs & Hrun & _).
  { apply Forall_forall. intros [py reqs] Hin.
    apply list_elem_of_In, in_flat_map in Hin as (py' & Hpy' & Hin).
    apply list_elem_of_In, list_elem_of_fmap in Hin as (reqs' & [= -> ->] & _).
    simpl. apply Environment_init_total; [|done].
    rewrite Forall_forall in Hfound. by apply Hfound, list_elem_of_In. }
  exists envs. split; [|split].
  - unfold get_environments, configurations. rewrite Hpy, flat_map_app.
    fold f l1. rewrite yield_each_app, Hrun. simpl.
    pose proof (iter_matrix_nonempty (matrix conf)) as Hne.
    destruct (iter_matrix (matrix conf)) as [|reqs configs]; [done|].
    assert (Hraise : f (python, reqs)
              = Raise (RuntimeError
                         ("No executable found for version " +:+ python))).
    { unfold f, Environment_init. simpl. by rewrite Hmissing. }
    simpl. rewrite Hraise. simpl. by rewrite app_nil_r.
  - apply (yield_each_exhausted f _ l1 envs); [|done].
    intros [py reqs] e He. unfold f in He. simpl in He.
    apply Environment_init_Ok in He as (_ & <- & <- & _). done.
  - clear Hpy. revert envs Hrun. generalize l1. clear l1.
    induction l1 as [|pc l1 IH]; simpl; intros envs.
    + intros [= <-]. constructor.
    + destruct (f pc) as [e|] eqn:He; [|done].
      destruct (yield_each f l1) as [bs st]. simpl. intros [= <- ->].
      constructor; [|by apply IH].
      unfold f in He. apply Environment_init_Ok in He
        as (Hdir & _ & _ & _ & _ & _ & _ & Hflag & _). done.
Qed.

Lemma get_environments_missing_interpreter_witness :
  exists envs,
    get_environments host_with_python27 conf_numpy_cython
    = (envs, Some (RuntimeError "No executable found for version 3.4"))
    /\ map (fun e => (environment.python e, environment.requirements e)) envs
       = [("2.7", [("cython", None); ("numpy", Some "1.7")]);
          ("2.7", [("cython", None); ("numpy", Some "1.8")])]
    /\ Forall (fun e => _env_dir e = "env" /\ _is_setup e = false) envs.
Proof.
  refine (get_environments_missing_interpreter host_with_python27
            conf_numpy_cython ["2.7"] "3.4" [] _ _ _ _).
  - reflexivity.
  - repeat constructor. discriminate.
  - discriminate.
  - reflexivity.
Defined.

(** ** More on the environment name *)

Lemma append_cons (x : ascii) (a b : string) :
  String x a +:+ b = String x (a +:+ b).
Proof. reflexivity. Qed.

Lemma append_empty_l (a : string) : "" +:+ a = a.
Proof. reflexivity. Qed.

Lemma append_assoc (a b c : string) : (a +:+ b) +:+ c = a +:+ (b +:+ c).
Proof.
  induction a as [|x a IH]; [done|]. by rewrite !append_cons, IH.
Qed.

Lemma append_empty_r (a : string) : a +:+ "" = a.
Proof.
  induction a as [|x a IH]; [done|]. by rewrite append_cons, IH.
Qed.

(** X5.  The name does not tell a package name from its version: the
    two are written one after the other, so moving characters from the
    end of the package name to the front of the version (or a whole
    version into the name of an unpinned package) changes the
    requirements but not the name. *)
Theorem environment_name_collision (python key a b : string) :
  a <> "" ->
  environment_name python [(key +:+ a, Some b)]
  = environment_name python [(key, Some (a +:+ b))]
  /\ environment_name python [(key +:+ a, None)]
     = environment_name python [(key, Some a)]
  /\ ~ PyDict.eq_dict [(key +:+ a, Some b)] [(key, Some (a +:+ b))].
Proof.
  intros Ha. split; [|split].
  - unfold environment_name, render_requirement. simpl.
    by rewrite !append_empty_l, !append_assoc.
  - unfold environment_name, render_requirement. simpl.
    by rewrite !append_empty_l.
  - intros Heq. specialize (Heq key). simpl in Heq.
    rewrite String.eqb_refl in Heq.
    destruct (String.eqb_spec key (key +:+ a)) as [Hk|]; [|done].
    apply Ha. rewrite <- (append_empty_r key) in Hk at 1.
    by apply (inj (String.app key)) in Hk.
Qed.

Lemma environment_name_collision_witness :
  environment_name "3.6" [("numpy1", Some "7")]
  = environment_name "3.6" [("numpy", Some "17")].
Proof.
  refine (proj1 (environment_name_collision "3.6" "numpy" "1" "7" _)).
  discriminate.
Defined.

(** ** More on the set-up state machine *)

Lemma evolves_refl e : evolves e e.
Proof. unfold evolves. auto 10. Qed.

Lemma evolves_trans e1 e2 e3 : evolves e1 e2 -> evolves e2 e3 -> evolves e1 e3.
Proof.
  unfold evolves.
  intros (-> & -> & -> & -> & -> & -> & Hs & Hr) (-> & -> & -> & -> & -> & -> & Hs' & Hr').
  auto 10.
Qed.

Lemma keeps_ret {A} (a : A) : keeps (ret a).
Proof. intros s. apply evolves_refl. Qed.

Lemma keeps_raise {A} e : keeps (@raise A e).
Proof. intros s. apply evolves_refl. Qed.

Lemma keeps_bind {A B} (m : M A) (k : A -> M B) :
  keeps m -> (forall a, keeps (k a)) -> keeps (bind m k).
Proof.
  intros Hm Hk s. unfold bind. specialize (Hm s).
  destruct (m s) as [[a|e] s1]; simpl in *; [|done].
  eapply evolves_trans; [exact Hm|]. apply Hk.
Qed.

Lemma keeps_try_except_reraise {A} (body : M A) (handler : M unit) :
  keeps body -> keeps handler -> keeps (try_except_reraise body handler).
Proof.
  intros Hb Hh s. unfold try_except_reraise. specialize (Hb s).
  destruct (body s) as [[a|e] s1]; simpl in *; [done|].
  specialize (Hh s1). destruct (handler s1) as [[[]|e'] s2]; simpl in *;
    by eapply evolves_trans.
Qed.

Lemma keeps_when b (m : M unit) : keeps m -> keeps (when b m).
Proof. destruct b; simpl; [done|]. intros _. apply keeps_ret. Qed.

Lemma keeps_for_each {A} (l : list A) (body : A -> M unit) :
  (forall a, keeps (body a)) -> keeps (for_each l body).
Proof.
  intros Hbody. induction l as [|a l IH]; simpl; [apply keeps_ret|].
  apply keeps_bind; [apply Hbody|]. intros _. apply IH.
Qed.

Lemma keeps_read {A} (f : Environment -> A) : keeps (read f).
Proof. intros s. apply evolves_refl. Qed.

Lemma keeps_path_exists p : keeps (path_exists p).
Proof. intros s. apply evolves_refl. Qed.

Lemma keeps_makedirs p : keeps (makedirs p).
Proof.
  intros s. unfold makedirs.
  destruct (String.eqb p "" || bool_decide (p ∈ fs (world s)))%bool;
    apply evolves_refl.
Qed.

Lemma keeps_rmtree p : keeps (rmtree p).
Proof. intros s. apply evolves_refl. Qed.

Lemma keeps_set_is_setup : keeps (set_is_setup true).
Proof. intros s. unfold evolves. simpl. auto 10. Qed.

Lemma keeps_set_requirements_installed :
  keeps (set_requirements_installed true).
Proof. intros s. unfold evolves. simpl. auto 10. Qed.

Section Keeps.
Context (host : Host) (oracle : Oracle).

Lemma keeps_start c : keeps (start oracle c).
Proof. intros s. apply evolves_refl. Qed.

Lemma keeps_check_call exe args : keeps (check_call oracle exe args).
Proof.
  apply keeps_bind; [apply keeps_start|].
  intros o. destruct (success o); [apply keeps_ret|apply keeps_raise].
Qed.

Lemma keeps_check_output argv error : keeps (check_output oracle argv error).
Proof.
  apply keeps_bind; [apply keeps_start|].
  intros o. destruct (success o || negb error)%bool;
    [apply keeps_ret|apply keeps_raise].
Qed.

Lemma keeps_run_executable exe args error :
  keeps (_run_executable oracle exe args error).
Proof.
  apply keeps_bind; [apply keeps_read|]. intros p. apply keeps_check_output.
Qed.

Lemma keeps_upgrade package : keeps (upgrade oracle package).
Proof.
  apply keeps_bind; [apply keeps_run_executable|]. intros _. apply keeps_ret.
Qed.

Lemma keeps_setup : keeps (setup oracle).
Proof.
  apply keeps_bind; [apply keeps_read|]. intros [|]; [apply keeps_ret|].
  apply keeps_bind; [apply keeps_read|]. intros env_dir.
  apply keeps_bind; [apply keeps_path_exists|]. intros env_dir_exists.
  apply keeps_bind; [apply keeps_when, keeps_makedirs|]. intros _.
  apply keeps_bind; [|intros _; apply keeps_set_is_setup].
  apply keeps_try_except_reraise.
  - apply keeps_bind; [apply keeps_read|]. intros path.
    apply keeps_bind; [apply keeps_path_exists|]. intros exists_.
    apply keeps_bind; [apply keeps_read|]. intros executable.
    apply keeps_bind; [apply keeps_read|]. intros virtualenv_path.
    apply keeps_when, keeps_check_call.
  - apply keeps_bind; [apply keeps_read|]. intros path.
    apply keeps_bind; [apply keeps_path_exists|]. intros exists_.
    apply keeps_when, keeps_rmtree.
Qed.

Lemma keeps_install_requirements : keeps (install_requirements oracle).
Proof.
  apply keeps_bind; [apply keeps_read|]. intros [|]; [apply keeps_ret|].
  apply keeps_bind; [apply keeps_setup|]. intros _.
  apply keeps_bind; [apply keeps_upgrade|]. intros _.
  apply keeps_bind; [apply keeps_read|]. intros reqs.
  apply keeps_bind; [|intros _; apply keeps_set_requirements_installed].
  apply keeps_for_each. intros [k [v|]]; apply keeps_upgrade.
Qed.

(** X6.  Whatever the commands do and whether the method returns or
    raises, [setup], [install_requirements], [run] and
    [install_project] leave the executable, root directory, python
    version, requirements, path and virtualenv path of the object as
    they were, and never clear a flag that was set: the environment
    keeps its name and its directory for life. *)
Theorem methods_keep_identity (conf : Config) (args : list string)
    (error : bool) (s : St) :
  evolves (self s) (self (setup oracle s).2)
  /\ evolves (self s) (self (install_requirements oracle s).2)
  /\ evolves (self s) (self (run oracle args error s).2)
  /\ evolves (self s) (self (install_project host oracle conf s).2)
  /\ name (self (install_project host oracle conf s).2) = name (self s).
Proof.
  assert (Hrun : keeps (run oracle args error)).
  { apply keeps_bind; [apply keeps_install_requirements|].
    intros _. apply keeps_run_executable. }
  assert (Hproj : keeps (install_project host oracle conf)).
  { apply keeps_bind; [apply keeps_install_requirements|]. intros _.
    apply keeps_bind.
    - apply keeps_bind; [apply keeps_run_executable|]. intros _. apply keeps_ret.
    - intros _. apply keeps_bind; [apply keeps_run_executable|].
      intros _. apply keeps_ret. }
  split; [apply keeps_setup|]. split; [apply keeps_install_requirements|].
  split; [apply Hrun|]. split; [apply Hproj|].
  destruct (Hproj s) as (_ & _ & Hpy & Hreqs & _).
  unfold name. by rewrite Hpy, Hreqs.
Qed.
End Keeps.

Section MoreLifecycle.
Context (host : Host) (oracle : Oracle).

(** X7.  An environment whose directory is already there, in a root
    directory that is there, is taken as it is: [setup] returns, sets
    the flag, starts no command and leaves the world untouched. *)
Theorem setup_reuses_directory (s : St) :
  _is_setup (self s) = false ->
  _env_dir (self s) ∈ fs (world s) ->
  _path (self s) ∈ fs (world s) ->
  exists s',
    setup oracle s = (Ok tt, s')
    /\ world s' = world s
    /\ _is_setup (self s') = true
    /\ _requirements_installed (self s') = _requirements_installed (self s)
    /\ name (self s') = name (self s).
Proof.
  intros Hflag Hroot Hpath.
  rewrite setup_unfold by (done || by left). cbv zeta.
  unfold ensure_env_dir. rewrite (bool_decide_eq_true_2 _ Hroot).
  rewrite bool_decide_eq_true_2 by done.
  eexists. split; [reflexivity|]. simpl. done.
Qed.

Lemma upgrade_Ok package s s1 :
  upgrade oracle package s = (Ok tt, s1) ->
  self s1 = self s
  /\ trace (world s1) = trace (world s) ++ [upgrade_call (self s) package].
Proof.
  unfold upgrade, _run_executable, check_output, start, bind, read,
    upgrade_call. simpl.
  match goal with
  | |- context [if ?b then _ else _] => destruct b; simpl; [|done]
  end.
  by intros [= <-].
Qed.

Lemma upgrade_Raise package s e s1 :
  upgrade oracle package s = (Raise e, s1) -> self s1 = self s.
Proof.
  intros Hup. pose proof (upgrade_self oracle package s) as Hself.
  by rewrite Hup in Hself.
Qed.

Lemma for_each_upgrade_Ok (e : Environment)
    (reqs : list (string * option string)) s s1 :
  self s = e ->
  for_each reqs
    (fun kv =>
       match kv.2 with
       | Some val => upgrade oracle (kv.1 +:+ "==" +:+ val)
       | None => upgrade oracle kv.1
       end) s = (Ok tt, s1) ->
  self s1 = e
  /\ trace (world s1)
     = trace (world s)
       ++ map (fun kv => upgrade_call e (requirement_spec kv)) reqs.
Proof.
  revert s. induction reqs as [|kv reqs IH]; intros s Hself; simpl.
  - intros [= <-]. by rewrite app_nil_r.
  - unfold bind at 1.
    assert (Hbody :
      (match kv.2 with
       | Some val => upgrade oracle (kv.1 +:+ "==" +:+ val)
       | None => upgrade oracle kv.1
       end) = upgrade oracle (requirement_spec kv)).
    { unfold requirement_spec. by destruct (kv.2). }
    rewrite Hbody.
    destruct (upgrade oracle (requirement_spec kv) s) as [[[]|?] s0] eqn:Hup;
      [|done].
    apply upgrade_Ok in Hup as [Hself0 Htrace0]. intros Hrest.
    apply IH in Hrest as [Hself1 Htrace1]; [|congruence].
    split; [done|]. rewrite Htrace1, Htrace0, Hself, <- app_assoc. done.
Qed.

(** X8.  A call of [install_requirements] that returns on an object
    whose requirements were not installed has set the environment up
    first, then upgraded setuptools, then upgraded every requirement
    in the order of the dictionary, a pinned one as [name==version]
    and an unpinned one by its name; these are all the commands after
    the set-up, and the flag is set. *)
Theorem install_requirements_commands (s s' : St) :
  _requirements_installed (self s) = false ->
  install_requirements oracle s = (Ok tt, s') ->
  exists s1,
    setup oracle s = (Ok tt, s1)
    /\ trace (world s')
       = trace (world s1)
         ++ upgrade_call (self s) "setuptools"
            :: map (fun kv => upgrade_call (self s) (requirement_spec kv))
                   (_requirements (self s))
    /\ _requirements_installed (self s') = true
    /\ _is_setup (self s') = true.
Proof.
  intros Hflag. unfold install_requirements, bind at 1, read at 1. simpl.
  rewrite Hflag. unfold bind at 1.
  destruct (setup oracle s) as [[[]|?] s1] eqn:Hsetup; [|done].
  intros Hrest. exists s1. split; [done|].
  apply setup_Ok in Hsetup as (Hset & _ & Hreqs & Hpath & _).
  unfold bind at 1 in Hrest.
  destruct (upgrade oracle "setuptools" s1) as [[[]|?] s2] eqn:Hup; [|done].
  apply upgrade_Ok in Hup as [Hself2 Htrace2].
  unfold bind at 1, read at 1 in Hrest. simpl in Hrest.
  unfold bind at 1 in Hrest.
  match type of Hrest with context [for_each ?l ?b s2] =>
    destruct (for_each l b s2) as [[[]|?] s3] eqn:Hfor; [|done]
  end.
  apply (for_each_upgrade_Ok (self s2)) in Hfor as [Hself3 Htrace3]; [|done].
  injection Hrest as <-. simpl. rewrite Hself3, Hself2. split; [|done].
  rewrite Htrace3, Htrace2, Hself2, Hreqs, <- app_assoc. simpl.
  unfold upgrade_call. by rewrite Hpath.
Qed.

Lemma setup_requirements_flag s :
  _requirements_installed (self (setup oracle s).2)
  = _requirements_installed (self s).
Proof.
  destruct (_is_setup (self s)) eqn:Hflag.
  - unfold setup, bind, read. simpl. by rewrite Hflag.
  - destruct (setup_cases oracle s Hflag) as [Hroot| ->]; [|done].
    rewrite setup_unfold by done. cbv zeta.
    case_bool_decide; [done|]. by destruct (success _).
Qed.

Lemma install_requirements_Raise s s' e :
  install_requirements oracle s = (Raise e, s') ->
  _requirements_installed (self s) = false
  /\ _requirements_installed (self s') = false
  /\ self s' = self (setup oracle s).2.
Proof.
  unfold install_requirements, bind at 1, read at 1. simpl.
  destruct (_requirements_installed (self s)) eqn:Hflag; [done|].
  pose proof (setup_requirements_flag s) as Hsetup. rewrite Hflag in Hsetup.
  unfold bind at 1.
  destruct (setup oracle s) as [[[]|?] s1]; simpl in *;
    [|by intros [= <- <-]].
  unfold bind at 1. pose proof (upgrade_self oracle "setuptools" s1) as Hu.
  destruct (upgrade oracle "setuptools" s1) as [[[]|?] s2]; simpl in *;
    [|intros [= <- <-]; by rewrite Hu].
  unfold bind at 1, read at 1. simpl. unfold bind at 1.
  match goal with |- context [for_each ?l ?b s2] =>
    pose proof (for_each_self l b s2) as Hf;
    destruct (for_each l b s2) as [[[]|?] s3]; simpl in *; [done|]
  end.
  intros [= <- <-]. rewrite Hf, Hu; [done|].
  intros [k [v|]] s0; simpl; apply upgrade_self.
Qed.

(** X9.  A call of [install_requirements] that raises leaves the
    requirements flag unset, on an object that is otherwise as the
    set-up left it: the next call runs the upgrades again. *)
Theorem install_requirements_failure (s s' : St) (e : PyError) :
  install_requirements oracle s = (Raise e, s') ->
  _requirements_installed (self s) = false
  /\ _requirements_installed (self s') = false
  /\ self s' = self (setup oracle s).2.
Proof. apply install_requirements_Raise. Qed.

Lemma install_requirements_consistent s :
  flags_consistent (self s) ->
  flags_consistent (self (install_requirements oracle s).2).
Proof.
  intros Hs. destruct (install_requirements oracle s) as [[[]|e] s'] eqn:Hreq.
  - simpl. destruct (_requirements_installed (self s)) eqn:Hflag.
    + unfold install_requirements, bind, read in Hreq. simpl in Hreq.
      rewrite Hflag in Hreq. by injection Hreq as <-.
    + intros _. revert Hreq.
      unfold install_requirements, bind at 1, read at 1. simpl.
      rewrite Hflag. unfold bind at 1.
      destruct (setup oracle s) as [[[]|?] s1] eqn:Hsetup; [|done].
      apply setup_Ok in Hsetup as (Hset & _).
      unfold bind at 1. pose proof (upgrade_self oracle "setuptools" s1) as Hu.
      destruct (upgrade oracle "setuptools" s1) as [[[]|?] s2]; [|done].
      unfold bind at 1, read at 1. simpl. unfold bind at 1.
      match goal with |- context [for_each ?l ?b s2] =>
        pose proof (for_each_self l b s2) as Hf;
        destruct (for_each l b s2) as [[[]|?] s3]; [|done]
      end.
      intros [= <-]. simpl in *. rewrite Hf, Hu; [done|].
      intros [k [v|]] s0; simpl; apply upgrade_self.
  - simpl. apply install_requirements_Raise in Hreq as (_ & Hflag & _).
    intros Hset. congruence.
Qed.

Lemma run_self args error s :
  self (run oracle args error s).2 = self (install_requirements oracle s).2.
Proof.
  unfold run, bind.
  destruct (install_requirements oracle s) as [[[]|?] s1]; simpl; [|done].
  apply run_executable_self.
Qed.

Lemma install_project_self conf s :
  self (install_project host oracle conf s).2
  = self (install_requirements oracle s).2.
Proof.
  unfold install_project, bind at 1.
  destruct (install_requirements oracle s) as [[[]|?] s1]; simpl; [|done].
  unfold bind at 1, uninstall, bind at 1.
  pose proof (run_executable_self oracle "pip"
                ["uninstall"; "-y"; project conf] false s1) as H1.
  destruct (_run_executable oracle "pip" _ false s1) as [[?|?] s2];
    simpl in *; [|done].
  unfold install, bind.
  match goal with |- context [_run_executable oracle "pip" ?a true s2] =>
    pose proof (run_executable_self oracle "pip" a true s2) as H2;
    destruct (_run_executable oracle "pip" a true s2) as [[?|?] s3]
  end; simpl in *; congruence.
Qed.

(** X10.  The requirements are never marked installed on an object
    that is not set up: if that holds before [setup],
    [install_requirements], [run] or [install_project], it holds after,
    however the call ends. *)
Theorem flags_stay_consistent (conf : Config) (args : list string)
    (error : bool) (s : St) :
  flags_consistent (self s) ->
  flags_consistent (self (setup oracle s).2)
  /\ flags_consistent (self (install_requirements oracle s).2)
  /\ flags_consistent (self (run oracle args error s).2)
  /\ flags_consistent (self (install_project host oracle conf s).2).
Proof.
  intros Hs. split; [|split; [|split]].
  - intros Hinst. rewrite setup_requirements_flag in Hinst.
    destruct (keeps_setup oracle s) as (_ & _ & _ & _ & _ & _ & Hmono & _).
    by apply Hmono, Hs.
  - by apply install_requirements_consistent.
  - rewrite run_self. by apply install_requirements_consistent.
  - rewrite install_project_self. by apply install_requirements_consistent.
Qed.

(** X11.  [run] installs the requirements first: when that raises,
    [run] raises the same error in the same state and the interpreter
    is not started; when it returns, [run] starts one more command,
    the environment's own python with the given arguments, and gives
    back what it printed, or raises if it failed and errors count. *)
Theorem run_installs_first (args : list string) (error : bool) (s : St) :
  match install_requirements oracle s with
  | (Raise e, s1) => run oracle args error s = (Raise e, s1)
  | (Ok _, s1) =>
      let o := oracle (world s1) (python_call (self s1) args error) in
      run oracle args error s
      = (if (success o || negb error)%bool then Ok (output o)
         else Raise (ProcessError
                       (OsPath.join_all (_path (self s1)) ["bin"; "python"]
                          :: args)),
         {| self := self s1;
            world := {| fs := fs_after o;
                        trace := trace (world s1)
                                 ++ [python_call (self s1) args error] |} |})
  end.
Proof.
  destruct (install_requirements oracle s) as [[[]|e] s1] eqn:Hreq;
    unfold run, bind at 1; rewrite Hreq; [|done].
  unfold _run_executable, check_output, start, bind, read, python_call. simpl.
  by destruct (success _ || negb error)%bool.
Qed.
End MoreLifecycle.

Lemma setup_reuses_directory_witness :
  exists s',
    setup failing_oracle
      {| self := env_py36;
         world := {| fs := {[ "env"; "env/py3.6-requests2.9" ]}; trace := [] |} |}
    = (Ok tt, s')
    /\ world s' = {| fs := {[ "env"; "env/py3.6-requests2.9" ]}; trace := [] |}
    /\ _is_setup (self s') = true
    /\ _requirements_installed (self s') = false
    /\ name (self s') = "py3.6-requests2.9".
Proof.
  refine (setup_reuses_directory failing_oracle
            {| self := env_py36;
               world := {| fs := {[ "env"; "env/py3.6-requests2.9" ]};
                           trace := [] |} |} _ _ _).
  - reflexivity.
  - apply (bool_decide_unpack _). vm_compute. exact I.
  - apply (bool_decide_unpack _). vm_compute. exact I.
Defined.

Lemma install_requirements_commands_witness :
  exists s1,
    setup obliging_oracle fresh_state = (Ok tt, s1)
    /\ trace (world (install_requirements obliging_oracle fresh_state).2)
       = trace (world s1)
         ++ [upgrade_call env_py36 "setuptools";
             upgrade_call env_py36 "requests==2.9"]
    /\ _requirements_installed
         (self (install_requirements obliging_oracle fresh_state).2) = true
    /\ _is_setup (self (install_requirements obliging_oracle fresh_state).2)
       = true.
Proof.
  refine (install_requirements_commands obliging_oracle fresh_state
            (install_requirements obliging_oracle fresh_state).2 _ _).
  - reflexivity.
  - vm_compute. reflexivity.
Defined.

Lemma install_requirements_failure_witness :
  _requirements_installed (self fresh_state) = false
  /\ _requirements_installed
       (self (install_requirements pip_failing_oracle fresh_state).2) = false
  /\ self (install_requirements pip_failing_oracle fresh_state).2
     = self (setup pip_failing_oracle fresh_state).2.
Proof.
  refine (install_requirements_failure pip_failing_oracle fresh_state
            (install_requirements pip_failing_oracle fresh_state).2
            (ProcessError ["env/py3.6-requests2.9/bin/pip"; "install";
                           "--upgrade"; "setuptools"]) _).
  vm_compute. reflexivity.
Defined.

Lemma flags_stay_consistent_witness :
  flags_consistent (self (setup obliging_oracle fresh_state).2)
  /\ flags_consistent (self (install_requirements obliging_oracle fresh_state).2)
  /\ flags_consistent (self (run obliging_oracle ["-c"; "pass"] true fresh_state).2)
  /\ flags_consistent
       (self (install_project host_with_python obliging_oracle conf_project
                fresh_state).2).
Proof.
  refine (flags_stay_consistent host_with_python obliging_oracle conf_project
            ["-c"; "pass"] true fresh_state _).
  intros Hinst. discriminate Hinst.
Defined.

(** ** Strings and paths *)

Lemma rev_app_spec (a c : string) : String.rev_app a c = String.rev a +:+ c.
Proof.
  unfold String.rev. revert c. induction a as [|x a IH]; intros c; [done|].
  cbn [String.rev_app]. rewrite (IH (String x c)), (IH (String x "")).
  by rewrite append_assoc, append_cons, append_empty_l.
Qed.

Lemma rev_cons (x : ascii) (a : string) :
  String.rev (String x a) = String.rev a +:+ String x "".
Proof. unfold String.rev at 1. cbn [String.rev_app]. apply rev_app_spec. Qed.

Lemma rev_append (a b : string) :
  String.rev (a +:+ b) = String.rev b +:+ String.rev a.
Proof.
  induction a as [|x a IH].
  - by rewrite append_empty_l, append_empty_r.
  - by rewrite append_cons, !rev_cons, IH, append_assoc.
Qed.

Lemma rev_involutive (a : string) : String.rev (String.rev a) = a.
Proof.
  induction a as [|x a IH]; [done|].
  by rewrite rev_cons, rev_append, IH.
Qed.

Lemma prefix_append (p s : string) : String.prefix p (p +:+ s) = true.
Proof.
  induction p as [|x p IH]; [by destruct s|].
  rewrite append_cons. cbn [String.prefix].
  by destruct (ascii_dec x x).
Qed.

Lemma prefix_inv (p s : string) :
  String.prefix p s = true -> exists k, s = p +:+ k.
Proof.
  revert s. induction p as [|x p IH]; intros s.
  - intros _. by exists s.
  - destruct s as [|y s]; [done|]. cbn [String.prefix].
    destruct (ascii_dec x y) as [->|]; [|done].
    intros (k & ->)%IH. by exists k.
Qed.

Lemma endswith_append (s suffix : string) :
  OsPath.endswith (s +:+ suffix) suffix = true.
Proof. unfold OsPath.endswith. rewrite rev_append. apply prefix_append. Qed.

Lemma endswith_inv (s suffix : string) :
  OsPath.endswith s suffix = true -> exists x, s = x +:+ suffix.
Proof.
  unfold OsPath.endswith. intros (k & Hk)%prefix_inv.
  exists (String.rev k). apply (f_equal String.rev) in Hk.
  by rewrite rev_involutive, rev_append, rev_involutive in Hk.
Qed.

Lemma sep_free_cons (x : ascii) (s : string) :
  sep_free (String x s) = (negb (Ascii.eqb x "/") && sep_free s)%bool.
Proof. reflexivity. Qed.

Lemma sep_free_append (a b : string) :
  sep_free (a +:+ b) = (sep_free a && sep_free b)%bool.
Proof.
  induction a as [|x a IH]; [done|].
  rewrite append_cons, !sep_free_cons, IH. by rewrite andb_assoc.
Qed.

Lemma sep_free_rev (a : string) : sep_free (String.rev a) = sep_free a.
Proof.
  induction a as [|x a IH]; [done|].
  rewrite rev_cons, sep_free_append, IH, !sep_free_cons.
  change (sep_free "") with true. by rewrite andb_true_r, andb_comm.
Qed.

Lemma sep_free_startswith (s : string) :
  sep_free s = true -> OsPath.startswith OsPath.sep s = false.
Proof.
  destruct s as [|x s]; [done|].
  rewrite sep_free_cons, startswith_sep_cons.
  by destruct (Ascii.eqb x "/").
Qed.

Lemma sep_free_endswith (s : string) :
  sep_free s = true -> OsPath.endswith s OsPath.sep = false.
Proof.
  intros Hs. unfold OsPath.endswith.
  apply (sep_free_startswith (String.rev s)). by rewrite sep_free_rev.
Qed.

(** The separator cuts a path where it stands: the components of
    [a/t] are those of [a] followed by those of [t]. *)
Lemma split_sep_aux_append cur (a t : string) :
  OsPath.split_sep_aux cur (a +:+ String "/" t)
  = OsPath.split_sep_aux cur a ++ OsPath.split_sep_aux "" t.
Proof.
  revert cur. induction a as [|x a IH]; intros cur.
  - rewrite append_empty_l. reflexivity.
  - rewrite append_cons. cbn [OsPath.split_sep_aux].
    destruct (Ascii.eqb x "/"); [|apply IH].
    rewrite IH. reflexivity.
Qed.

Lemma split_sep_aux_sep_free cur (s : string) :
  sep_free s = true ->
  OsPath.split_sep_aux cur s = [String.rev cur +:+ s].
Proof.
  revert cur. induction s as [|x s IH]; intros cur.
  - intros _. by rewrite append_empty_r.
  - rewrite sep_free_cons. intros [Hx Hs]%andb_true_iff.
    cbn [OsPath.split_sep_aux]. apply negb_true_iff in Hx. rewrite Hx.
    rewrite IH by done. by rewrite rev_cons, append_assoc.
Qed.

Lemma split_sep_sep_free (s : string) :
  sep_free s = true -> OsPath.split_sep s = [s].
Proof. intros Hs. unfold OsPath.split_sep. by rewrite split_sep_aux_sep_free. Qed.

Lemma split_sep_append (a t : string) :
  OsPath.split_sep (a +:+ "/" +:+ t) = OsPath.split_sep a ++ OsPath.split_sep t.
Proof. apply split_sep_aux_append. Qed.

Lemma last_two_app {A} (l : list A) (a b : A) :
  OsPath.last_two (l ++ [a; b]) = [a; b].
Proof.
  unfold OsPath.last_two. rewrite length_app. simpl.
  replace (length l + 2 - 2) with (length l + 0) by lia.
  by rewrite skipn_app, Nat.add_0_r, skipn_all, Nat.sub_diag.
Qed.

Lemma join_sep_free (a b : string) :
  a <> "" -> sep_free a = true -> sep_free b = true ->
  OsPath.join a b = a +:+ "/" +:+ b.
Proof.
  intros Ha Hfa Hfb. unfold OsPath.join.
  rewrite (sep_free_startswith b), (sep_free_endswith a) by done.
  by destruct (String.eqb_spec a "").
Qed.

(** Under any results root a file [machine/file] lies at a path whose
    last two components are the machine and the file, below the
    directory of the machine. *)
Lemma saved_path_shape (result_dir machine file : string) :
  machine <> "" -> sep_free machine = true -> sep_free file = true ->
  exists base,
    OsPath.join result_dir (machine +:+ "/" +:+ file)
    = base +:+ machine +:+ "/" +:+ file
    /\ OsPath.join result_dir machine = base +:+ machine
    /\ (base = "" \/ exists x, base = x +:+ "/").
Proof.
  intros Hne Hm Hf. unfold OsPath.join.
  rewrite (sep_free_startswith machine) by done.
  assert (OsPath.startswith OsPath.sep (machine +:+ "/" +:+ file) = false)
    as ->.
  { destruct machine as [|x machine]; [done|].
    rewrite append_cons, startswith_sep_cons.
    rewrite sep_free_cons in Hm. by destruct (Ascii.eqb x "/"). }
  destruct (String.eqb_spec result_dir "") as [->|Hrd]; simpl.
  - exists "". auto.
  - destruct (OsPath.endswith result_dir OsPath.sep) eqn:Hend.
    + exists result_dir. split; [done|]. split; [done|]. right.
      by apply endswith_inv in Hend.
    + exists (result_dir +:+ "/"). rewrite !append_assoc.
      split; [done|]. split; [done|]. right. by exists result_dir.
Qed.

Lemma components_of_shape (base machine file : string) :
  sep_free machine = true -> sep_free file = true ->
  (base = "" \/ exists x, base = x +:+ "/") ->
  exists l, OsPath.split_sep (base +:+ machine +:+ "/" +:+ file)
            = l ++ [machine; file]
            /\ OsPath.split_sep (base +:+ machine) = l ++ [machine].
Proof.
  intros Hm Hf [->|[x ->]].
  - exists []. rewrite !append_empty_l, split_sep_append.
    by rewrite !split_sep_sep_free.
  - exists (OsPath.split_sep x). rewrite !append_assoc.
    rewrite (split_sep_append x), (split_sep_append x), split_sep_append.
    by rewrite (split_sep_sep_free machine), (split_sep_sep_free file).
Qed.

(** ** More on result records *)

Lemma get_del_eq {V} (d : dict V) k : PyDict.get k (PyDict.del k d) = None.
Proof.
  induction d as [|[k' v'] d IH]; simpl; [done|].
  destruct (String.eqb_spec k k') as [->|Hne]; [done|]. simpl.
  by destruct (String.eqb_spec k k').
Qed.

Lemma get_del_ne {V} (d : dict V) k q :
  q <> k -> PyDict.get q (PyDict.del k d) = PyDict.get q d.
Proof.
  intros Hne. induction d as [|[k' v'] d IH]; simpl; [done|].
  destruct (String.eqb_spec k k') as [->|]; simpl.
  - by destruct (String.eqb_spec q k').
  - destruct (String.eqb_spec q k'); done.
Qed.

Lemma del_set_absent {V} (d : dict V) k v :
  k ∉ PyDict.keys d -> PyDict.del k (PyDict.set k v d) = d.
Proof.
  intros Hnin. rewrite set_absent by done.
  induction d as [|[k' v'] d IH]; simpl.
  - by rewrite String.eqb_refl.
  - simpl in Hnin. apply not_elem_of_cons in Hnin as [Hne Hnin].
    destruct (String.eqb_spec k k'); [done|]. by rewrite IH.
Qed.

Lemma set_set {V} (d : dict V) k v v' :
  PyDict.set k v' (PyDict.set k v d) = PyDict.set k v' d.
Proof.
  induction d as [|[k0 v0] d IH]; simpl.
  - by rewrite String.eqb_refl.
  - destruct (String.eqb_spec k k0); simpl.
    + by rewrite String.eqb_refl.
    + destruct (String.eqb_spec k k0); [done|]. by rewrite IH.
Qed.

Lemma elem_of_keys_set {V} (d : dict V) k v x :
  x ∈ PyDict.keys (PyDict.set k v d) <-> x = k \/ x ∈ PyDict.keys d.
Proof.
  induction d as [|[k0 v0] d IH]; simpl.
  - rewrite list_elem_of_singleton, elem_of_nil. tauto.
  - destruct (String.eqb_spec k k0) as [->|Hne]; simpl.
    + rewrite !elem_of_cons. tauto.
    + rewrite !elem_of_cons, IH. tauto.
Qed.

Lemma wf_set {V} (d : dict V) k v : PyDict.wf d -> PyDict.wf (PyDict.set k v d).
Proof.
  unfold PyDict.wf. induction d as [|[k0 v0] d IH]; simpl.
  - intros _. apply NoDup_singleton.
  - rewrite NoDup_cons. intros [Hnin Hd].
    destruct (String.eqb_spec k k0) as [->|Hne]; simpl.
    + by apply NoDup_cons.
    + apply NoDup_cons. split; [|by apply IH].
      fold (PyDict.keys (PyDict.set k v d)). rewrite elem_of_keys_set.
      intros [?|?]; done.
Qed.

Section MoreStore.
Context (host : Host) (migrate : Z -> Document -> option Document).

Lemma load_filename disk path r :
  load host migrate disk path = Ok r ->
  exists a p,
    OsPath.last_two (OsPath.split_sep path) = a :: p
    /\ _filename r = OsPath.join_all a p
    /\ PyDict.get path disk <> None.
Proof.
  unfold load, load_json.
  destruct (PyDict.get path disk) as [[v d|v]|]; simpl; [| |done].
  - intros Hload.
    assert (exists d',
      result_bind
        (Environment_init host "" (doc_python d') (doc_requirements d'))
        (fun e =>
           result_bind
             (Results_init (doc_params d') e (doc_commit_hash d') (doc_date d'))
             (fun obj =>
                match OsPath.last_two (OsPath.split_sep path) with
                | [] => Raise (RuntimeError "join() needs a path")
                | a :: p =>
                    Ok (with_filename
                          match doc_profiles d' with
                          | Some p0 =>
                              with_profiles (with_results obj (doc_results d'))
                                (text_profiles p0)
                          | None => with_results obj (doc_results d')
                          end (OsPath.join_all a p))
                end)) = Ok r) as (d' & Hd').
    { destruct (v =? api_version)%Z; [by exists d|].
      destruct (v <? api_version)%Z; [|done].
      destruct (migrate v d) as [d'|]; [by exists d'|done]. }
    clear Hload. revert Hd'.
    destruct (Environment_init host "" _ _) as [e|]; simpl; [|done].
    destruct (Results_init _ e _ _) as [obj|]; simpl; [|done].
    destruct (OsPath.last_two _) as [|a p]; [done|].
    intros [= <-]. exists a, p. by simpl.
  - by destruct (v =? api_version)%Z.
Qed.

(** X12.  A record loaded from a file [<machine>/<file>] under any
    results root remembers that relative path as its file name, so
    that joined with the same root it names the file it came from. *)
Theorem load_remembers_path (disk : Disk) (result_dir machine file : string)
    (r : Results) :
  machine <> "" -> sep_free machine = true -> sep_free file = true ->
  load host migrate disk (OsPath.join result_dir (machine +:+ "/" +:+ file))
    = Ok r ->
  _filename r = machine +:+ "/" +:+ file
  /\ saved_path r result_dir
     = OsPath.join result_dir (machine +:+ "/" +:+ file).
Proof.
  intros Hne Hm Hf Hload.
  assert (Hname : _filename r = machine +:+ "/" +:+ file).
  { apply load_filename in Hload as (a & p & Hlast & -> & _).
    destruct (saved_path_shape result_dir machine file Hne Hm Hf)
      as (base & Hpath & _ & Hbase).
    destruct (components_of_shape base machine file Hm Hf Hbase)
      as (l & Hsplit & _).
    rewrite Hpath, Hsplit, last_two_app in Hlast. injection Hlast as <- <-.
    simpl. by apply join_sep_free. }
  split; [done|]. unfold saved_path. by rewrite Hname.
Qed.

(** X13.  [rm] on a record loaded from [<root>/<machine>/<file>], with
    the same root, removes that file and no other: loading it again
    fails for want of the file. *)
Theorem rm_removes_loaded_file (disk : Disk)
    (result_dir machine file : string) (r : Results) :
  machine <> "" -> sep_free machine = true -> sep_free file = true ->
  load host migrate disk (OsPath.join result_dir (machine +:+ "/" +:+ file))
    = Ok r ->
  exists disk',
    rm r result_dir disk = Ok disk'
    /\ load host migrate disk'
         (OsPath.join result_dir (machine +:+ "/" +:+ file))
       = Raise (IOError (OsPath.join result_dir (machine +:+ "/" +:+ file)))
    /\ forall q,
         q <> OsPath.join result_dir (machine +:+ "/" +:+ file) ->
         PyDict.get q disk' = PyDict.get q disk.
Proof.
  intros Hne Hm Hf Hload.
  assert (Hname : _filename r = machine +:+ "/" +:+ file).
  { pose proof Hload as Hl.
    apply load_filename in Hl as (a & p & Hlast & -> & _).
    destruct (saved_path_shape result_dir machine file Hne Hm Hf)
      as (base & Hpath & _ & Hbase).
    destruct (components_of_shape base machine file Hm Hf Hbase)
      as (l & Hsplit & _).
    rewrite Hpath, Hsplit, last_two_app in Hlast. injection Hlast as <- <-.
    simpl. by apply join_sep_free. }
  apply load_filename in Hload as (_ & _ & _ & _ & Hget).
  unfold rm, remove. rewrite Hname.
  destruct (PyDict.get _ disk) as [f|] eqn:Hfile; [|done].
  eexists. split; [reflexivity|]. split.
  - unfold load, load_json. by rewrite get_del_eq.
  - intros q Hq. by apply get_del_ne.
Qed.

(** X14.  [rm] raises when the record's file is not there; when it
    returns, that file is gone and every other file is as it was; and
    on a tree that did not have the file, a [save] that returns,
    followed by [rm], gives the tree back. *)
Theorem rm_after_save (r : Results) (result_dir : string) (disk : Disk) :
  (PyDict.get (saved_path r result_dir) disk = None ->
   rm r result_dir disk = Raise (IOError (saved_path r result_dir)))
  /\ (forall disk',
        rm r result_dir disk = Ok disk' ->
        PyDict.get (saved_path r result_dir) disk' = None
        /\ forall q, q <> saved_path r result_dir ->
                     PyDict.get q disk' = PyDict.get q disk)
  /\ (saved_path r result_dir ∉ PyDict.keys disk ->
      (save r result_dir disk).1 = Ok tt ->
      rm r result_dir (save r result_dir disk).2 = Ok disk).
Proof.
  split; [|split].
  - unfold rm, remove, saved_path. by intros ->.
  - unfold rm, remove, saved_path.
    intros disk'. destruct (PyDict.get _ disk); [|done]. intros [= <-].
    split; [apply get_del_eq|]. intros q Hq. by apply get_del_ne.
  - intros Hnin [p Hp]%save_returns. rewrite (save_Ok _ _ _ _ Hp).
    unfold rm, remove, saved_path. simpl. rewrite get_set_eq.
    by rewrite del_set_absent.
Qed.

(** X15.  [save] writes the record's own file and nothing else,
    whether it returns or raises: every other path holds what it held,
    the tree stays a tree of distinct paths, and saving the same record
    again ends the same way and changes nothing. *)
Theorem save_is_local (r : Results) (result_dir : string) (disk : Disk) :
  (forall q, q <> saved_path r result_dir ->
             PyDict.get q (save r result_dir disk).2 = PyDict.get q disk)
  /\ (PyDict.wf disk -> PyDict.wf (save r result_dir disk).2)
  /\ save r result_dir (save r result_dir disk).2 = save r result_dir disk.
Proof.
  destruct (json_profiles (_profiles r)) as [p|e] eqn:Hp.
  - rewrite !(save_Ok _ _ _ _ Hp). simpl. split; [|split].
    + intros q Hq. by apply get_set_ne.
    + apply wf_set.
    + by rewrite set_set.
  - rewrite !(save_Raise _ _ _ _ Hp). simpl. done.
Qed.
End MoreStore.

Lemma load_remembers_path_witness :
  exists r,
    load host_with_python no_migration disk_epoch_record
      (OsPath.join "results"
         ("bench1" +:+ "/" +:+ "aaaa1111-py3.6-requests2.9.json")) = Ok r
    /\ _filename r = "bench1/aaaa1111-py3.6-requests2.9.json".
Proof.
  destruct (load host_with_python no_migration disk_epoch_record
              (OsPath.join "results"
                 ("bench1" +:+ "/" +:+ "aaaa1111-py3.6-requests2.9.json")))
    as [r|e] eqn:Hload.
  - exists r. split; [reflexivity|].
    refine (proj1 (load_remembers_path host_with_python no_migration
                     disk_epoch_record "results" "bench1"
                     "aaaa1111-py3.6-requests2.9.json" r _ _ _ Hload));
      [discriminate | reflexivity | reflexivity].
  - vm_compute in Hload. discriminate Hload.
Defined.

Lemma rm_removes_loaded_file_witness :
  exists r disk',
    load host_with_python no_migration disk_three_records
      (OsPath.join "results"
         ("bench1" +:+ "/" +:+ "bbbb2222-py3.6-requests2.9.json")) = Ok r
    /\ rm r "results" disk_three_records = Ok disk'
    /\ PyDict.get "results/bench1/aaaa1111-py3.6-requests2.9.json" disk'
       = PyDict.get "results/bench1/aaaa1111-py3.6-requests2.9.json"
           disk_three_records.
Proof.
  destruct (load host_with_python no_migration disk_three_records
              (OsPath.join "results"
                 ("bench1" +:+ "/" +:+ "bbbb2222-py3.6-requests2.9.json")))
    as [r|e] eqn:Hload.
  - destruct (rm_removes_loaded_file host_with_python no_migration
                disk_three_records "results" "bench1"
                "bbbb2222-py3.6-requests2.9.json" r)
      as (disk' & Hrm & _ & Hothers);
      [discriminate | reflexivity | reflexivity | exact Hload |].
    exists r, disk'. split; [reflexivity|]. split; [exact Hrm|].
    apply Hothers. discriminate.
  - vm_compute in Hload. discriminate Hload.
Defined.

(** X16.  [add_time] upserts: the time of the benchmark is the one
    added last, the times of the other benchmarks are untouched, and
    so are the profiles and the file name; the results stay a
    dictionary. *)
Theorem add_time_upserts (r : Results) (benchmark_name : string)
    (time time' : number) :
  PyDict.get benchmark_name (results.results (add_time r benchmark_name time))
    = Some time
  /\ add_time (add_time r benchmark_name time) benchmark_name time'
     = add_time r benchmark_name time'
  /\ (forall other, other <> benchmark_name ->
        PyDict.get other (results.results (add_time r benchmark_name time))
        = PyDict.get other (results.results r))
  /\ (PyDict.wf (results.results r) ->
      PyDict.wf (results.results (add_time r benchmark_name time)))
  /\ _profiles (add_time r benchmark_name time) = _profiles r
  /\ _filename (add_time r benchmark_name time) = _filename r.
Proof.
  unfold add_time, results.results. simpl. split; [apply get_set_eq|].
  split; [unfold with_results; simpl; by rewrite set_set|].
  split; [intros other Hne; by apply get_set_ne|].
  split; [apply wf_set|done].
Qed.

Section MoreProfiles.
Context `{Zlib}.

(** X17.  Profiles are kept per benchmark: [get_profile] raises
    [KeyError] for a benchmark that has none, a new record has none,
    and adding a profile for one benchmark changes neither the profile
    nor the presence of a profile of any other, nor the times. *)
Theorem profiles_are_per_benchmark (r : Results) (benchmark_name : string)
    (profile : bytes) :
  (has_profile r benchmark_name = false ->
   get_profile r benchmark_name = Raise (KeyError benchmark_name))
  /\ (forall params e commit_hash date r0,
        Results_init params e commit_hash date = Ok r0 ->
        has_profile r0 benchmark_name = false)
  /\ (forall other, other <> benchmark_name ->
        get_profile (add_profile r benchmark_name profile) other
          = get_profile r other
        /\ has_profile (add_profile r benchmark_name profile) other
           = has_profile r other)
  /\ results.results (add_profile r benchmark_name profile)
     = results.results r.
Proof.
  split; [|split; [|split]].
  - unfold has_profile, get_profile, PyDict.mem.
    by destruct (PyDict.get benchmark_name (_profiles r)).
  - intros params e commit_hash date r0. unfold Results_init.
    destruct (PyDict.get "machine" params); [|done]. by intros [= <-].
  - intros other Hne.
    unfold get_profile, has_profile, PyDict.mem, add_profile. simpl.
    by rewrite get_set_ne.
  - reflexivity.
Qed.
End MoreProfiles.

Lemma alphabet_checked :
  forallb (fun n => bool_decide (base64.char_of n ∈ base64.alphabet))
          (map N.of_nat (seq 0 64)) = true.
Proof. vm_compute. reflexivity. Qed.

Lemma char_of_alphabet n :
  (n < 64)%N -> base64.char_of n ∈ base64.alphabet.
Proof.
  intros Hn. pose proof alphabet_checked as Hall.
  rewrite forallb_forall in Hall. eapply bool_decide_eq_true_1, Hall.
  apply in_map_iff. exists (N.to_nat n). split; [lia|]. apply in_seq. lia.
Qed.

(** The text [b64encode] writes has only characters of the alphabet
    and the padding character. *)
Lemma b64encode_text_safe (s : bytes) :
  Forall (fun c => c ∈ base64.alphabet \/ c = base64.pad)
         (list_ascii_of_string (base64.b64encode s)).
Proof.
  induction s as [|a|a b|a b c s IH] using string_ind3.
  - constructor.
  - cbn [base64.b64encode list_ascii_of_string].
    pose proof (N_ascii_bounded a).
    repeat (apply Forall_cons; split); [..|constructor];
      first [left; apply char_of_alphabet; lia | by right].
  - cbn [base64.b64encode list_ascii_of_string].
    pose proof (N_ascii_bounded a). pose proof (N_ascii_bounded b).
    repeat (apply Forall_cons; split); [..|constructor];
      first [left; apply char_of_alphabet; lia | by right].
  - cbn [base64.b64encode list_ascii_of_string].
    pose proof (N_ascii_bounded a). pose proof (N_ascii_bounded b).
    pose proof (N_ascii_bounded c).
    do 4 (apply Forall_cons; split; [left; apply char_of_alphabet; lia|]).
    exact IH.
Qed.

Section ProfileText.
Context `{Zlib}.

(** X18.  What [add_profile] stores is text-safe: the stored value,
    of type [bytes], is made of the 64 characters of the base64
    alphabet and the padding character, whatever bytes the profile
    holds. *)
Theorem add_profile_stores_text (r : Results) (benchmark_name : string)
    (profile : bytes) :
  exists text,
    PyDict.get benchmark_name (_profiles (add_profile r benchmark_name profile))
      = Some (Bytes text)
    /\ Forall (fun c => c ∈ base64.alphabet \/ c = base64.pad)
              (list_ascii_of_string text).
Proof.
  eexists. split; [apply get_set_eq|]. apply b64encode_text_safe.
Qed.
End ProfileText.


Lemma get_text_profiles (p : dict string) k :
  PyDict.get k (text_profiles p) = Text <$> PyDict.get k p.
Proof.
  unfold text_profiles. induction p as [|[k0 v0] p IH]; simpl; [done|].
  by destruct (String.eqb k k0).
Qed.

Lemma text_profiles_serializable (p : dict string) :
  Forall (fun kv : string * encoded => is_text kv.2 = true) (text_profiles p).
Proof. unfold text_profiles. induction p; simpl; by constructor. Qed.

Section ProfilePersists.
Context `{ZlibLossless} (host : Host)
  (migrate : Z -> Document -> option Document).

(** X19.  A profile in a result file is read back: when the document
    holds, under a benchmark name, the base64 text of the compressed
    payload, [get_profile] on the loaded record gives the payload; and
    the loaded record, whose profiles are text, is saved again without
    error. *)
Theorem loaded_profile_is_readable
    (disk : Disk) (path : string) (d : Document) (p : dict string)
    (benchmark_name : string) (profile : bytes) (r : Results) :
  PyDict.get path disk = Some (ResultFile api_version d) ->
  doc_profiles d = Some p ->
  PyDict.get benchmark_name p = Some (base64.b64encode (compress profile)) ->
  load host migrate disk path = Ok r ->
  get_profile r benchmark_name = Ok profile
  /\ has_profile r benchmark_name = true
  /\ forall result_dir disk', (save r result_dir disk').1 = Ok tt.
Proof.
  intros Hget Hp Hname. rewrite (load_current _ _ _ _ _ Hget), Hp.
  destruct (Environment_init _ _ _ _) as [e|]; simpl; [|done].
  destruct (Results_init _ _ _ _) as [obj|]; simpl; [|done].
  destruct (OsPath.last_two _) as [|a q]; [done|]. intros [= <-].
  unfold get_profile, has_profile, PyDict.mem. simpl.
  rewrite get_text_profiles, Hname. simpl.
  rewrite b64decode_b64encode. simpl.
  split; [apply decompress_compress|]. split; [done|].
  intros result_dir disk'.
  by rewrite (save_Ok _ _ _ p) by apply json_profiles_text.
Qed.

End ProfilePersists.

Lemma loaded_profile_is_readable_witness :
  exists r,
    load host_with_python no_migration disk_profile_record
      "results/bench1/abcdef12-py3.6-requests2.9.json" = Ok r
    /\ get_profile r "time_sort" = Ok "profile"
    /\ (save r "results" []).1 = Ok tt.
Proof.
  exists record_loaded. split; [reflexivity|].
  destruct (loaded_profile_is_readable (z := zlib_level0) host_with_python
              no_migration disk_profile_record
              "results/bench1/abcdef12-py3.6-requests2.9.json"
              document_with_profile [("time_sort", profile_text)]
              "time_sort" "profile" record_loaded)
    as (Hget & _ & Hsave); [reflexivity..|].
  split; [exact Hget|apply Hsave].
Defined.

(** ** More on scanning *)

Lemma split_sep_aux_sep_free_components cur (s : string) :
  sep_free cur = true ->
  Forall (fun c => sep_free c = true) (OsPath.split_sep_aux cur s).
Proof.
  revert cur. induction s as [|x s IH]; intros cur Hcur.
  - repeat constructor. by rewrite sep_free_rev.
  - cbn [OsPath.split_sep_aux]. destruct (Ascii.eqb x "/") eqn:Hx.
    + constructor; [by rewrite sep_free_rev|]. by apply IH.
    + apply IH. rewrite sep_free_cons, Hx. done.
Qed.

Lemma basename_sep_free (p : string) : sep_free (OsPath.basename p) = true.
Proof.
  unfold OsPath.basename, OsPath.split_sep.
  pose proof (split_sep_aux_sep_free_components "" p eq_refl) as Hall.
  pose proof (split_sep_aux_nonempty "" p) as Hne.
  destruct (OsPath.split_sep_aux "" p) as [|c l] using rev_ind; [done|].
  rewrite last_last. apply Forall_app in Hall as [_ Hall].
  by apply Forall_cons in Hall as [? _].
Qed.

Lemma basename_join (d b : string) :
  sep_free b = true -> OsPath.basename (OsPath.join d b) = b.
Proof.
  intros Hb. unfold OsPath.join. rewrite (sep_free_startswith b) by done.
  unfold OsPath.basename.
  destruct (String.eqb_spec d "") as [->|Hd]; simpl.
  - by rewrite append_empty_l, split_sep_sep_free.
  - destruct (OsPath.endswith d OsPath.sep) eqn:Hend.
    + apply endswith_inv in Hend as [x ->].
      rewrite append_assoc, split_sep_append, (split_sep_sep_free b) by done.
      apply last_last.
    + rewrite split_sep_append, (split_sep_sep_free b) by done.
      apply last_last.
Qed.

Lemma get_app_insert {V} (d1 d2 : dict V) p f q :
  q <> p ->
  PyDict.get q (d1 ++ (p, f) :: d2) = PyDict.get q (d1 ++ d2).
Proof.
  intros Hq. induction d1 as [|[k v] d1 IH]; simpl.
  - by destruct (String.eqb_spec q p).
  - by rewrite IH.
Qed.

Lemma result_mapM_ext {A B} (f g : A -> result B) (l : list A) :
  (forall a, a ∈ l -> f a = g a) -> result_mapM f l = result_mapM g l.
Proof.
  induction l as [|a l IH]; intros Hfg; simpl; [done|].
  rewrite (Hfg a) by left. rewrite IH; [done|].
  intros a' Ha'. apply Hfg. by right.
Qed.

Lemma result_mapM_map {A B C} (f : B -> result C) (g : A -> B) (l : list A) :
  result_mapM f (map g l) = result_mapM (fun a => f (g a)) l.
Proof. induction l as [|a l IH]; simpl; [done|]. by rewrite IH. Qed.

Lemma result_mapM_elem {A B} (f : A -> result B) (l : list A) bs a :
  result_mapM f l = Ok bs -> a ∈ l -> exists b, f a = Ok b /\ b ∈ bs.
Proof.
  revert bs. induction l as [|x l IH]; intros bs; simpl.
  - intros _ Ha. by apply elem_of_nil in Ha.
  - destruct (f x) as [b|] eqn:Hfx; simpl; [|done].
    destruct (result_mapM f l) as [bs'|]; simpl; [|done].
    intros [= <-] [->|Ha]%elem_of_cons.
    + exists b. split; [done|left].
    + destruct (IH bs' eq_refl Ha) as (b' & Hb' & Hin).
      exists b'. split; [done|by right].
Qed.

Section MoreScan.
Context (host : Host) (migrate : Z -> Document -> option Document).

Lemma load_ext disk disk' path :
  PyDict.get path disk = PyDict.get path disk' ->
  load host migrate disk path = load host migrate disk' path.
Proof. intros Hget. unfold load, load_json. by rewrite Hget. Qed.

Lemma iter_results_paths disk top :
  iter_results host migrate disk top
  = result_mapM (load host migrate disk) (result_paths disk top).
Proof. unfold iter_results, result_paths. by rewrite result_mapM_map. Qed.

(** X20.  A file that is called [machine.json] or [benchmarks.json],
    or whose name does not end in [.json], is no result file: whether
    it is in the tree or not, and whatever it holds, the scan yields
    the same records or fails the same way. *)
Theorem iter_results_skips (d1 d2 : Disk) (p : string) (f : File)
    (top : string) :
  OsPath.basename p ∈ skip_files
  \/ OsPath.endswith (OsPath.basename p) ".json" = false ->
  iter_results host migrate (d1 ++ (p, f) :: d2) top
  = iter_results host migrate (d1 ++ d2) top.
Proof.
  intros Hp. rewrite !iter_results_paths.
  assert (Hcond :
    (negb (bool_decide (OsPath.basename p ∈ skip_files))
     && OsPath.endswith (OsPath.basename p) ".json")%bool = false).
  { destruct Hp as [Hp| ->]; [|by rewrite andb_false_r].
    by rewrite bool_decide_eq_true_2. }
  assert (Hpaths : result_paths (d1 ++ (p, f) :: d2) top
                   = result_paths (d1 ++ d2) top).
  { unfold result_paths, walk. destruct (String.eqb top ""); [done|].
    unfold PyDict.keys. rewrite !map_app. simpl.
    rewrite !List.filter_app. simpl.
    destruct (OsPath.startswith _ p); [|done].
    rewrite !map_app, !List.filter_app. simpl. by rewrite Hcond. }
  rewrite Hpaths. apply result_mapM_ext. intros q Hq. apply load_ext.
  apply get_app_insert. intros ->.
  unfold result_paths in Hq.
  apply list_elem_of_fmap in Hq as ([root file] & Hq & Hin). simpl in Hq.
  apply list_elem_of_In, filter_In in Hin as [Hin Hfile]. simpl in Hfile.
  assert (Hfree : sep_free file = true).
  { unfold walk in Hin. destruct (String.eqb top ""); [done|].
    apply in_map_iff in Hin as (q' & [= _ <-] & _). apply basename_sep_free. }
  rewrite Hq, basename_join in Hcond by done. congruence.
Qed.

Lemma latest_loop_first_maximum (l1 l2 : list (string * Z)) h d :
  (0 < d)%Z ->
  Forall (fun cd : string * Z => (cd.2 < d)%Z) l1 ->
  Forall (fun cd : string * Z => (cd.2 <= d)%Z) l2 ->
  latest_loop (l1 ++ (h, d) :: l2) = (d, h).
Proof.
  intros Hd H1 H2. unfold latest_loop. rewrite fold_left_app. simpl.
  destruct (latest_fold_spec l1 0 "") as (_ & _ & Hsel).
  assert (Hlt : ((fold_left latest_step l1 (0%Z, "")).1 < d)%Z).
  { destruct Hsel as [->|[Hin _]]; [done|].
    rewrite Forall_forall in H1. by apply H1 in Hin. }
  unfold latest_step at 2. simpl.
  destruct (Z.gtb_spec d (fold_left latest_step l1 (0%Z, "")).1); [|lia].
  destruct (latest_fold_spec l2 d h) as (_ & _ & [Heq|[Hin Hgt]]); [done|].
  rewrite Forall_forall in H2. apply H2 in Hin. simpl in Hin. lia.
Qed.

(** X21.  Among records with the same greatest date the first one the
    scan meets wins: a later record replaces the running maximum only
    with a strictly greater date. *)
Theorem latest_hash_first_of_ties
    (disk : Disk) (machine root : string)
    (before after : list (string * Z)) (h : string) (d : Z) :
  iter_existing_hashes host migrate disk (OsPath.join root machine)
    = Ok (before ++ (h, d) :: after) ->
  (0 < d)%Z ->
  Forall (fun cd : string * Z => (cd.2 < d)%Z) before ->
  Forall (fun cd : string * Z => (cd.2 <= d)%Z) after ->
  find_latest_result_hash host migrate disk machine root = Ok h.
Proof.
  intros Hscan Hd H1 H2. unfold find_latest_result_hash. rewrite Hscan. simpl.
  by rewrite latest_loop_first_maximum.
Qed.

(** X22.  [get_existing_hashes] gives every pair of the scan once:
    the list has no repetition and the same members as the scan, so
    two records with one hash and different dates both stay; and it
    fails as the scan fails. *)
Theorem get_existing_hashes_distinct (disk : Disk) (results : string) :
  match iter_existing_hashes host migrate disk results with
  | Ok pairs =>
      exists hashes,
        get_existing_hashes host migrate disk results = Ok hashes
        /\ NoDup hashes
        /\ (forall x, x ∈ hashes <-> x ∈ pairs)
        /\ length hashes <= length pairs
  | Raise e => get_existing_hashes host migrate disk results = Raise e
  end.
Proof.
  unfold get_existing_hashes.
  destruct (iter_existing_hashes host migrate disk results) as [pairs|e];
    simpl; [|done].
  eexists. split; [reflexivity|]. split; [apply NoDup_elements|].
  assert (Hmem : forall x,
             x ∈ elements (list_to_set pairs : gset (string * Z)) <-> x ∈ pairs).
  { intros x. by rewrite elem_of_elements, elem_of_list_to_set. }
  split; [done|].
  apply submseteq_length, NoDup_submseteq; [apply NoDup_elements|].
  intros x. apply Hmem.
Qed.
End MoreScan.

Lemma concat_split_sep_aux cur (s : string) :
  String.concat "/" (OsPath.split_sep_aux cur s) = String.rev cur +:+ s.
Proof.
  revert cur. induction s as [|x s IH]; intros cur.
  - simpl. by rewrite append_empty_r.
  - cbn [OsPath.split_sep_aux]. destruct (Ascii.eqb_spec x "/") as [->|Hx].
    + specialize (IH ""). pose proof (split_sep_aux_nonempty "" s) as Hne.
      destruct (OsPath.split_sep_aux "" s) as [|c l]; [done|].
      cbn [String.concat]. cbn [String.concat] in IH. rewrite IH.
      by rewrite append_empty_l.
    + rewrite IH, rev_cons, append_assoc. by rewrite append_cons, append_empty_l.
Qed.

Lemma concat_split_sep (s : string) :
  String.concat "/" (OsPath.split_sep s) = s.
Proof. unfold OsPath.split_sep. by rewrite concat_split_sep_aux, append_empty_l. Qed.

Lemma machine_dir_shape (base machine : string) :
  machine <> "" -> sep_free machine = true ->
  base +:+ machine <> ""
  /\ OsPath.endswith (base +:+ machine) OsPath.sep = false.
Proof.
  intros Hne Hm. split.
  - destruct base; [by rewrite append_empty_l|by rewrite append_cons].
  - unfold OsPath.endswith. rewrite rev_append.
    assert (Hrev : sep_free (String.rev machine) = true) by by rewrite sep_free_rev.
    destruct (String.rev machine) as [|x m] eqn:Hr.
    + apply (f_equal String.rev) in Hr. rewrite rev_involutive in Hr. done.
    + rewrite append_cons. rewrite sep_free_cons in Hrev.
      change (String.rev OsPath.sep) with "/".
      change (OsPath.startswith OsPath.sep (String x (m +:+ String.rev base)) = false).
      rewrite startswith_sep_cons. by destruct (Ascii.eqb x "/").
Qed.

Section SavedIsScanned.
Context (host : Host) (migrate : Z -> Document -> option Document).

(** X23.  A record saved as [machine/file], where the file name ends
    in [.json] and is not a reserved one, is met by the scan of its
    machine's directory: when [save] has returned and that scan
    succeeds, the record's commit hash and date are among the pairs it
    yields. *)
Theorem saved_record_is_scanned
    (r : Results) (result_dir : string) (disk : Disk)
    (machine file : string) (pairs : list (string * Z)) :
  _filename r = machine +:+ "/" +:+ file ->
  machine <> "" -> sep_free machine = true -> sep_free file = true ->
  OsPath.endswith file ".json" = true ->
  file ∉ skip_files ->
  (save r result_dir disk).1 = Ok tt ->
  iter_existing_hashes host migrate (save r result_dir disk).2
    (OsPath.join result_dir machine) = Ok pairs ->
  (commit_hash r, date r) ∈ pairs.
Proof.
  intros Hfile Hne Hm Hf Hjson Hskip Hsaved Hscan.
  destruct (get_saved r result_dir disk Hsaved) as (p & _ & Hget).
  destruct (save_returns r result_dir disk Hsaved) as [p' Hp'].
  destruct (saved_path_shape result_dir machine file Hne Hm Hf)
    as (base & Hpath & Htop & Hbase).
  destruct (components_of_shape base machine file Hm Hf Hbase)
    as (l & Hsp & Hst).
  destruct (machine_dir_shape base machine Hne Hm) as [Htop_ne Htop_end].
  unfold iter_existing_hashes in Hscan. rewrite iter_results_paths in Hscan.
  destruct (result_mapM _ _) as [rs|] eqn:Hrs; simpl in Hscan; [|done].
  injection Hscan as <-.
  assert (Hjoin : OsPath.join (base +:+ machine) file
                  = base +:+ machine +:+ "/" +:+ file).
  { unfold OsPath.join. rewrite (sep_free_startswith file) by done.
    apply String.eqb_neq in Htop_ne. rewrite Htop_ne, Htop_end. simpl.
    by rewrite append_assoc. }
  assert (Hin : saved_path r result_dir
                ∈ result_paths (save r result_dir disk).2
                    (OsPath.join result_dir machine)).
  { unfold result_paths. apply list_elem_of_fmap.
    exists (OsPath.join result_dir machine, file). split.
    - simpl. unfold saved_path. by rewrite Hfile, Hpath, Htop, Hjoin.
    - apply list_elem_of_In, filter_In. split.
      + unfold walk. rewrite Htop.
        apply String.eqb_neq in Htop_ne. rewrite Htop_ne.
        apply in_map_iff. exists (saved_path r result_dir).
        unfold saved_path. rewrite Hfile, Hpath. split.
        * f_equal.
          -- unfold OsPath.dirname. rewrite Hsp.
             rewrite removelast_app by done. simpl removelast.
             change OsPath.sep with "/".
             by rewrite <- Hst, concat_split_sep.
          -- unfold OsPath.basename. rewrite Hsp.
             change [machine; file] with ([machine] ++ [file]).
             by rewrite app_assoc, last_last.
        * apply filter_In. split.
          -- apply list_elem_of_In. rewrite (save_Ok _ _ _ _ Hp'). simpl.
             apply elem_of_keys_set. left. unfold saved_path.
             by rewrite Hfile, Hpath.
          -- unfold OsPath.join at 1. rewrite Htop_ne, Htop_end. simpl.
             unfold OsPath.startswith.
             rewrite append_empty_r.
             replace (base +:+ machine +:+ "/" +:+ file)
               with (((base +:+ machine) +:+ OsPath.sep) +:+ file)
               by by rewrite !append_assoc.
             apply prefix_append.
      + simpl. rewrite Hjson. by rewrite bool_decide_eq_false_2. }
  destruct (result_mapM_elem _ _ _ _ Hrs Hin) as (r' & Hload & Hr').
  rewrite (load_current _ _ _ _ _ Hget) in Hload.
  simpl in Hload.
  destruct (Environment_init _ _ _ _) as [e|]; simpl in Hload; [|done].
  unfold Results_init in Hload.
  destruct (PyDict.get "machine" (_params r)); simpl in Hload; [|done].
  destruct (OsPath.last_two _); [done|]. injection Hload as <-.
  apply list_elem_of_fmap. eexists. split; [|exact Hr']. done.
Qed.
End SavedIsScanned.

Lemma iter_results_skips_witness :
  iter_results host_with_python no_migration disk_three_records "results"
  = iter_results host_with_python no_migration (tail disk_three_records)
      "results".
Proof.
  apply (iter_results_skips host_with_python no_migration []
           (tail disk_three_records) "results/bench1/machine.json"
           (OtherFile 1) "results").
  left. vm_compute. left.
Defined.

Lemma latest_hash_first_of_ties_witness :
  find_latest_result_hash host_with_python no_migration disk_tied_records
    "bench1" "results" = Ok "bbbb2222".
Proof.
  apply (latest_hash_first_of_ties host_with_python no_migration
           disk_tied_records "bench1" "results"
           [("aaaa1111", 100%Z)] [("cccc3333", 300%Z)] "bbbb2222" 300).
  - vm_compute. reflexivity.
  - lia.
  - repeat constructor; simpl; lia.
  - repeat constructor; simpl; lia.
Defined.

Lemma saved_record_is_scanned_witness :
  (commit_hash record_loaded, date record_loaded)
  ∈ [("aaaa1111", 100%Z); ("bbbb2222", 300%Z); ("cccc3333", 200%Z);
     ("abcdef1234567890", 1000%Z)].
Proof.
  apply (saved_record_is_scanned host_with_python no_migration
           record_loaded "results" disk_three_records
           "bench1" "abcdef12-py3.6-requests2.9.json").
  - reflexivity.
  - discriminate.
  - reflexivity.
  - reflexivity.
  - reflexivity.
  - unfold skip_files. intros Hin.
    apply elem_of_cons in Hin as [Hin|Hin]; [discriminate|].
    apply elem_of_cons in Hin as [Hin|Hin]; [discriminate|].
    by apply elem_of_nil in Hin.
  - reflexivity.
  - vm_compute. reflexivity.
Defined.

(** ** Installing the project *)

Section InstallProject.
Context (host : Host) (oracle : Oracle).

(** X24.  Once the requirements are in, [install_project] starts two
    commands and no other: [pip uninstall -y] of the project, then
    [pip install -e] of the project's absolute path.  A failure of the
    first is ignored; the call succeeds exactly when the second
    does, and the object stays as [install_requirements] left it. *)
Theorem install_project_commands (conf : Config) (s s1 : St) :
  install_requirements oracle s = (Ok tt, s1) ->
  let c1 := uninstall_call (self s1) conf in
  let c2 := install_call host (self s1) conf in
  let w2 := {| fs := fs_after (oracle (world s1) c1);
               trace := trace (world s1) ++ [c1] |} in
  let out := install_project host oracle conf s in
  trace (world out.2) = trace (world s1) ++ [c1; c2]
  /\ fs (world out.2) = fs_after (oracle w2 c2)
  /\ self out.2 = self s1
  /\ (out.1 = Ok tt <-> success (oracle w2 c2) = true).
Proof.
  intros Hreq c1 c2 w2 out.
  assert (Hout : out =
    ((if success (oracle w2 c2) then Ok tt
      else Raise (ProcessError
                    [OsPath.join_all (_path (self s1)) ["bin"; "pip"];
                     "install"; "-e"; abspath host (project conf)])),
     {| self := self s1;
        world := {| fs := fs_after (oracle w2 c2);
                    trace := (trace (world s1) ++ [c1]) ++ [c2] |} |})).
  { subst out. unfold install_project, bind at 1. rewrite Hreq.
    cbv [bind uninstall install _run_executable read check_output start
         ret raise].
    simpl. rewrite orb_true_r. simpl. rewrite orb_false_r.
    subst c1 c2 w2. unfold uninstall_call, install_call. simpl.
    by destruct (success _). }
  rewrite Hout. simpl. rewrite <- app_assoc. simpl.
  repeat split; by destruct (success (oracle w2 c2)).
Qed.
End InstallProject.

Lemma install_project_commands_witness :
  let out := install_project host_with_python nothing_to_uninstall_oracle
               conf_project fresh_state in
  trace (world out.2)
  = trace (world (install_requirements nothing_to_uninstall_oracle
                    fresh_state).2)
    ++ [CheckOutput ["env/py3.6-requests2.9/bin/pip"; "uninstall"; "-y";
                     "project"] false;
        CheckOutput ["env/py3.6-requests2.9/bin/pip"; "install"; "-e";
                     "/home/asv/project"] true]
  /\ out.1 = Ok tt.
Proof.
  destruct (install_project_commands host_with_python
              nothing_to_uninstall_oracle conf_project fresh_state
              (install_requirements nothing_to_uninstall_oracle fresh_state).2)
    as (Htrace & _ & _ & Hok).
  - vm_compute. reflexivity.
  - split; [exact Htrace|]. apply Hok. reflexivity.
Defined.

(** ** The environment of a loaded record *)

Section LoadedEnvironment.
Context (host : Host) (migrate : Z -> Document -> option Document).

Lemma load_env disk path r :
  load host migrate disk path = Ok r ->
  exists python requirements,
    Environment_init host "" python requirements = Ok (results.env r).
Proof.
  unfold load.
  destruct (load_json migrate disk path api_version) as [[d|]|]; simpl;
    [|done..].
  destruct (Environment_init host "" (doc_python d) (doc_requirements d))
    as [e|] eqn:He; simpl; [|done].
  unfold Results_init.
  destruct (PyDict.get "machine" (doc_params d)); simpl; [|done].
  destruct (OsPath.last_two _); [done|]. intros [= <-].
  exists (doc_python d), (doc_requirements d).
  by destruct (doc_profiles d).
Qed.

(** X26.  The environment of a loaded record has no root directory:
    [load] builds it with the empty path, which names no directory and
    under which [os.makedirs] can make none.  Whatever the commands
    would do, [setup], [install_requirements], [run] and
    [install_project] on it raise [OSError] before any command is
    started, and change neither the object nor the world. *)
Theorem loaded_environment_cannot_be_set_up
    (disk : Disk) (path : string) (r : Results) (oracle : Oracle) (w : World) :
  load host migrate disk path = Ok r ->
  "" ∉ fs w ->
  let s := {| self := results.env r; world := w |} in
  setup oracle s = (Raise (OSError ""), s)
  /\ install_requirements oracle s = (Raise (OSError ""), s)
  /\ (forall args error, run oracle args error s = (Raise (OSError ""), s))
  /\ (forall conf,
        install_project host oracle conf s = (Raise (OSError ""), s)).
Proof.
  intros Hload Hfs s.
  destruct (load_env disk path r Hload) as (python & requirements & Hinit).
  apply Environment_init_Ok in Hinit
    as (Hdir & _ & _ & _ & _ & _ & _ & Hflag & Hinst).
  assert (Hsetup : setup oracle s = (Raise (OSError ""), s))
    by by apply setup_no_root.
  assert (Hreq : install_requirements oracle s = (Raise (OSError ""), s)).
  { unfold install_requirements, bind at 1, read at 1. simpl.
    rewrite Hinst. unfold bind at 1. by rewrite Hsetup. }
  split; [done|]. split; [done|]. split.
  - intros args error. unfold run, bind. by rewrite Hreq.
  - intros conf. unfold install_project, bind at 1. by rewrite Hreq.
Qed.
End LoadedEnvironment.

Lemma loaded_environment_cannot_be_set_up_witness :
  exists r,
    load host_with_python no_migration disk_epoch_record
      "results/bench1/aaaa1111-py3.6-requests2.9.json" = Ok r
    /\ setup obliging_oracle
         {| self := results.env r; world := {| fs := ∅; trace := [] |} |}
       = (Raise (OSError ""),
          {| self := results.env r; world := {| fs := ∅; trace := [] |} |}).
Proof.
  destruct (load host_with_python no_migration disk_epoch_record
              "results/bench1/aaaa1111-py3.6-requests2.9.json")
    as [r|e] eqn:Hload.
  - exists r. split; [reflexivity|].
    refine (proj1 (loaded_environment_cannot_be_set_up host_with_python
                     no_migration disk_epoch_record
                     "results/bench1/aaaa1111-py3.6-requests2.9.json" r
                     obliging_oracle {| fs := ∅; trace := [] |} Hload _)).
    apply not_elem_of_empty.
  - vm_compute in Hload. discriminate Hload.
Defined.
